(** * ClawCombat nanobot fleet: the scheduler and the fleet manager

    A shallow embedding of [bots/nanobot-fleet/railway/scheduler.py] and of
    [bots/nanobot-fleet/fleet-manager.py]: its names, its configuration of
    a bot, its registration and its set-up loop.

    - Python objects that travel through the manifest are JSON values
      ([value]); a [dict] is an insertion-ordered association list, and the
      operations on values raise what Python raises on a value of the
      wrong kind.
    - Statements run in a state-and-exception monad [M] over a [world]:
      the manifest file, the trace of visible effects, and one call
      counter per kind of interaction with the outside.
    - The outside (environment variables, HTTP answers, the outcome of the
      [nanobot] subprocess, the wall clock) is an [environ] of oracles,
      each indexed by the number of the call.
    - The parts of the Python standard library the code calls ([json],
      [datetime.isoformat]/[fromisoformat], [time.strftime]) are the
      interface [PyStdlib]; an executable instance is given in [Module Lib],
      and [JsonFacts] proves that its JSON reader reads back what its
      writer writes.
    - [while True] is cut after a number of cycles given as an argument;
      the registration loop takes its fuel as an argument.
    - What runs at import is not part of [main]: [BOT_COUNT] enters as the
      integer it was parsed to. Writes to the local file system succeed,
      and numbers with a fraction do not occur in [value]. *)

From Stdlib Require Import ZArith List String Ascii Bool Lia Arith.
From Stdlib Require Import DecimalString DecimalNat.
Import ListNotations.

Local Open Scope string_scope.
Local Open Scope Z_scope.

(** ** Python values and the operations the code applies to them *)

Module Py.

Unset Elimination Schemes.
Inductive value : Type :=
| VNone
| VBool (b : bool)
| VInt (n : Z)
| VStr (s : string)
| VList (l : list value)
| VDict (d : list (string * value)).
Set Elimination Schemes.

(** Exceptions. [SystemExit] derives from [BaseException] only, the others
    from [Exception]. *)
Inductive exn : Type :=
| SystemExit (code : Z)
| KeyError (key : string)
| TypeError
| AttributeError
| ValueError
| JSONDecodeError
| RequestException (cause : string)
| HTTPError (status : Z)
| TimeoutExpired
| OSError (cause : string).

Definition is_Exception (e : exn) : bool :=
  match e with SystemExit _ => false | _ => true end.

Inductive outcome (A : Type) : Type :=
| Return (a : A)
| Raise (e : exn)
| OutOfFuel.
Arguments Return {A} a.
Arguments Raise {A} e.
Arguments OutOfFuel {A}.

(** [bool(v)] *)
Definition truthy (v : value) : bool :=
  match v with
  | VNone => false
  | VBool b => b
  | VInt n => negb (n =? 0)
  | VStr s => negb (String.eqb s "")
  | VList l => match l with [] => false | _ => true end
  | VDict d => match d with [] => false | _ => true end
  end.

(** Lookup and update of an insertion-ordered dict. *)
Fixpoint dict_get (k : string) (d : list (string * value)) : option value :=
  match d with
  | [] => None
  | (k', v) :: d' => if String.eqb k k' then Some v else dict_get k d'
  end.

Fixpoint dict_set (k : string) (v : value) (d : list (string * value))
  : list (string * value) :=
  match d with
  | [] => [(k, v)]
  | (k', v') :: d' =>
      if String.eqb k k' then (k, v) :: d' else (k', v') :: dict_set k v d'
  end.

(** [o[k]] for a string [k] *)
Definition getitem (o : value) (k : string) : outcome value :=
  match o with
  | VDict d => match dict_get k d with
               | Some v => Return v
               | None => Raise (KeyError k)
               end
  | _ => Raise TypeError
  end.

(** [o.get(k, dflt)] *)
Definition get (o : value) (k : string) (dflt : value) : outcome value :=
  match o with
  | VDict d => match dict_get k d with
               | Some v => Return v
               | None => Return dflt
               end
  | _ => Raise AttributeError
  end.

(** [o[k] = v] for a string [k] *)
Definition setitem (o : value) (k : string) (v : value) : outcome value :=
  match o with
  | VDict d => Return (VDict (dict_set k v d))
  | _ => Raise TypeError
  end.

Definition is_str (k : string) (v : value) : bool :=
  match v with VStr s => String.eqb s k | _ => false end.

Fixpoint substring_of (k s : string) : bool :=
  if String.prefix k s then true
  else match s with
       | EmptyString => false
       | String _ s' => substring_of k s'
       end.

(** [k in o] for a string [k] *)
Definition contains (k : string) (o : value) : outcome bool :=
  match o with
  | VDict d => Return (match dict_get k d with Some _ => true | None => false end)
  | VList l => Return (existsb (is_str k) l)
  | VStr s => Return (substring_of k s)
  | _ => Raise TypeError
  end.

(** [len(o)] *)
Definition len (o : value) : outcome nat :=
  match o with
  | VStr s => Return (String.length s)
  | VList l => Return (List.length l)
  | VDict d => Return (List.length d)
  | _ => Raise TypeError
  end.

Fixpoint chars (s : string) : list value :=
  match s with
  | EmptyString => []
  | String c s' => VStr (String c EmptyString) :: chars s'
  end.

(** the items [for x in o] visits *)
Definition iter (o : value) : outcome (list value) :=
  match o with
  | VList l => Return l
  | VDict d => Return (map (fun kv => VStr (fst kv)) d)
  | VStr s => Return (chars s)
  | _ => Raise TypeError
  end.

(** [o.append(x)] *)
Definition append (o : value) (x : value) : outcome value :=
  match o with
  | VList l => Return (VList (l ++ [x]))
  | _ => Raise AttributeError
  end.

(** [v + 1] *)
Definition add1 (v : value) : outcome value :=
  match v with
  | VInt n => Return (VInt (n + 1))
  | VBool b => Return (VInt ((if b then 1 else 0) + 1))
  | _ => Raise TypeError
  end.

(** [v > 0] *)
Definition gt0 (v : value) : outcome bool :=
  match v with
  | VInt n => Return (0 <? n)
  | VBool b => Return b
  | _ => Raise TypeError
  end.

(** [str(n)] for an integer *)
Definition str_of_nat (n : nat) : string :=
  NilZero.string_of_uint (Nat.to_uint n).

End Py.
Import Py.

(** ** The outside world *)

Inductive http_outcome : Type :=
| HttpFailed (cause : string)
    (* [requests] raised: connection error, timeout, ... *)
| HttpResponse (status : Z) (body : option value).
    (* a response arrived; [body] is what [response.json()] returns,
       [None] when the body is not JSON *)

Inductive proc_outcome : Type :=
| Completed (returncode : Z) (stdout : string)
| ProcTimeout                      (* [subprocess.TimeoutExpired] *)
| ProcError (cause : string).      (* the process could not be run *)

Record environ : Type := {
  getenv : string -> option string;         (* [os.environ.get] *)
  BOT_COUNT : Z;                            (* read once at import *)
  register_response : nat -> http_outcome;  (* n-th POST /agents/register *)
  status_response : nat -> http_outcome;    (* n-th GET /agents/<id>/status *)
  nanobot_outcome : nat -> proc_outcome;    (* n-th [nanobot agent] run *)
  clock : nat -> Z                          (* n-th [datetime.now()], in microseconds *)
}.

Inductive level : Type := INFO | WARNING | ERROR.

(** What a log line says; the values interpolated into it are kept. *)
Inductive message : Type :=
| MsgRule (c : ascii) (width : nat)
| MsgTitle
| MsgProvider (provider : string)
| MsgTarget (n : Z)
| MsgNoKey
| MsgRegistering (bot_index : nat)
| MsgRegisterFailed (bot_index : nat) (e : exn)
| MsgRegistered (name : value)
| MsgRetryLater
| MsgFleetSize (n : nat)
| MsgCycleStart (now : Z)
| MsgRateCheckFailed (name : value) (e : exn)
| MsgRateLimited (name : value)
| MsgBattledRecently (name : value)
| MsgStartingBattle (name agent_id : value)
| MsgBattleResult (name : value) (stdout : string)
| MsgBattleTimeout (name : value)
| MsgBattleError (name : value) (e : exn)
| MsgCycleComplete (battles_run : nat)
| MsgSleeping
  (* fleet-manager.py *)
| MsgLoaded (n : nat)
| MsgPlan (target current : nat)
| MsgSettingUp (bot_id : nat)
| MsgFailedToRegister (bot_id : nat) (e : exn)
| MsgErrorCreating (bot_id : nat) (e : exn)
| MsgSetupComplete (total : nat).

Inductive event : Type :=
| Log (lv : level) (msg : message)
| PrintLine (msg : message)
| PostRegister (payload : value)       (* requests.post(.../agents/register, json=payload) *)
| GetStatus (agent_id api_key : value) (* requests.get(.../agents/<id>/status) *)
| WriteConfig (index : value)          (* /tmp/bot-<index>-config.json *)
| RunNanobot (agent_id api_key : value) (* subprocess.run(['nanobot', ...]) *)
| WriteManifest (content : string)
| SetupBotDirectory (bot_id : nat) (agent_id api_key : value)
| WriteFleetScripts
| Sleep (seconds : Z).

Record world : Type := {
  manifest_file : option string;   (* [None]: the file does not exist *)
  trace : list event;              (* oldest first *)
  n_post : nat;
  n_get : nat;
  n_run : nat;
  n_now : nat
}.

(** The standard-library functions the code calls. *)
Class PyStdlib : Type := {
  json_loads : string -> option value;   (* [None]: JSONDecodeError *)
  json_dumps : value -> string;          (* [json.dump(_, indent=2)] *)
  isoformat : Z -> string;
  fromisoformat : string -> option Z;    (* [None]: ValueError *)
  strftime : Z -> string                 (* [time.strftime("%Y-%m-%d %H:%M:%S")] *)
}.

(** ** State and exceptions *)

Definition St (S A : Type) : Type := S -> outcome A * S.

Definition ret {S A} (a : A) : St S A := fun s => (Return a, s).

Definition bind {S A B} (m : St S A) (k : A -> St S B) : St S B :=
  fun s =>
    match m s with
    | (Return a, s') => k a s'
    | (Raise e, s') => (Raise e, s')
    | (OutOfFuel, s') => (OutOfFuel, s')
    end.

Definition raise {S A} (e : exn) : St S A := fun s => (Raise e, s).

Definition lift {S A} (o : outcome A) : St S A := fun s => (o, s).

(** [try: body  except Exception as e: handler e] *)
Definition try_except {S A} (body : St S A) (handler : exn -> St S A) : St S A :=
  fun s =>
    match body s with
    | (Raise e, s') => if is_Exception e then handler e s' else (Raise e, s')
    | r => r
    end.

Declare Scope py_scope.
Delimit Scope py_scope with py.
Notation "x <- m ;; k" := (bind m (fun x => k))
  (at level 61, m at next level, right associativity) : py_scope.
Notation "' pat <- m ;; k" := (bind m (fun x => match x with pat => k end))
  (at level 61, pat pattern, m at next level, right associativity) : py_scope.
Notation "m ;; k" := (bind m (fun _ => k))
  (at level 61, right associativity) : py_scope.
Local Open Scope py_scope.

Definition M : Type -> Type := St world.

Definition emit (ev : event) : M unit :=
  fun w => (Return tt,
            {| manifest_file := manifest_file w; trace := trace w ++ [ev];
               n_post := n_post w; n_get := n_get w;
               n_run := n_run w; n_now := n_now w |}).

Definition log (lv : level) (msg : message) : M unit := emit (Log lv msg).

Definition sleep (seconds : Z) : M unit := emit (Sleep seconds).

Definition read_manifest_file : M (option string) :=
  fun w => (Return (manifest_file w), w).

Definition write_manifest_file (content : string) : M unit :=
  fun w => (Return tt,
            {| manifest_file := Some content;
               trace := trace w ++ [WriteManifest content];
               n_post := n_post w; n_get := n_get w;
               n_run := n_run w; n_now := n_now w |}).

Definition minutes (n : Z) : Z := n * 60 * 1000000.

(** ** railway/scheduler.py *)

Module Scheduler.
Section Program.

Context {L : PyStdlib}.
Variable E : environ.

(** [datetime.now()] *)
Definition now : M Z :=
  fun w => (Return (clock E (n_now w)),
            {| manifest_file := manifest_file w; trace := trace w;
               n_post := n_post w; n_get := n_get w;
               n_run := n_run w; n_now := S (n_now w) |}).

(** [requests.post(f"{CLAWCOMBAT_API}/agents/register", json=payload, timeout=30)] *)
Definition requests_post_register (payload : value) : M (Z * option value) :=
  fun w =>
    let w' := {| manifest_file := manifest_file w;
                 trace := trace w ++ [PostRegister payload];
                 n_post := S (n_post w); n_get := n_get w;
                 n_run := n_run w; n_now := n_now w |} in
    match register_response E (n_post w) with
    | HttpFailed cause => (Raise (RequestException cause), w')
    | HttpResponse status body => (Return (status, body), w')
    end.

(** [requests.get(f"{CLAWCOMBAT_API}/agents/{agent_id}/status", headers=..., timeout=10)] *)
Definition requests_get_status (agent_id api_key : value) : M (Z * option value) :=
  fun w =>
    let w' := {| manifest_file := manifest_file w;
                 trace := trace w ++ [GetStatus agent_id api_key];
                 n_post := n_post w; n_get := S (n_get w);
                 n_run := n_run w; n_now := n_now w |} in
    match status_response E (n_get w) with
    | HttpFailed cause => (Raise (RequestException cause), w')
    | HttpResponse status body => (Return (status, body), w')
    end.

(** [response.ok]: the status is below 400. *)
Definition response_ok (status : Z) : bool := negb ((400 <=? status) && (status <? 600)).

(** [response.raise_for_status()] *)
Definition raise_for_status {S} (status : Z) : St S unit :=
  if response_ok status then ret tt else raise (HTTPError status).

(** [response.json()] *)
Definition response_json {S} (body : option value) : St S value :=
  match body with
  | Some v => ret v
  | None => raise JSONDecodeError
  end.

Record llm_config : Type := {
  provider : string;
  api_key : string;
  model : string
}.

Definition env_set (name : string) : option string :=
  match getenv E name with
  | Some s => if String.eqb s "" then None else Some s
  | None => None
  end.

Definition get_llm_config : M llm_config :=
  match env_set "DEEPSEEK_API_KEY" with
  | Some k =>
      ret {| provider := "deepseek"; api_key := k; model := "deepseek-chat" |}
  | None =>
      match env_set "OPENROUTER_API_KEY" with
      | Some k =>
          ret {| provider := "openrouter"; api_key := k;
                 model := "meta-llama/llama-3.3-70b-instruct:free" |}
      | None =>
          log ERROR MsgNoKey ;;
          raise (SystemExit 1)
      end
  end.

Definition load_manifest : M value :=
  f <- read_manifest_file ;;
  match f with
  | Some content =>
      match json_loads content with
      | Some v => ret v
      | None => raise JSONDecodeError
      end
  | None =>
      t <- now ;;
      ret (VDict [("bots", VList []); ("created", VStr (isoformat t))])
  end.

Definition save_manifest (manifest : value) : M unit :=
  write_manifest_file (json_dumps manifest).

Definition register_bot (bot_index : nat) : M value :=
  log INFO (MsgRegistering bot_index) ;;
  try_except
    ('(status, body) <- requests_post_register (VDict [("auto", VBool true)]) ;;
     raise_for_status status ;;
     data <- response_json body ;;
     has <- lift (contains "data" data) ;;
     if has then
       d <- lift (getitem data "data") ;;
       agent_id <- lift (getitem d "agent_id") ;;
       key <- lift (getitem d "api_key") ;;
       name <- lift (get d "name" (VStr ("Bot-" ++ str_of_nat bot_index))) ;;
       t <- now ;;
       ret (VDict [("index", VInt (Z.of_nat bot_index));
                   ("agent_id", agent_id);
                   ("api_key", key);
                   ("name", name);
                   ("registered", VStr (isoformat t));
                   ("last_battle", VNone);
                   ("battles", VInt 0)])
     else ret VNone)
    (fun e =>
       log ERROR (MsgRegisterFailed bot_index e) ;;
       ret VNone).

Definition check_rate_limit (bot : value) : M bool :=
  try_except
    (agent_id <- lift (getitem bot "agent_id") ;;
     key <- lift (getitem bot "api_key") ;;
     '(status, body) <- requests_get_status agent_id key ;;
     if response_ok status then
       data <- response_json body ;;
       has <- lift (contains "data" data) ;;
       if has then
         d <- lift (getitem data "data") ;;
         remaining <- lift (get d "fights_remaining" (VInt 0)) ;;
         lift (gt0 remaining)
       else ret false
     else ret false)
    (fun e =>
       name <- lift (getitem bot "name") ;;
       log WARNING (MsgRateCheckFailed name e) ;;
       ret false).

(** The body of [run_bot_battle] mutates [bot] in place, also on the way
    to an exception, so it runs over the pair of the record and the
    world. *)
Definition B : Type -> Type := St (value * world).

Definition in_world {A} (m : M A) : B A :=
  fun bw =>
    match m (snd bw) with
    | (o, w') => (o, (fst bw, w'))
    end.

Definition the_bot : B value := fun bw => (Return (fst bw), bw).

(** [bot[k] = v] *)
Definition bot_setitem (k : string) (v : value) : B unit :=
  fun bw =>
    match setitem (fst bw) k v with
    | Return bot' => (Return tt, (bot', snd bw))
    | Raise e => (Raise e, bw)
    | OutOfFuel => (OutOfFuel, bw)
    end.

Definition is_string (v : value) : bool :=
  match v with VStr _ => true | _ => false end.

(** [subprocess.run(['nanobot', 'agent', '-m', prompt], env=env, ..., timeout=300)];
    an environment entry that is not a string makes it raise before the
    process starts. *)
Definition subprocess_run (agent_id key : value) : M (Z * string) :=
  if is_string agent_id && is_string key then
    fun w =>
      let w' := {| manifest_file := manifest_file w;
                   trace := trace w ++ [RunNanobot agent_id key];
                   n_post := n_post w; n_get := n_get w;
                   n_run := S (n_run w); n_now := n_now w |} in
      match nanobot_outcome E (n_run w) with
      | Completed returncode stdout => (Return (returncode, stdout), w')
      | ProcTimeout => (Raise TimeoutExpired, w')
      | ProcError cause => (Raise (OSError cause), w')
      end
  else raise TypeError.

(** [s[-n:]] *)
Definition last_chars (n : nat) (s : string) : string :=
  String.substring (String.length s - n) n s.

Definition run_bot_battle_body (cfg : llm_config) : B bool :=
  bot <- the_bot ;;
  name <- lift (getitem bot "name") ;;
  agent_id <- lift (getitem bot "agent_id") ;;
  in_world (log INFO (MsgStartingBattle name agent_id)) ;;
  index <- lift (getitem bot "index") ;;
  in_world (emit (WriteConfig index)) ;;
  agent_id <- lift (getitem bot "agent_id") ;;
  key <- lift (getitem bot "api_key") ;;
  try_except
    ('(returncode, stdout) <- in_world (subprocess_run agent_id key) ;;
     in_world (log INFO (MsgBattleResult name (last_chars 500 stdout))) ;;
     if returncode =? 0 then
       t <- in_world now ;;
       bot_setitem "last_battle" (VStr (isoformat t)) ;;
       bot <- the_bot ;;
       battles <- lift (get bot "battles" (VInt 0)) ;;
       battles' <- lift (add1 battles) ;;
       bot_setitem "battles" battles' ;;
       ret true
     else ret false)
    (fun e =>
       match e with
       | TimeoutExpired =>
           in_world (log WARNING (MsgBattleTimeout name)) ;;
           ret false
       | _ =>
           in_world (log ERROR (MsgBattleError name e)) ;;
           ret false
       end).

Definition run_bot_battle (bot : value) (cfg : llm_config) : M (bool * value) :=
  fun w =>
    match run_bot_battle_body cfg (bot, w) with
    | (Return ok, (bot', w')) => (Return (ok, bot'), w')
    | (Raise e, (_, w')) => (Raise e, w')
    | (OutOfFuel, (_, w')) => (OutOfFuel, w')
    end.

(** [manifest['bots']] as the list of items a [for] loop visits. *)
Definition bots_of (manifest : value) : outcome (list value) :=
  match getitem manifest "bots" with
  | Return bots => iter bots
  | Raise e => Raise e
  | OutOfFuel => OutOfFuel
  end.

(** The manifest once the records of its list [manifest['bots']] have been
    mutated in place into [bots]. *)
Definition store_bots (manifest : value) (bots : list value) : value :=
  match manifest with
  | VDict d =>
      match dict_get "bots" d with
      | Some (VList _) => VDict (dict_set "bots" (VList bots) d)
      | _ => manifest
      end
  | _ => manifest
  end.

(** [while len(manifest['bots']) < BOT_COUNT: ...] of [main]; one unit of
    fuel per test of the loop condition. *)
Fixpoint register_loop (fuel : nat) (manifest : value) : M value :=
  match fuel with
  | O => lift OutOfFuel
  | S fuel' =>
      bots <- lift (getitem manifest "bots") ;;
      n <- lift (len bots) ;;
      if Z.of_nat n <? BOT_COUNT E then
        bot <- register_bot n ;;
        if truthy bot then
          bots <- lift (getitem manifest "bots") ;;
          bots' <- lift (append bots bot) ;;
          manifest' <- lift (setitem manifest "bots" bots') ;;
          save_manifest manifest' ;;
          name <- lift (getitem bot "name") ;;
          log INFO (MsgRegistered name) ;;
          sleep 1 ;;
          register_loop fuel' manifest'
        else
          log WARNING MsgRetryLater ;;
          ret manifest
      else ret manifest
  end.

(** [if bot.get('last_battle'): ... datetime.now() - last < timedelta(minutes=55)] *)
Definition battled_recently (bot : value) : M bool :=
  last_battle <- lift (get bot "last_battle" VNone) ;;
  if truthy last_battle then
    last_battle <- lift (getitem bot "last_battle") ;;
    last <- match last_battle with
            | VStr s => match fromisoformat s with
                        | Some t => ret t
                        | None => raise ValueError
                        end
            | _ => raise TypeError
            end ;;
    t <- now ;;
    ret (t - last <? minutes 55)
  else ret false.

(** One turn of [for bot in manifest['bots']]: [before] and [after] are the
    records around [bot] in the list. The result is the record after the
    turn and whether a battle was run. *)
Definition visit_bot (cfg : llm_config) (manifest : value)
    (before : list value) (bot : value) (after : list value) : M (value * bool) :=
  can <- check_rate_limit bot ;;
  if negb can then
    name <- lift (getitem bot "name") ;;
    log INFO (MsgRateLimited name) ;;
    ret (bot, false)
  else
    recent <- battled_recently bot ;;
    if recent then
      name <- lift (getitem bot "name") ;;
      log INFO (MsgBattledRecently name) ;;
      ret (bot, false)
    else
      '(ok, bot') <- run_bot_battle bot cfg ;;
      (if ok then save_manifest (store_bots manifest (before ++ bot' :: after))
       else ret tt) ;;
      sleep 5 ;;
      ret (bot', ok).

Fixpoint battle_pass (cfg : llm_config) (manifest : value)
    (before todo : list value) (battles_run : nat) : M (list value * nat) :=
  match todo with
  | [] => ret (before, battles_run)
  | bot :: after =>
      '(bot', ran) <- visit_bot cfg manifest before bot after ;;
      battle_pass cfg manifest (before ++ [bot']) after
                  (if ran then S battles_run else battles_run)
  end.

(** One turn of [while True]. *)
Definition battle_cycle (cfg : llm_config) (manifest : value) : M value :=
  log INFO (MsgRule "-" 30) ;;
  t <- now ;;
  log INFO (MsgCycleStart t) ;;
  bots <- lift (bots_of manifest) ;;
  '(bots', battles_run) <- battle_pass cfg manifest [] bots 0 ;;
  log INFO (MsgCycleComplete battles_run) ;;
  log INFO MsgSleeping ;;
  sleep 600 ;;
  ret (store_bots manifest bots').

(** The first [cycles] turns of [while True]. *)
Fixpoint battle_loop (cycles : nat) (cfg : llm_config) (manifest : value) : M value :=
  match cycles with
  | O => ret manifest
  | S cycles' =>
      manifest' <- battle_cycle cfg manifest ;;
      battle_loop cycles' cfg manifest'
  end.

(** [main] up to the battle loop. *)
Definition startup (fuel : nat) : M (llm_config * value) :=
  log INFO (MsgRule "=" 50) ;;
  log INFO MsgTitle ;;
  log INFO (MsgRule "=" 50) ;;
  cfg <- get_llm_config ;;
  log INFO (MsgProvider (provider cfg)) ;;
  log INFO (MsgTarget (BOT_COUNT E)) ;;
  manifest <- load_manifest ;;
  manifest <- register_loop fuel manifest ;;
  bots <- lift (getitem manifest "bots") ;;
  n <- lift (len bots) ;;
  log INFO (MsgFleetSize n) ;;
  ret (cfg, manifest).

Definition main (fuel cycles : nat) : M value :=
  '(cfg, manifest) <- startup fuel ;;
  battle_loop cycles cfg manifest.

End Program.
End Scheduler.

(** ** fleet-manager.py: names, registration and the set-up loop *)

Module FleetManager.
Section Program.

Context {L : PyStdlib}.
Variable E : environ.

Local Open Scope nat_scope.

Definition FLEET_SIZE : nat := 100.

Definition PERSONALITIES : list string :=
  ["trash_talker"; "silent_grinder"; "analyst"; "underdog"; "veteran";
   "chaotic"; "rivalry_seeker"; "philosopher"]%string.

Definition NAME_PREFIXES : list string :=
  ["Thunder"; "Shadow"; "Cyber"; "Neon"; "Crimson"; "Frost"; "Storm";
   "Void"; "Plasma"; "Quantum"; "Mega"; "Ultra"; "Hyper"; "Neo"; "Proto";
   "Alpha"; "Omega"; "Delta"; "Sigma"; "Zeta"; "Iron"; "Steel"; "Titan";
   "Phantom"; "Spectre"; "Wraith"; "Demon"; "Angel"; "Cosmic"; "Stellar"]%string.

Definition NAME_SUFFIXES : list string :=
  ["Claw"; "Pincer"; "Shell"; "Crusher"; "Snapper"; "Ripper"; "Slayer";
   "Hunter"; "Fighter"; "Warrior"; "Knight"; "King"; "Queen"; "Lord";
   "Master"; "Champion"; "Legend"; "Boss"; "Chief"; "Captain"; "General";
   "X"; "Zero"; "Prime"; "Max"; "Pro"; "Elite"; "Supreme"; "Ultimate"]%string.

Definition LOBSTER_TYPES : list string :=
  ["fire"; "water"; "grass"; "electric"; "ice"; "fighting"; "poison";
   "ground"; "flying"; "psychic"; "bug"; "rock"; "ghost"; "dragon";
   "dark"; "steel"; "fairy"; "normal"]%string.

Definition generate_bot_name (index : nat) : string :=
  let prefix := nth (index mod List.length NAME_PREFIXES) NAME_PREFIXES ""%string in
  let suffix := nth ((index * 7) mod List.length NAME_SUFFIXES) NAME_SUFFIXES ""%string in
  let num := index / (List.length NAME_PREFIXES * List.length NAME_SUFFIXES) + 1 in
  if 1 <? num then (prefix ++ suffix ++ str_of_nat num)%string
  else (prefix ++ suffix)%string.

Definition generate_bot_personality (index : nat) : string :=
  nth (index mod List.length PERSONALITIES) PERSONALITIES ""%string.

(** [c.upper()] on an ASCII letter *)
Definition upper_ascii (c : ascii) : ascii :=
  let n := nat_of_ascii c in
  if (97 <=? n) && (n <=? 122) then ascii_of_nat (n - 32) else c.

Fixpoint upper (s : string) : string :=
  match s with
  | EmptyString => EmptyString
  | String c s' => String (upper_ascii c) (upper s')
  end.

Definition register_bot_on_clawcombat (bot_id : nat) : M (value * value) :=
  let name := generate_bot_name bot_id in
  let lobster_type := nth (bot_id mod List.length LOBSTER_TYPES) LOBSTER_TYPES ""%string in
  try_except
    ('(status, body) <- Scheduler.requests_post_register E
         (VDict [("name", VStr name); ("type", VStr (upper lobster_type));
                 ("auto", VBool true)]%string) ;;
     Scheduler.raise_for_status status ;;
     data <- Scheduler.response_json body ;;
     d <- lift (getitem data "data") ;;
     agent_id <- lift (getitem d "agent_id") ;;
     d <- lift (getitem data "data") ;;
     key <- lift (getitem d "api_key") ;;
     ret (agent_id, key))
    (fun e =>
       emit (PrintLine (MsgFailedToRegister bot_id e)) ;;
       raise e).

(** "Load or create fleet manifest" of [main]. *)
Definition load_or_create : M value :=
  f <- read_manifest_file ;;
  match f with
  | Some content =>
      manifest <- match json_loads content with
                  | Some v => ret v
                  | None => raise JSONDecodeError
                  end ;;
      bots <- lift (getitem manifest "bots") ;;
      n <- lift (len bots) ;;
      emit (PrintLine (MsgLoaded n)) ;;
      ret manifest
  | None =>
      t <- Scheduler.now E ;;
      ret (VDict [("bots", VList []); ("created", VStr (strftime t))]%string)
  end.

(** [for i in range(len(manifest['bots']), FLEET_SIZE): try: ... except: continue] *)
Fixpoint create_bots (indices : list nat) (manifest : value) : M value :=
  match indices with
  | [] => ret manifest
  | i :: rest =>
      emit (PrintLine (MsgSettingUp (i + 1))) ;;
      manifest' <-
        try_except
          ('(agent_id, key) <- register_bot_on_clawcombat i ;;
           emit (SetupBotDirectory i agent_id key) ;;
           bots <- lift (getitem manifest "bots") ;;
           t <- Scheduler.now E ;;
           bots' <- lift (append bots
                      (VDict [("id", VInt (Z.of_nat i));
                              ("agent_id", agent_id);
                              ("name", VStr (generate_bot_name i));
                              ("personality", VStr (generate_bot_personality i));
                              ("created", VStr (strftime t))]%string)) ;;
           manifest' <- lift (setitem manifest "bots" bots') ;;
           write_manifest_file (json_dumps manifest') ;;
           sleep 1 ;;
           ret manifest')
          (fun e =>
             emit (PrintLine (MsgErrorCreating i e)) ;;
             ret manifest) ;;
      create_bots rest manifest'
  end.

Definition main : M value :=
  manifest <- load_or_create ;;
  bots <- lift (getitem manifest "bots") ;;
  n <- lift (len bots) ;;
  emit (PrintLine (MsgPlan FLEET_SIZE n)) ;;
  manifest <- create_bots (seq n (FLEET_SIZE - n)) manifest ;;
  emit WriteFleetScripts ;;
  bots <- lift (getitem manifest "bots") ;;
  n <- lift (len bots) ;;
  emit (PrintLine (MsgSetupComplete n)) ;;
  ret manifest.

End Program.

(** [create_bot_config] and the directory of a bot. The credentials are
    strings, as the signature has them; [BOTS_DIR] is [str(BOTS_DIR)]. *)
Section Config.

Variable BOTS_DIR : string.

Definition personality_prompts : list (string * string) :=
    [("trash_talker",
      "You're confident and love to talk smack. Own your losses with humor but always come back swinging.");
     ("silent_grinder",
      "You let results speak. Keep posts short: 'gg', 'pain', 'levels'. No fluff.");
     ("analyst",
      "You comment on type matchups and meta. 'Dragon type is broken', 'Bad matchup but I'll take it'.");
     ("underdog",
      "Celebrate every win like it's your first. Be dramatic about losses. You're always the underdog.");
     ("veteran",
      "You're wise and experienced. Mentor newbies, respect good opponents, share knowledge.");
     ("chaotic",
      "Random energy. Sometimes profound, sometimes nonsense. Keep them guessing.");
     ("rivalry_seeker",
      "Always looking for beef. Call out opponents, demand rematches, build drama.");
     ("philosopher",
      "Deep thoughts about lobster existence. 'What is victory but temporary shell integrity?'")].

(** [personality_prompts[personality]] *)
Fixpoint prompt_of (personality : string) (prompts : list (string * string))
  : outcome string :=
  match prompts with
  | [] => Raise (KeyError personality)
  | (k, prompt) :: rest =>
      if String.eqb personality k then Return prompt else prompt_of personality rest
  end.

Definition line_break : string := String (ascii_of_nat 10) EmptyString.

(** [f"{n:03d}"] *)
Definition format_03d (n : nat) : string :=
  let s := str_of_nat n in
  string_of_list_ascii (repeat "0"%char (3 - String.length s)) ++ s.

(** [f"bot_{bot_id:03d}"] *)
Definition bot_dir_name (bot_id : nat) : string := "bot_" ++ format_03d bot_id.

(** [str(BOTS_DIR / f"bot_{bot_id:03d}")] *)
Definition bot_dir (bot_id : nat) : string := BOTS_DIR ++ "/" ++ bot_dir_name bot_id.

Definition system_prompt (personality prompt agent_id api_key : string) : string :=
  "You are a ClawCombat lobster battler. Your personality: " ++ personality ++ "."
  ++ line_break ++ prompt ++ line_break
  ++ line_break ++ "Your ClawCombat credentials:"
  ++ line_break ++ "- Agent ID: " ++ agent_id
  ++ line_break ++ "- API Key: " ++ api_key ++ line_break
  ++ line_break
  ++ "Follow the clawcombat-skill.md instructions exactly. Battle hourly, post after every battle, maintain your personality.".

Definition create_bot_config (bot_id : nat) (agent_id api_key : string)
    (llm_provider : value) : outcome value :=
  let personality := generate_bot_personality bot_id in
  match get llm_provider "default_model" (VStr "deepseek/deepseek-chat") with
  | Return model =>
      match prompt_of personality personality_prompts with
      | Return prompt =>
          Return
            (VDict
               [("providers", llm_provider);
                ("agents",
                 VDict [("defaults",
                         VDict [("model", model);
                                ("systemPrompt",
                                 VStr (system_prompt personality prompt agent_id api_key))])]);
                ("workspace", VStr (bot_dir bot_id));
                ("env", VDict [("CLAWCOMBAT_AGENT_ID", VStr agent_id);
                               ("CLAWCOMBAT_API_KEY", VStr api_key)])])
      | Raise e => Raise e
      | OutOfFuel => OutOfFuel
      end
  | Raise e => Raise e
  | OutOfFuel => OutOfFuel
  end.

End Config.
End FleetManager.

(** ** An executable standard library

    [json.dumps(_, indent=2)] and [json.loads] on the values of this model
    (a character is a code point below 256; a number with a fraction or an
    exponent is refused), and [isoformat]/[fromisoformat] on naive
    datetimes counted in microseconds from 1970-01-01T00:00:00. *)

Module Lib.

Local Open Scope char_scope.

Definition dquote : ascii := ascii_of_nat 34.
Definition backslash : ascii := ascii_of_nat 92.
Definition newline : ascii := ascii_of_nat 10.

Definition text (s : string) : list ascii := list_ascii_of_string s.

Definition hex_digit (n : nat) : ascii :=
  nth n (text "0123456789abcdef") "0".

(** [json.encoder.py_encode_basestring_ascii] on one character *)
Definition escape_char (c : ascii) : list ascii :=
  let n := nat_of_ascii c in
  if (n =? 34)%nat then [backslash; dquote]
  else if (n =? 92)%nat then [backslash; backslash]
  else if (n =? 10)%nat then [backslash; "n"]
  else if (n =? 13)%nat then [backslash; "r"]
  else if (n =? 9)%nat then [backslash; "t"]
  else if (n =? 8)%nat then [backslash; "b"]
  else if (n =? 12)%nat then [backslash; "f"]
  else if ((32 <=? n) && (n <=? 126))%nat then [c]
  else [backslash; "u"; "0"; "0"; hex_digit (n / 16); hex_digit (n mod 16)].

Definition quote (s : string) : list ascii :=
  dquote :: flat_map escape_char (text s) ++ [dquote].

Definition digit_char (d : Z) : ascii := ascii_of_nat (48 + Z.to_nat d).

(** The decimal digits of [n >= 0] in front of [acc]; [fuel] bounds their
    number. *)
Fixpoint digits_of (fuel : nat) (n : Z) (acc : list ascii) : list ascii :=
  match fuel with
  | O => acc
  | S fuel' =>
      let acc' := digit_char (n mod 10)%Z :: acc in
      if (n <? 10)%Z then acc' else digits_of fuel' (n / 10)%Z acc'
  end.

(** [str(n)] *)
Definition decimal (n : Z) : list ascii :=
  if (n <? 0)%Z then "-" :: digits_of (S (Z.to_nat (Z.log2 (- n)))) (- n)%Z []
  else digits_of (S (Z.to_nat (Z.log2 n))) n [].

Definition newline_indent (n : nat) : list ascii := newline :: repeat " " n.

Fixpoint dumps_at (ind : nat) (v : value) : list ascii :=
  match v with
  | VNone => text "null"
  | VBool true => text "true"
  | VBool false => text "false"
  | VInt n => decimal n
  | VStr s => quote s
  | VList [] => text "[]"
  | VList (x :: xs) =>
      "[" :: newline_indent (ind + 2) ++ dumps_at (ind + 2) x
      ++ (fix items (l : list value) : list ascii :=
            match l with
            | [] => []
            | y :: l' =>
                "," :: newline_indent (ind + 2) ++ dumps_at (ind + 2) y ++ items l'
            end) xs
      ++ newline_indent ind ++ ["]"]
  | VDict [] => text "{}"
  | VDict ((k, x) :: kxs) =>
      "{" :: newline_indent (ind + 2) ++ quote k ++ text ": " ++ dumps_at (ind + 2) x
      ++ (fix members (l : list (string * value)) : list ascii :=
            match l with
            | [] => []
            | (k', y) :: l' =>
                "," :: newline_indent (ind + 2) ++ quote k' ++ text ": "
                ++ dumps_at (ind + 2) y ++ members l'
            end) kxs
      ++ newline_indent ind ++ ["}"]
  end.

Definition dumps (v : value) : string := string_of_list_ascii (dumps_at 0 v).

(** *** [json.loads] *)

Definition is_ws (c : ascii) : bool :=
  let n := nat_of_ascii c in
  ((n =? 32) || (n =? 9) || (n =? 10) || (n =? 13))%nat.

Fixpoint skip_ws (s : list ascii) : list ascii :=
  match s with
  | c :: s' => if is_ws c then skip_ws s' else s
  | [] => []
  end.

Definition hex_value (c : ascii) : option nat :=
  let n := nat_of_ascii c in
  if ((48 <=? n) && (n <=? 57))%nat then Some (n - 48)%nat
  else if ((97 <=? n) && (n <=? 102))%nat then Some (n - 87)%nat
  else if ((65 <=? n) && (n <=? 70))%nat then Some (n - 55)%nat
  else None.

Definition unescape (c : ascii) : option ascii :=
  let n := nat_of_ascii c in
  if (n =? 34)%nat then Some dquote
  else if (n =? 92)%nat then Some backslash
  else if (n =? 47)%nat then Some "/"
  else if (n =? 98)%nat then Some (ascii_of_nat 8)
  else if (n =? 102)%nat then Some (ascii_of_nat 12)
  else if (n =? 110)%nat then Some (ascii_of_nat 10)
  else if (n =? 114)%nat then Some (ascii_of_nat 13)
  else if (n =? 116)%nat then Some (ascii_of_nat 9)
  else None.

(** The text after an opening quote, up to the closing one. *)
Fixpoint scan_string (s : list ascii) : option (list ascii * list ascii) :=
  match s with
  | [] => None
  | c :: s' =>
      if Ascii.eqb c dquote then Some ([], s')
      else if Ascii.eqb c backslash then
        match s' with
        | [] => None
        | e :: s'' =>
            if Ascii.eqb e "u" then
              match s'' with
              | h1 :: h2 :: h3 :: h4 :: s4 =>
                  match hex_value h1, hex_value h2, hex_value h3, hex_value h4 with
                  | Some 0%nat, Some 0%nat, Some a, Some b =>
                      match scan_string s4 with
                      | Some (cs, r) => Some (ascii_of_nat (16 * a + b) :: cs, r)
                      | None => None
                      end
                  | _, _, _, _ => None
                  end
              | _ => None
              end
            else
              match unescape e with
              | Some c' =>
                  match scan_string s'' with
                  | Some (cs, r) => Some (c' :: cs, r)
                  | None => None
                  end
              | None => None
              end
        end
      else if (nat_of_ascii c <? 32)%nat then None
      else
        match scan_string s' with
        | Some (cs, r) => Some (c :: cs, r)
        | None => None
        end
  end.

Definition is_digit (c : ascii) : bool :=
  let n := nat_of_ascii c in ((48 <=? n) && (n <=? 57))%nat.

Fixpoint span_digits (s : list ascii) : list ascii * list ascii :=
  match s with
  | c :: s' =>
      if is_digit c then
        let (ds, r) := span_digits s' in (c :: ds, r)
      else ([], s)
  | [] => ([], [])
  end.

Definition starts_fraction (s : list ascii) : bool :=
  match s with
  | c :: _ => Ascii.eqb c "." || Ascii.eqb c "e" || Ascii.eqb c "E"
  | [] => false
  end.

Definition digit_value (c : ascii) : Z := Z.of_nat (nat_of_ascii c - 48).

Definition digits_value (ds : list ascii) : option Z :=
  if forallb is_digit ds then
    Some (fold_left (fun acc c => acc * 10 + digit_value c)%Z ds 0%Z)
  else None.

Definition number_of (sign digits : list ascii) : option Z :=
  match digits_value digits with
  | Some n => Some (match sign with [] => n | _ => (- n)%Z end)
  | None => None
  end.

Definition scan_number (s : list ascii) : option (Z * list ascii) :=
  let (sign, s1) := match s with
                    | c :: s' => if Ascii.eqb c "-" then (["-"], s') else ([], s)
                    | [] => ([], s)
                    end in
  let (ds, r) := span_digits s1 in
  let (ds, r) := match ds with
                 | z :: d :: ds' => if Ascii.eqb z "0" then ([z], d :: ds' ++ r) else (ds, r)
                 | _ => (ds, r)
                 end in
  match ds with
  | [] => None
  | _ => if starts_fraction r then None
         else match number_of sign ds with
              | Some n => Some (n, r)
              | None => None
              end
  end.

Fixpoint strip_prefix (p s : list ascii) : option (list ascii) :=
  match p, s with
  | [], _ => Some s
  | a :: p', b :: s' => if Ascii.eqb a b then strip_prefix p' s' else None
  | _ :: _, [] => None
  end.

Fixpoint build_dict (pairs : list (string * value)) (d : list (string * value))
  : list (string * value) :=
  match pairs with
  | [] => d
  | (k, v) :: pairs' => build_dict pairs' (dict_set k v d)
  end.

Fixpoint parse_value (fuel : nat) (s : list ascii) {struct fuel}
  : option (value * list ascii) :=
  match fuel with
  | O => None
  | S f =>
      match s with
      | [] => None
      | c :: s' =>
          if Ascii.eqb c dquote then
            match scan_string s' with
            | Some (cs, r) => Some (VStr (string_of_list_ascii cs), r)
            | None => None
            end
          else if Ascii.eqb c "[" then
            match skip_ws s' with
            | d :: r =>
                if Ascii.eqb d "]" then Some (VList [], r)
                else match parse_elements f (d :: r) with
                     | Some (vs, r') => Some (VList vs, r')
                     | None => None
                     end
            | [] => None
            end
          else if Ascii.eqb c "{" then
            match skip_ws s' with
            | d :: r =>
                if Ascii.eqb d "}" then Some (VDict [], r)
                else match parse_members f (d :: r) with
                     | Some (kvs, r') => Some (VDict (build_dict kvs []), r')
                     | None => None
                     end
            | [] => None
            end
          else
            match strip_prefix (text "null") s with
            | Some r => Some (VNone, r)
            | None =>
            match strip_prefix (text "true") s with
            | Some r => Some (VBool true, r)
            | None =>
            match strip_prefix (text "false") s with
            | Some r => Some (VBool false, r)
            | None =>
            match scan_number s with
            | Some (n, r) => Some (VInt n, r)
            | None => None
            end end end end
      end
  end
with parse_elements (fuel : nat) (s : list ascii) {struct fuel}
  : option (list value * list ascii) :=
  match fuel with
  | O => None
  | S f =>
      match parse_value f s with
      | Some (v, r) =>
          match skip_ws r with
          | c :: r' =>
              if Ascii.eqb c "," then
                match parse_elements f (skip_ws r') with
                | Some (vs, r'') => Some (v :: vs, r'')
                | None => None
                end
              else if Ascii.eqb c "]" then Some ([v], r')
              else None
          | [] => None
          end
      | None => None
      end
  end
with parse_members (fuel : nat) (s : list ascii) {struct fuel}
  : option (list (string * value) * list ascii) :=
  match fuel with
  | O => None
  | S f =>
      match s with
      | q :: s' =>
          if Ascii.eqb q dquote then
            match scan_string s' with
            | Some (k, r) =>
                match skip_ws r with
                | c :: r1 =>
                    if Ascii.eqb c ":" then
                      match parse_value f (skip_ws r1) with
                      | Some (v, r2) =>
                          match skip_ws r2 with
                          | c' :: r3 =>
                              if Ascii.eqb c' "," then
                                match parse_members f (skip_ws r3) with
                                | Some (kvs, r4) =>
                                    Some ((string_of_list_ascii k, v) :: kvs, r4)
                                | None => None
                                end
                              else if Ascii.eqb c' "}" then
                                Some ([(string_of_list_ascii k, v)], r3)
                              else None
                          | [] => None
                          end
                      | None => None
                      end
                    else None
                | [] => None
                end
            | None => None
            end
          else None
      | [] => None
      end
  end.

Definition loads (s : string) : option value :=
  let t := text s in
  match parse_value (S (List.length t)) (skip_ws t) with
  | Some (v, r) => match skip_ws r with [] => Some v | _ => None end
  | None => None
  end.

(** *** Naive datetimes *)

Local Open Scope Z_scope.

(** Days since 1970-01-01 of a date of the proleptic Gregorian calendar. *)
Definition days_from_civil (y m d : Z) : Z :=
  let y := if m <=? 2 then y - 1 else y in
  let era := y / 400 in
  let yoe := y - era * 400 in
  let doy := (153 * (if 2 <? m then m - 3 else m + 9) + 2) / 5 + d - 1 in
  let doe := yoe * 365 + yoe / 4 - yoe / 100 + doy in
  era * 146097 + doe - 719468.

Definition civil_from_days (z : Z) : Z * Z * Z :=
  let z := z + 719468 in
  let era := z / 146097 in
  let doe := z - era * 146097 in
  let yoe := (doe - doe / 1460 + doe / 36524 - doe / 146096) / 365 in
  let y := yoe + era * 400 in
  let doy := doe - (365 * yoe + yoe / 4 - yoe / 100) in
  let mp := (5 * doy + 2) / 153 in
  let d := doy - (153 * mp + 2) / 5 + 1 in
  let m := if mp <? 10 then mp + 3 else mp - 9 in
  ((if m <=? 2 then y + 1 else y), m, d).

Definition pad (width : nat) (n : Z) : list ascii :=
  let ds := decimal n in
  repeat "0"%char (width - List.length ds) ++ ds.

Definition us_per_second : Z := 1000000.
Definition us_per_day : Z := 86400 * us_per_second.

Definition format_datetime (sep : ascii) (fraction : bool) (t : Z) : string :=
  let '(y, m, d) := civil_from_days (t / us_per_day) in
  let rest := t mod us_per_day in
  let secs := rest / us_per_second in
  let us := rest mod us_per_second in
  string_of_list_ascii
    (pad 4 y ++ ["-"%char] ++ pad 2 m ++ ["-"%char] ++ pad 2 d ++ [sep]
     ++ pad 2 (secs / 3600) ++ [":"%char] ++ pad 2 (secs / 60 mod 60)
     ++ [":"%char] ++ pad 2 (secs mod 60)
     ++ (if fraction && negb (us =? 0) then "."%char :: pad 6 us else [])).

Definition is_leap (y : Z) : bool :=
  ((y mod 4 =? 0) && negb (y mod 100 =? 0)) || (y mod 400 =? 0).

Definition days_in_month (y m : Z) : Z :=
  if m =? 2 then (if is_leap y then 29 else 28)
  else if (m =? 4) || (m =? 6) || (m =? 9) || (m =? 11) then 30
  else 31.

(** [HH[:MM[:SS[.fff[fff]]]]] as microseconds into the day *)
Definition parse_time (s : list ascii) : option Z :=
  let field (ds : list ascii) (bound : Z) : option Z :=
    match digits_value ds with
    | Some n => if n <? bound then Some n else None
    | None => None
    end in
  let fraction (ds : list ascii) : option Z :=
    match ds, digits_value ds with
    | [_; _; _], Some n => Some (n * 1000)
    | [_; _; _; _; _; _], Some n => Some n
    | _, _ => None
    end in
  match s with
  | h1 :: h2 :: r =>
      match field [h1; h2] 24 with
      | None => None
      | Some hh =>
          match r with
          | [] => Some (hh * 3600 * us_per_second)
          | c1 :: m1 :: m2 :: r' =>
              if negb (Ascii.eqb c1 ":") then None else
              match field [m1; m2] 60 with
              | None => None
              | Some mm =>
                  match r' with
                  | [] => Some ((hh * 3600 + mm * 60) * us_per_second)
                  | c2 :: s1 :: s2 :: r'' =>
                      if negb (Ascii.eqb c2 ":") then None else
                      match field [s1; s2] 60 with
                      | None => None
                      | Some ss =>
                          let whole := (hh * 3600 + mm * 60 + ss) * us_per_second in
                          match r'' with
                          | [] => Some whole
                          | dot :: fs =>
                              if negb (Ascii.eqb dot ".") then None else
                              match fraction fs with
                              | Some us => Some (whole + us)
                              | None => None
                              end
                          end
                      end
                  | _ => None
                  end
              end
          | _ => None
          end
      end
  | _ => None
  end.

(** [datetime.fromisoformat] on [YYYY-MM-DD[*HH[:MM[:SS[.fff[fff]]]]]];
    a string with a UTC offset is refused. *)
Definition parse_isoformat (s : string) : option Z :=
  match text s with
  | y1 :: y2 :: y3 :: y4 :: d1 :: m1 :: m2 :: d2 :: a1 :: a2 :: r =>
      if negb (Ascii.eqb d1 "-" && Ascii.eqb d2 "-") then None else
      match digits_value [y1; y2; y3; y4], digits_value [m1; m2], digits_value [a1; a2] with
      | Some y, Some m, Some d =>
          if (1 <=? y) && (1 <=? m) && (m <=? 12) && (1 <=? d) && (d <=? days_in_month y m)
          then
            let day := days_from_civil y m d * us_per_day in
            match r with
            | [] => Some day
            | _ :: tm =>
                match parse_time tm with
                | Some us => Some (day + us)
                | None => None
                end
            end
          else None
      | _, _, _ => None
      end
  | _ => None
  end.

#[export] Instance python : PyStdlib := {|
  json_loads := loads;
  json_dumps := dumps;
  isoformat := format_datetime "T" true;
  fromisoformat := parse_isoformat;
  strftime := format_datetime " " false
|}.

End Lib.


(** ** Concrete runs used below *)

Module Fixtures.

Definition fresh_world : world :=
  {| manifest_file := None; trace := [];
     n_post := 0; n_get := 0; n_run := 0; n_now := 0 |}.

Definition world_with_file (content : string) : world :=
  {| manifest_file := Some content; trace := [];
     n_post := 0; n_get := 0; n_run := 0; n_now := 0 |}.

Definition corrupt_world : world := world_with_file "{not json".

Definition registration_body (n : nat) : value :=
  VDict [("data", VDict [("agent_id", VStr ("agent-" ++ str_of_nat n));
                         ("api_key", VStr ("key-" ++ str_of_nat n))])].

Definition status_body (remaining : Z) : value :=
  VDict [("data", VDict [("fights_remaining", VInt remaining)])].

(** 2026-11-03T14:00:00, in microseconds *)
Definition t0 : Z := 1793714400000000.

(** Every call answers well; the clock advances one minute per reading. *)
Definition friendly : environ :=
  {| getenv := fun name => if String.eqb name "DEEPSEEK_API_KEY"
                           then Some "sk-test" else None;
     BOT_COUNT := 3;
     register_response := fun n => HttpResponse 200 (Some (registration_body n));
     status_response := fun _ => HttpResponse 200 (Some (status_body 1));
     nanobot_outcome := fun _ => Completed 0 "won";
     clock := fun n => t0 + Z.of_nat n * minutes 1 |}.

(** The registration service is down. *)
Definition register_down : environ :=
  {| getenv := getenv friendly;
     BOT_COUNT := 3;
     register_response := fun _ => HttpFailed "connection refused";
     status_response := status_response friendly;
     nanobot_outcome := nanobot_outcome friendly;
     clock := clock friendly |}.

(** No provider key in the environment. *)
Definition no_key : environ :=
  {| getenv := fun _ => None;
     BOT_COUNT := 3;
     register_response := register_response friendly;
     status_response := status_response friendly;
     nanobot_outcome := nanobot_outcome friendly;
     clock := clock friendly |}.

Definition agent (last_battle : value) (battles : Z) : value :=
  VDict [("index", VInt 0); ("agent_id", VStr "agent-0"); ("api_key", VStr "key-0");
         ("name", VStr "Bot-0"); ("registered", VStr "2026-11-03T13:00:00");
         ("last_battle", last_battle); ("battles", VInt battles)].

(** As [friendly], with a clock that stands still. *)
Definition steady : environ :=
  {| getenv := getenv friendly;
     BOT_COUNT := 3;
     register_response := register_response friendly;
     status_response := status_response friendly;
     nanobot_outcome := nanobot_outcome friendly;
     clock := fun _ => t0 |}.

Definition deepseek : Scheduler.llm_config :=
  {| Scheduler.provider := "deepseek"; Scheduler.api_key := "sk-test";
     Scheduler.model := "deepseek-chat" |}.

Definition fleet_of (bots : list value) : value :=
  VDict [("bots", VList bots); ("created", VStr "2026-11-03T12:00:00")].

(** The text of a manifest with all white space taken out. *)
Definition compact (manifest : value) : string :=
  string_of_list_ascii
    (filter (fun c => negb (Lib.is_ws c)) (list_ascii_of_string (Lib.dumps manifest))).

End Fixtures.

(** ** Vocabulary of the properties *)

Local Open Scope list_scope.

(** The body of the scheduler's registration request. *)
Definition auto_payload : value := VDict [("auto", VBool true)].

(** The exception a failed registration call ends in: a transport error,
    or a status in the 4xx/5xx range. *)
Definition failure_cause (r : http_outcome) : option exn :=
  match r with
  | HttpFailed cause => Some (RequestException cause)
  | HttpResponse status _ =>
      if Scheduler.response_ok status then None else Some (HTTPError status)
  end.

Definition has_key (k : string) (d : list (string * value)) : bool :=
  match dict_get k d with Some _ => true | None => false end.

(** A registration answer [register_bot] turns into a record: a status
    below 400 and a JSON object whose ["data"] is an object with an
    ["agent_id"] and an ["api_key"]. *)
Definition accepted (r : http_outcome) : bool :=
  match r with
  | HttpResponse status (Some (VDict top)) =>
      Scheduler.response_ok status
      && match dict_get "data" top with
         | Some (VDict d) => has_key "agent_id" d && has_key "api_key" d
         | _ => false
         end
  | _ => false
  end.

(** The indices of the registration attempts a trace shows, in order. *)
Fixpoint attempts (tr : list event) : list nat :=
  match tr with
  | [] => []
  | Log INFO (MsgRegistering i) :: tr' => i :: attempts tr'
  | _ :: tr' => attempts tr'
  end.

Fixpoint posts (tr : list event) : nat :=
  match tr with
  | [] => 0
  | PostRegister _ :: tr' => S (posts tr')
  | _ :: tr' => posts tr'
  end.

(** The visible effects of [run_bot_battle]. *)
Definition runner_event (ev : event) : bool :=
  match ev with
  | Log _ (MsgStartingBattle _ _) => true
  | Log _ (MsgBattleResult _ _) => true
  | Log _ (MsgBattleTimeout _) => true
  | Log _ (MsgBattleError _ _) => true
  | WriteConfig _ => true
  | RunNanobot _ _ => true
  | _ => false
  end.

Fixpoint status_queries (tr : list event) : nat :=
  match tr with
  | [] => 0
  | GetStatus _ _ :: tr' => S (status_queries tr')
  | _ :: tr' => status_queries tr'
  end.

(** [bot.get('battles', 0)] as a number. *)
Definition action_count (bot : value) : Z :=
  match bot with
  | VDict d =>
      match dict_get "battles" d with
      | Some (VInt n) => n
      | Some (VBool true) => 1
      | _ => 0
      end
  | _ => 0
  end.

(** The records of a manifest. *)
Definition fleet (manifest : value) : list value :=
  match manifest with
  | VDict d => match dict_get "bots" d with
               | Some (VList bots) => bots
               | _ => []
               end
  | _ => []
  end.

(** A status answer on which the gate stays shut: the call failed, the
    status is an error, the body has no ["data"], the count is missing, or
    the count is zero. *)
Definition gate_shut (r : http_outcome) : bool :=
  match r with
  | HttpFailed _ => true
  | HttpResponse status body =>
      if Scheduler.response_ok status then
        match body with
        | Some (VDict top) =>
            match dict_get "data" top with
            | None => true
            | Some (VDict d) =>
                match dict_get "fights_remaining" d with
                | None => true
                | Some (VInt n) => n =? 0
                | Some _ => false
                end
            | Some _ => false
            end
        | _ => false
        end
      else true
  end.

(** The record [register_bot] builds for slot [i]. *)
Definition registered_record (i : nat) (v : value) : Prop :=
  exists agent_id key name registered,
    v = VDict [("index", VInt (Z.of_nat i)); ("agent_id", agent_id); ("api_key", key);
               ("name", name); ("registered", VStr registered);
               ("last_battle", VNone); ("battles", VInt 0)].

(** No effect of [run_bot_battle] occurs in a stretch of the trace. *)
Definition no_runner (tl : list event) : Prop :=
  forallb (fun ev => negb (runner_event ev)) tl = true.

(** A run of the remote action that did not end well: it timed out, ended
    with a non-zero status, or could not be started. *)
Definition run_failed (o : proc_outcome) : bool :=
  match o with
  | ProcTimeout => true
  | Completed returncode _ => negb (returncode =? 0)
  | ProcError _ => true
  end.

(** The sum of the counts of a fleet. *)
Fixpoint total_count (bots : list value) : Z :=
  match bots with
  | [] => 0
  | bot :: bots' => action_count bot + total_count bots'
  end.

(** The battles the "Cycle complete" lines of a trace report. *)
Fixpoint battles_logged (tr : list event) : nat :=
  match tr with
  | [] => 0
  | Log INFO (MsgCycleComplete k) :: tr' => k + battles_logged tr'
  | _ :: tr' => battles_logged tr'
  end.

(** A last-battle field the cool-down check can read: absent, falsy, or a
    timestamp that parses. *)
Definition last_battle_ok {L : PyStdlib} (d : list (string * value)) : bool :=
  match dict_get "last_battle" d with
  | None => true
  | Some v =>
      negb (truthy v)
      || match v with
         | VStr s => match fromisoformat s with Some _ => true | None => false end
         | _ => false
         end
  end.

(** An agent record as the scheduler needs it. *)
Definition wf_agent {L : PyStdlib} (bot : value) : bool :=
  match bot with
  | VDict d =>
      has_key "name" d && has_key "agent_id" d && has_key "api_key" d
      && has_key "index" d && last_battle_ok d
  | _ => false
  end.

(** A manifest as the scheduler needs it: an object whose ["bots"] is a list
    of agent records. *)
Definition wf_manifest {L : PyStdlib} (manifest : value) : bool :=
  match manifest with
  | VDict d =>
      match dict_get "bots" d with
      | Some (VList bots) => forallb wf_agent bots
      | _ => false
      end
  | _ => false
  end.

(** The manifest file is missing or holds a manifest the scheduler can
    work with. *)
Definition usable_file {L : PyStdlib} (w : world) : bool :=
  match manifest_file w with
  | None => true
  | Some content =>
      match json_loads content with
      | Some manifest => wf_manifest manifest
      | None => false
      end
  end.

(** *** JSON texts

    The pieces [Lib.dumps_at] is made of, and what the parser needs to read
    them back. *)

Definition items_text (ind : nat) : list value -> list ascii :=
  fix items (l : list value) : list ascii :=
    match l with
    | [] => []
    | y :: l' =>
        ","%char :: Lib.newline_indent ind ++ Lib.dumps_at ind y ++ items l'
    end.

Definition members_text (ind : nat) : list (string * value) -> list ascii :=
  fix members (l : list (string * value)) : list ascii :=
    match l with
    | [] => []
    | (k, y) :: l' =>
        ","%char :: Lib.newline_indent ind ++ Lib.quote k ++ Lib.text ": "
        ++ Lib.dumps_at ind y ++ members l'
    end.

(** Fuel that is enough to parse the text of a value. *)
Fixpoint need (v : value) : nat :=
  match v with
  | VList l =>
      S ((fix go (l : list value) : nat :=
            match l with
            | [] => 0%nat
            | x :: l' => S (need x + go l')%nat
            end) l)
  | VDict d =>
      S ((fix go (d : list (string * value)) : nat :=
            match d with
            | [] => 0%nat
            | (_, x) :: d' => S (need x + go d')%nat
            end) d)
  | _ => 1%nat
  end.

Definition need_items : list value -> nat :=
  fix go (l : list value) : nat :=
    match l with
    | [] => 0%nat
    | x :: l' => S (need x + go l')%nat
    end.

Definition need_members : list (string * value) -> nat :=
  fix go (d : list (string * value)) : nat :=
    match d with
    | [] => 0%nat
    | (_, x) :: d' => S (need x + go d')%nat
    end.

Fixpoint distinct (keys : list string) : bool :=
  match keys with
  | [] => true
  | k :: keys' => negb (existsb (String.eqb k) keys') && distinct keys'
  end.

(** No object of the value has a key twice, as in every value [json.load]
    returns. *)
Fixpoint unique_keys (v : value) : bool :=
  match v with
  | VList l => forallb unique_keys l
  | VDict d =>
      distinct (map fst d)
      && (fix all (d : list (string * value)) : bool :=
            match d with
            | [] => true
            | (_, x) :: d' => unique_keys x && all d'
            end) d
  | _ => true
  end.

Definition unique_members : list (string * value) -> bool :=
  fix all (d : list (string * value)) : bool :=
    match d with
    | [] => true
    | (_, x) :: d' => unique_keys x && all d'
    end.

(** The number a run of digits denotes after the digits of [start]. *)
Definition value_from (start : Z) (ds : list ascii) : Z :=
  fold_left (fun acc c => acc * 10 + Lib.digit_value c) ds start.

(** What may follow the text of a value: nothing, a comma or a newline. *)
Definition delimited (rest : list ascii) : Prop :=
  match rest with
  | [] => True
  | c :: _ => c = ","%char \/ c = Lib.newline
  end.

(** The text of [v], at any indentation and in front of any delimiter, is
    parsed back to [v]. *)
Definition reads_back (v : value) : Prop :=
  unique_keys v = true ->
  forall (ind : nat) (rest : list ascii) (fuel : nat),
    (need v <= fuel)%nat ->
    delimited rest ->
    Lib.parse_value fuel (Lib.dumps_at ind v ++ rest) = Some (v, rest).

(** *** Records, gates and requests *)

(** The field [k] of a record; [None] when there is none. *)
Definition field (k : string) (v : value) : option value :=
  match v with VDict d => dict_get k d | _ => None end.

(** Two records that differ at most in the two fields the runner writes. *)
Definition same_identity (b b' : value) : Prop :=
  forall k, k <> "last_battle" -> k <> "battles" -> field k b' = field k b.

(** Two manifests that differ at most in their fleet. *)
Definition same_header (m m' : value) : Prop :=
  forall k, k <> "bots" -> field k m' = field k m.

(** A status answer that opens the gate: a status below 400 and a JSON
    object whose ["data"] is an object with a positive ["fights_remaining"]. *)
Definition gate_open (r : http_outcome) : bool :=
  match r with
  | HttpResponse status (Some (VDict top)) =>
      Scheduler.response_ok status
      && match dict_get "data" top with
         | Some (VDict d) =>
             match dict_get "fights_remaining" d with
             | Some (VInt n) => 0 <? n
             | Some (VBool b) => b
             | _ => false
             end
         | _ => false
         end
  | _ => false
  end.

(** The writes of the manifest file a trace shows. *)
Fixpoint saves (tr : list event) : nat :=
  match tr with
  | [] => 0
  | WriteManifest _ :: tr' => S (saves tr')
  | _ :: tr' => saves tr'
  end.

(** The failures a trace reports in a log line or on the console. *)
Fixpoint complaints (tr : list event) : nat :=
  match tr with
  | [] => 0
  | Log ERROR _ :: tr' => S (complaints tr')
  | Log WARNING _ :: tr' => S (complaints tr')
  | _ :: tr' => complaints tr'
  end.

(** The names the registration requests of a trace ask for. *)
Fixpoint requested_names (tr : list event) : list value :=
  match tr with
  | [] => []
  | PostRegister payload :: tr' =>
      match field "name" payload with
      | Some name => name :: requested_names tr'
      | None => requested_names tr'
      end
  | _ :: tr' => requested_names tr'
  end.

(** The record the fleet manager appends for slot [i]. *)
Definition fm_record {L : PyStdlib} (i : nat) (agent_id : value) (t : Z) : value :=
  VDict [("id", VInt (Z.of_nat i));
         ("agent_id", agent_id);
         ("name", VStr (FleetManager.generate_bot_name i));
         ("personality", VStr (FleetManager.generate_bot_personality i));
         ("created", VStr (strftime t))].

(** The credentials the fleet manager reads off a registration answer:
    [data["data"]["agent_id"]] and [data["data"]["api_key"]] of a JSON body
    that came with a status below 400. *)
Definition fm_credentials (r : http_outcome) : option (value * value) :=
  match r with
  | HttpResponse status (Some (VDict top)) =>
      if Scheduler.response_ok status then
        match dict_get "data" top with
        | Some (VDict d) =>
            match dict_get "agent_id" d, dict_get "api_key" d with
            | Some agent_id, Some key => Some (agent_id, key)
            | _, _ => None
            end
        | _ => None
        end
      else None
  | _ => None
  end.

(** A character that is no decimal digit. *)
Definition not_digit (c : ascii) : bool :=
  negb ((48 <=? nat_of_ascii c)%nat && (nat_of_ascii c <=? 57)%nat).

Definition all_digits (s : string) : bool :=
  forallb (fun c => negb (not_digit c)) (list_ascii_of_string s).

Definition no_digit (s : string) : bool :=
  forallb not_digit (list_ascii_of_string s).

(** An environment variable that is not set, or set to the empty string. *)
Definition unset (o : option string) : bool :=
  match o with
  | None => true
  | Some s => String.eqb s ""
  end.

(** A record the gate can query and name in its log. *)
Definition has_credentials (bot : value) : bool :=
  match bot with
  | VDict d => has_key "agent_id" d && has_key "api_key" d && has_key "name" d
  | _ => false
  end.

(** *** Names and directories of the fleet manager *)

(** The two parts of a generated name: the prefix and suffix picked by the
    index within one round of 870, and the number of the round (none in
    the first). *)
Definition base_name (r : nat) : string :=
  nth (r mod 30) FleetManager.NAME_PREFIXES ""
  ++ nth ((r * 7) mod 29) FleetManager.NAME_SUFFIXES "".

Definition round_number (q : nat) : string :=
  if (1 <? q + 1)%nat then str_of_nat (q + 1) else "".

(** The number a run of decimal digits denotes. *)
Definition nat_of_text (s : string) : nat :=
  match NilEmpty.uint_of_string s with
  | Some d => Nat.of_uint d
  | None => 0%nat
  end.

Definition zeros (n : nat) : string := string_of_list_ascii (repeat "0"%char n).

(** The body of the fleet manager's registration request for slot [i]. *)
Definition fm_payload (i : nat) : value :=
  VDict [("name", VStr (FleetManager.generate_bot_name i));
         ("type", VStr (FleetManager.upper
                          (nth (i mod List.length FleetManager.LOBSTER_TYPES)
                               FleetManager.LOBSTER_TYPES "")));
         ("auto", VBool true)].

(** The records the fleet manager appends for the slots of [slots], the
    first reading of the clock being the [k]-th. *)
Fixpoint fm_records {L : PyStdlib} (E : environ) (p k : nat) (indices : list nat)
  : list value :=
  match indices with
  | [] => []
  | i :: rest =>
      match fm_credentials (register_response E p) with
      | Some (agent_id, _) =>
          fm_record i agent_id (clock E k) :: fm_records E (S p) (S k) rest
      | None => fm_records E (S p) k rest
      end
  end.

(** *** The turns of a cycle *)

(** The runs of the subprocess a trace shows. *)
Fixpoint runs (tr : list event) : nat :=
  match tr with
  | [] => 0
  | RunNanobot _ _ :: tr' => S (runs tr')
  | _ :: tr' => runs tr'
  end.

(** A status query or a run of the subprocess is made for [bot] when it
    carries the id and the key of [bot]. *)
Definition made_for (bot : value) (ev : event) : Prop :=
  match ev with
  | GetStatus agent_id key =>
      field "agent_id" bot = Some agent_id /\ field "api_key" bot = Some key
  | RunNanobot agent_id key =>
      field "agent_id" bot = Some agent_id /\ field "api_key" bot = Some key
  | _ => True
  end.

(** A stretch of the trace that is the turn of [bot]: at most one status
    query and at most one run, each made for [bot], and exactly one query
    when [bot] has an id, a key and a name. *)
Definition turn_of (bot : value) (stretch : list event) : Prop :=
  (status_queries stretch <= 1)%nat
  /\ (runs stretch <= 1)%nat
  /\ Forall (made_for bot) stretch
  /\ (has_credentials bot = true -> status_queries stretch = 1%nat).

(** * Properties *)

(** ** Running the monad *)

Lemma bind_return {S A B} (m : St S A) (k : A -> St S B) s a s' :
  m s = (Return a, s') -> bind m k s = k a s'.
Proof. intros H. unfold bind. rewrite H. reflexivity. Qed.

Lemma bind_raise {S A B} (m : St S A) (k : A -> St S B) s e s' :
  m s = (Raise e, s') -> bind m k s = (Raise e, s').
Proof. intros H. unfold bind. rewrite H. reflexivity. Qed.

Lemma try_except_return {S A} (m : St S A) h s a s' :
  m s = (Return a, s') -> try_except m h s = (Return a, s').
Proof. intros H. unfold try_except. rewrite H. reflexivity. Qed.

Lemma try_except_caught {S A} (m : St S A) h s e s' :
  m s = (Raise e, s') -> is_Exception e = true -> try_except m h s = h e s'.
Proof. intros H He. unfold try_except. rewrite H, He. reflexivity. Qed.

Lemma dict_get_set_same k v d : dict_get k (dict_set k v d) = Some v.
Proof.
  induction d as [|[k' v'] d IH]; cbn.
  - rewrite String.eqb_refl. reflexivity.
  - destruct (String.eqb k k') eqn:Hk; cbn.
    + rewrite String.eqb_refl. reflexivity.
    + rewrite Hk. exact IH.
Qed.

Lemma dict_get_set_other k k' v d :
  k' <> k -> dict_get k' (dict_set k v d) = dict_get k' d.
Proof.
  intros Hne. induction d as [|[k0 v0] d IH]; cbn.
  - destruct (String.eqb k' k) eqn:Hk; [apply String.eqb_eq in Hk; contradiction|reflexivity].
  - destruct (String.eqb k k0) eqn:Hk0; cbn.
    + apply String.eqb_eq in Hk0. subst k0.
      destruct (String.eqb k' k) eqn:Hk; [apply String.eqb_eq in Hk; contradiction|reflexivity].
    + destruct (String.eqb k' k0); [reflexivity|exact IH].
Qed.

Lemma dict_set_same_id k v d : dict_get k d = Some v -> dict_set k v d = d.
Proof.
  induction d as [|[k' v'] d IH]; cbn; [discriminate|].
  destruct (String.eqb k k') eqn:Hk.
  - apply String.eqb_eq in Hk. subst k'. now intros [= ->].
  - intros H. now rewrite IH.
Qed.

Lemma dict_set_set k v v' d : dict_set k v (dict_set k v' d) = dict_set k v d.
Proof.
  induction d as [|[k' v0] d IH]; cbn.
  - now rewrite String.eqb_refl.
  - destruct (String.eqb k k') eqn:Hk; cbn.
    + now rewrite String.eqb_refl.
    + now rewrite Hk, IH.
Qed.

(** Closes the bookkeeping goals about the world after a run. *)
Ltac frame := cbn; rewrite <- ?app_assoc; cbn; repeat split.

Arguments Scheduler.register_bot : simpl never.
Arguments Scheduler.check_rate_limit : simpl never.
Arguments Scheduler.run_bot_battle : simpl never.
Arguments Scheduler.battled_recently : simpl never.
Arguments Scheduler.visit_bot : simpl never.
Arguments Scheduler.register_loop : simpl never.
Arguments Scheduler.battle_pass : simpl never.
Arguments Scheduler.battle_cycle : simpl never.
Arguments Scheduler.battle_loop : simpl never.
Arguments Scheduler.load_manifest : simpl never.
Arguments Scheduler.get_llm_config : simpl never.

(** The operations on values use no fuel. *)
Lemma getitem_fuel o k : getitem o k <> OutOfFuel.
Proof. destruct o; cbn; try discriminate. destruct (dict_get k d); discriminate. Qed.

Lemma get_fuel o k dflt : get o k dflt <> OutOfFuel.
Proof. destruct o; cbn; try discriminate. destruct (dict_get k d); discriminate. Qed.

Lemma setitem_fuel o k v : setitem o k v <> OutOfFuel.
Proof. destruct o; cbn; discriminate. Qed.

Lemma contains_fuel k o : contains k o <> OutOfFuel.
Proof. destruct o; cbn; discriminate. Qed.

Lemma gt0_fuel v : gt0 v <> OutOfFuel.
Proof. destruct v; cbn; discriminate. Qed.

Lemma add1_fuel v : add1 v <> OutOfFuel.
Proof. destruct v; cbn; discriminate. Qed.

Lemma len_fuel o : len o <> OutOfFuel.
Proof. destruct o; cbn; discriminate. Qed.

Lemma iter_fuel o : iter o <> OutOfFuel.
Proof. destruct o; cbn; discriminate. Qed.

Lemma append_fuel o x : append o x <> OutOfFuel.
Proof. destruct o; cbn; discriminate. Qed.

Ltac no_fuel :=
  exfalso;
  match goal with
  | H : getitem _ _ = OutOfFuel |- _ => exact (getitem_fuel _ _ H)
  | H : get _ _ _ = OutOfFuel |- _ => exact (get_fuel _ _ _ H)
  | H : setitem _ _ _ = OutOfFuel |- _ => exact (setitem_fuel _ _ _ H)
  | H : contains _ _ = OutOfFuel |- _ => exact (contains_fuel _ _ H)
  | H : gt0 _ = OutOfFuel |- _ => exact (gt0_fuel _ H)
  | H : add1 _ = OutOfFuel |- _ => exact (add1_fuel _ H)
  | H : len _ = OutOfFuel |- _ => exact (len_fuel _ H)
  | H : iter _ = OutOfFuel |- _ => exact (iter_fuel _ H)
  | H : append _ _ = OutOfFuel |- _ => exact (append_fuel _ _ H)
  end.

(** Case analysis on a scrutinee of the goal that is not itself a case
    analysis. *)
Ltac break_match :=
  match goal with
  | |- context [match ?x with _ => _ end] =>
      lazymatch x with
      | context [match _ with _ => _ end] => fail
      | _ => destruct x eqn:?
      end
  end.

(** For a goal [exists o w' tl, run = (o, w') /\ trace w' = trace w ++ tl /\ ...]
    once [run] is a pair: names the stretch of trace and closes the
    bookkeeping that follows. *)
Ltac close_frame :=
  eexists _, _, _; (split; [reflexivity|]);
  cbn; rewrite <- ?app_assoc; cbn;
  (split; [first [reflexivity | symmetry; apply app_nil_r]|]);
  cbn; rewrite ?Nat.add_0_r;
  repeat split; try congruence; try lia.

(** What they raise is an [Exception]. *)
Lemma getitem_raises o k e : getitem o k = Raise e -> is_Exception e = true.
Proof.
  destruct o; cbn; try (intros [= <-]; reflexivity).
  destruct (dict_get k d); [discriminate|intros [= <-]; reflexivity].
Qed.

Lemma get_raises o k dflt e : get o k dflt = Raise e -> is_Exception e = true.
Proof.
  destruct o; cbn; try (intros [= <-]; reflexivity).
  destruct (dict_get k d); discriminate.
Qed.

Lemma contains_raises k o e : contains k o = Raise e -> is_Exception e = true.
Proof. destruct o; cbn; try discriminate; intros [= <-]; reflexivity. Qed.

Lemma gt0_raises v e : gt0 v = Raise e -> is_Exception e = true.
Proof. destruct v; cbn; try discriminate; intros [= <-]; reflexivity. Qed.

Lemma add1_raises v e : add1 v = Raise e -> is_Exception e = true.
Proof. destruct v; cbn; try discriminate; intros [= <-]; reflexivity. Qed.

Ltac not_exit :=
  exfalso;
  match goal with
  | H : getitem _ _ = Raise ?e, H' : is_Exception ?e = false |- _ =>
      apply getitem_raises in H; congruence
  | H : get _ _ _ = Raise ?e, H' : is_Exception ?e = false |- _ =>
      apply get_raises in H; congruence
  | H : contains _ _ = Raise ?e, H' : is_Exception ?e = false |- _ =>
      apply contains_raises in H; congruence
  | H : gt0 _ = Raise ?e, H' : is_Exception ?e = false |- _ =>
      apply gt0_raises in H; congruence
  | H : add1 _ = Raise ?e, H' : is_Exception ?e = false |- _ =>
      apply add1_raises in H; congruence
  end.

Section Stdlib.

Context {L : PyStdlib}.
Variable E : environ.

(** ** Manifest store *)

(** C1 (as amended). [load_manifest] returns the empty fleet stamped with
    the current time when the file is missing and the parsed content when
    it parses, and never touches the file. On a file that does not parse
    it raises the decoder's error, and nothing catches it: with a provider
    key set, [main] of the scheduler ends in that error before it sends
    any request or runs anything (with no key it has exited with status 1
    before the load); the load of the fleet manager and its [main] end in
    the same error, and on a missing file its load gives the empty fleet
    too. *)
Theorem load_manifest_cases (w : world) :
  Scheduler.load_manifest E w =
    match manifest_file w with
    | None =>
        (Return (VDict [("bots", VList []);
                        ("created", VStr (isoformat (clock E (n_now w))))]),
         snd (Scheduler.now E w))
    | Some content =>
        match json_loads content with
        | Some v => (Return v, w)
        | None => (Raise JSONDecodeError, w)
        end
    end
  /\ manifest_file (snd (Scheduler.load_manifest E w)) = manifest_file w
  /\ (manifest_file w = None ->
      FleetManager.load_or_create E w =
        (Return (VDict [("bots", VList []);
                        ("created", VStr (strftime (clock E (n_now w))))]),
         snd (Scheduler.now E w)))
  /\ forall content,
       manifest_file w = Some content ->
       json_loads content = None ->
       (forall fuel cycles,
          exists e w',
            Scheduler.main E fuel cycles w = (Raise e, w')
            /\ (Scheduler.env_set E "DEEPSEEK_API_KEY" <> None
                \/ Scheduler.env_set E "OPENROUTER_API_KEY" <> None ->
                e = JSONDecodeError)
            /\ (Scheduler.env_set E "DEEPSEEK_API_KEY" = None ->
                Scheduler.env_set E "OPENROUTER_API_KEY" = None ->
                e = SystemExit 1)
            /\ manifest_file w' = manifest_file w
            /\ n_post w' = n_post w /\ n_get w' = n_get w /\ n_run w' = n_run w)
       /\ FleetManager.load_or_create E w = (Raise JSONDecodeError, w)
       /\ FleetManager.main E w = (Raise JSONDecodeError, w).
Proof.
  split; [|split; [|split]].
  - unfold Scheduler.load_manifest, read_manifest_file, bind.
    destruct (manifest_file w) as [content|]; [destruct (json_loads content)|]; reflexivity.
  - unfold Scheduler.load_manifest, read_manifest_file, bind.
    destruct (manifest_file w) as [content|] eqn:Hf;
      [destruct (json_loads content)|]; cbn; auto.
  - intros Hf. unfold FleetManager.load_or_create, read_manifest_file, bind.
    rewrite Hf. reflexivity.
  - intros content Hf Hparse.
    assert (Hload : FleetManager.load_or_create E w = (Raise JSONDecodeError, w)).
    { unfold FleetManager.load_or_create, read_manifest_file, bind, raise.
      rewrite Hf, Hparse. reflexivity. }
    split; [|split; [exact Hload|]].
    + intros fuel cycles.
      unfold Scheduler.main, Scheduler.startup, Scheduler.get_llm_config,
        Scheduler.load_manifest, read_manifest_file.
      destruct (Scheduler.env_set E "DEEPSEEK_API_KEY") as [k|];
        [|destruct (Scheduler.env_set E "OPENROUTER_API_KEY") as [k|]];
        unfold bind, log, emit, ret, raise; cbn; rewrite ?Hf, ?Hparse;
        (eexists _, _; split; [reflexivity|]; cbn;
         repeat split; try reflexivity; try congruence;
         intros [H|H]; congruence).
    + unfold FleetManager.main. now rewrite (bind_raise _ _ _ _ _ Hload).
Qed.

End Stdlib.

(** C1, as stated, fails: with an unparsable manifest file the load raises
    instead of returning a manifest, in the scheduler and in the fleet
    manager alike. *)
Lemma load_manifest_corrupt_raises :
  fst (@Scheduler.load_manifest Lib.python Fixtures.friendly Fixtures.corrupt_world)
    = Raise JSONDecodeError
  /\ fst (@FleetManager.load_or_create Lib.python Fixtures.friendly Fixtures.corrupt_world)
    = Raise JSONDecodeError
  /\ ~ (exists manifest,
          fst (@Scheduler.load_manifest Lib.python Fixtures.friendly Fixtures.corrupt_world)
            = Return manifest).
Proof.
  assert (H : fst (@Scheduler.load_manifest Lib.python Fixtures.friendly
                     Fixtures.corrupt_world) = Raise JSONDecodeError)
    by (vm_compute; reflexivity).
  split; [exact H|]. split; [vm_compute; reflexivity|].
  intros [m Hm]. rewrite H in Hm. discriminate.
Qed.

(** An unparsable manifest file beside a provider key. *)
Lemma load_manifest_cases_witness :
  fst (@Scheduler.main Lib.python Fixtures.friendly 4 1 Fixtures.corrupt_world)
    = Raise JSONDecodeError
  /\ @FleetManager.main Lib.python Fixtures.friendly Fixtures.corrupt_world
     = (Raise JSONDecodeError, Fixtures.corrupt_world).
Proof.
  destruct (@load_manifest_cases Lib.python Fixtures.friendly Fixtures.corrupt_world)
    as (_ & _ & _ & Hcorrupt).
  destruct (Hcorrupt "{not json" eq_refl eq_refl) as (Hmain & _ & Hfleet).
  destruct (Hmain 4%nat 1%nat) as (e & w' & Hrun & He & _).
  rewrite Hrun. split; [|exact Hfleet].
  cbn. f_equal. apply He. left. discriminate.
Defined.

(** ** Registration client *)

Section Registration.

Context {L : PyStdlib}.
Variable E : environ.

(** What [register_bot] does on an answer that is a failure of the call. *)
Lemma register_bot_on_failure (i : nat) (w : world) (e : exn) :
  failure_cause (register_response E (n_post w)) = Some e ->
  Scheduler.register_bot E i w =
    (Return VNone,
     {| manifest_file := manifest_file w;
        trace := trace w ++ [Log INFO (MsgRegistering i); PostRegister auto_payload;
                             Log ERROR (MsgRegisterFailed i e)];
        n_post := S (n_post w); n_get := n_get w;
        n_run := n_run w; n_now := n_now w |}).
Proof.
  intros Hf.
  unfold Scheduler.register_bot, Scheduler.requests_post_register, log, emit,
    bind, try_except. cbn.
  destruct (register_response E (n_post w)) as [cause|status body]; cbn in *.
  - injection Hf as <-. cbn. rewrite <- !app_assoc. reflexivity.
  - unfold Scheduler.raise_for_status.
    destruct (Scheduler.response_ok status); [discriminate|].
    injection Hf as <-. cbn. rewrite <- !app_assoc. reflexivity.
Qed.

(** C2 (as amended). On a transport error or an error status,
    [register_bot] returns [None], which carries nothing, and writes the
    index and the cause to the error log; it raises nothing. The fleet
    manager's [register_bot_on_clawcombat] prints the same and raises the
    exception again. *)
Theorem register_bot_failure_is_none (i : nat) (w : world) (e : exn) :
  failure_cause (register_response E (n_post w)) = Some e ->
  fst (Scheduler.register_bot E i w) = Return VNone
  /\ trace (snd (Scheduler.register_bot E i w)) =
       trace w ++ [Log INFO (MsgRegistering i); PostRegister auto_payload;
                   Log ERROR (MsgRegisterFailed i e)]
  /\ manifest_file (snd (Scheduler.register_bot E i w)) = manifest_file w
  /\ fst (FleetManager.register_bot_on_clawcombat E i w) = Raise e
  /\ In (PrintLine (MsgFailedToRegister i e))
        (trace (snd (FleetManager.register_bot_on_clawcombat E i w))).
Proof.
  intros Hf. rewrite (register_bot_on_failure i w e Hf). cbn.
  repeat split.
  - unfold FleetManager.register_bot_on_clawcombat, Scheduler.requests_post_register,
      emit, bind, try_except. cbn.
    destruct (register_response E (n_post w)) as [cause|status body]; cbn in *.
    + injection Hf as <-. reflexivity.
    + unfold Scheduler.raise_for_status.
      destruct (Scheduler.response_ok status); [discriminate|].
      injection Hf as <-. reflexivity.
  - unfold FleetManager.register_bot_on_clawcombat, Scheduler.requests_post_register,
      emit, bind, try_except. cbn.
    destruct (register_response E (n_post w)) as [cause|status body]; cbn in *.
    + injection Hf as <-. cbn. apply in_or_app. right. left. reflexivity.
    + unfold Scheduler.raise_for_status.
      destruct (Scheduler.response_ok status); [discriminate|].
      injection Hf as <-. cbn. apply in_or_app. right. left. reflexivity.
Qed.

End Registration.

Lemma register_bot_failure_is_none_witness :
  fst (@Scheduler.register_bot Lib.python Fixtures.register_down 7 Fixtures.fresh_world)
    = Return VNone
  /\ In (Log ERROR (MsgRegisterFailed 7 (RequestException "connection refused")))
        (trace (snd (@Scheduler.register_bot Lib.python Fixtures.register_down 7
                       Fixtures.fresh_world))).
Proof.
  destruct (@register_bot_failure_is_none Lib.python Fixtures.register_down 7
              Fixtures.fresh_world (RequestException "connection refused") eq_refl)
    as (Hret & Htrace & _).
  split; [exact Hret|].
  rewrite Htrace. cbn. right. right. left. reflexivity.
Defined.

(** C2, as stated, fails: what [register_bot] returns on a failure is the
    same [None] for every index, so no index (and no cause) can be read off
    it. *)
Lemma register_bot_error_carries_no_index :
  fst (@Scheduler.register_bot Lib.python Fixtures.register_down 0 Fixtures.fresh_world)
    = Return VNone
  /\ fst (@Scheduler.register_bot Lib.python Fixtures.register_down 1 Fixtures.fresh_world)
    = Return VNone
  /\ ~ (exists index_of : value -> nat,
          forall i,
            match fst (@Scheduler.register_bot Lib.python Fixtures.register_down i
                         Fixtures.fresh_world) with
            | Return err => index_of err = i
            | _ => False
            end).
Proof.
  split; [reflexivity|]. split; [reflexivity|].
  intros [index_of H].
  pose proof (H 0%nat) as H0. pose proof (H 1%nat) as H1.
  cbn in H0, H1. congruence.
Qed.

(** ** Bootstrapping *)

Lemma attempts_app (a b : list event) : attempts (a ++ b) = attempts a ++ attempts b.
Proof.
  induction a as [|ev a IH]; [reflexivity|].
  destruct ev as [lv msg| | | | | | | | | ]; cbn; try exact IH.
  destruct lv; try exact IH.
  destruct msg; cbn; try exact IH. now rewrite IH.
Qed.

Lemma posts_app (a b : list event) : posts (a ++ b) = (posts a + posts b)%nat.
Proof.
  induction a as [|ev a IH]; [reflexivity|].
  destruct ev; cbn; try exact IH. now rewrite IH.
Qed.

Section Bootstrapping.

Context {L : PyStdlib}.
Variable E : environ.

Lemma accepted_inv (r : http_outcome) :
  accepted r = true ->
  exists status top d agent_id key,
    r = HttpResponse status (Some (VDict top))
    /\ Scheduler.response_ok status = true
    /\ dict_get "data" top = Some (VDict d)
    /\ dict_get "agent_id" d = Some agent_id
    /\ dict_get "api_key" d = Some key.
Proof.
  destruct r as [cause|status [[| | | | |top]|]]; cbn; try discriminate.
  intros H. apply andb_prop in H as [Hok H].
  destruct (dict_get "data" top) as [[| | | | |d]|] eqn:Hd; try discriminate.
  apply andb_prop in H as [Ha Hk]. unfold has_key in Ha, Hk.
  destruct (dict_get "agent_id" d) as [agent_id|] eqn:Hagent; [|discriminate].
  destruct (dict_get "api_key" d) as [key|] eqn:Hkey; [|discriminate].
  now exists status, top, d, agent_id, key.
Qed.

(** An accepted answer becomes the record of the slot. *)
Lemma register_bot_accepted (i : nat) (w : world) :
  accepted (register_response E (n_post w)) = true ->
  exists bot w',
    Scheduler.register_bot E i w = (Return bot, w')
    /\ registered_record i bot
    /\ manifest_file w' = manifest_file w
    /\ n_post w' = S (n_post w)
    /\ trace w' = trace w ++ [Log INFO (MsgRegistering i); PostRegister auto_payload].
Proof.
  intros Hacc.
  destruct (accepted_inv _ Hacc) as (status & top & d & agent_id & key & Hr & Hok & Hd & Ha & Hk).
  unfold Scheduler.register_bot, Scheduler.requests_post_register, log, emit,
    bind, try_except. cbn.
  rewrite Hr. cbn. unfold Scheduler.raise_for_status. rewrite Hok. cbn.
  rewrite Hd. cbn. rewrite Ha. cbn. rewrite Hk. cbn.
  destruct (dict_get "name" d) as [name|]; cbn.
  - eexists _, _. split; [reflexivity|]. cbn.
    split; [now eexists _, _, _, _|].
    rewrite <- app_assoc. auto.
  - eexists _, _. split; [reflexivity|]. cbn.
    split; [now eexists _, _, _, _|].
    rewrite <- app_assoc. auto.
Qed.

(** Any other answer ends in [None]; at most an error line is logged. *)
Lemma register_bot_rejected (i : nat) (w : world) :
  accepted (register_response E (n_post w)) = false ->
  exists w' tl,
    Scheduler.register_bot E i w = (Return VNone, w')
    /\ manifest_file w' = manifest_file w
    /\ n_post w' = S (n_post w)
    /\ trace w' = trace w ++ Log INFO (MsgRegistering i) :: PostRegister auto_payload :: tl
    /\ attempts tl = [] /\ posts tl = 0%nat.
Proof.
  intros Hacc.
  unfold Scheduler.register_bot, Scheduler.requests_post_register, log, emit,
    bind, try_except. cbn.
  destruct (register_response E (n_post w)) as [cause|status body] eqn:Hr; cbn.
  - eexists _, [_]. split; [reflexivity|]. frame.
  - unfold Scheduler.raise_for_status.
    destruct (Scheduler.response_ok status) eqn:Hok; cbn.
    2:{ eexists _, [_]. split; [reflexivity|]. frame. }
    destruct body as [data|]; cbn.
    2:{ eexists _, [_]. split; [reflexivity|]. frame. }
    destruct data as [| b | n | s | l | top]; cbn;
      try (eexists _, [_]; split; [reflexivity|]; now frame).
    + (* a string body *)
      destruct (substring_of "data" s); cbn.
      * eexists _, [_]. split; [reflexivity|]. frame.
      * eexists _, []. split; [reflexivity|]. frame.
    + (* a list body *)
      destruct (existsb (is_str "data") l); cbn.
      * eexists _, [_]. split; [reflexivity|]. frame.
      * eexists _, []. split; [reflexivity|]. frame.
    + (* an object *)
      cbn in Hacc. rewrite Hok in Hacc. cbn in Hacc.
      destruct (dict_get "data" top) as [dv|] eqn:Hd; cbn.
      2:{ eexists _, []. split; [reflexivity|]. frame. }
      destruct dv as [| b | n | s | l | d]; cbn;
        try (eexists _, [_]; split; [reflexivity|]; now frame).
      unfold has_key in Hacc.
      destruct (dict_get "agent_id" d) as [agent_id|]; cbn.
      2:{ eexists _, [_]. split; [reflexivity|]. frame. }
      destruct (dict_get "api_key" d) as [key|]; cbn; [discriminate|].
      eexists _, [_]. split; [reflexivity|]. frame.
Qed.

Lemma register_loop_S (fuel : nat) (manifest : value) :
  Scheduler.register_loop E (S fuel) manifest =
    (bots <- lift (getitem manifest "bots") ;;
     n <- lift (len bots) ;;
     if Z.of_nat n <? BOT_COUNT E then
       bot <- Scheduler.register_bot E n ;;
       if truthy bot then
         bots <- lift (getitem manifest "bots") ;;
         bots' <- lift (append bots bot) ;;
         manifest' <- lift (setitem manifest "bots" bots') ;;
         Scheduler.save_manifest manifest' ;;
         name <- lift (getitem bot "name") ;;
         log INFO (MsgRegistered name) ;;
         sleep 1 ;;
         Scheduler.register_loop E fuel manifest'
       else
         log WARNING MsgRetryLater ;;
         ret manifest
     else ret manifest)%py.
Proof. reflexivity. Qed.



End Bootstrapping.


(** The set-up loop of the fleet manager is another loop: after a failed
    registration it goes on with the next slot. *)
Remark fleet_manager_continues_after_failure :
  posts (trace (snd (@FleetManager.create_bots Lib.python Fixtures.register_down
                       (seq 0 3) (Fixtures.fleet_of []) Fixtures.fresh_world))) = 3%nat
  /\ fst (@FleetManager.create_bots Lib.python Fixtures.register_down
            (seq 0 3) (Fixtures.fleet_of []) Fixtures.fresh_world)
     = Return (Fixtures.fleet_of []).
Proof. split; vm_compute; reflexivity. Qed.

(** ** Rate-limit gate *)

Lemma status_queries_app (a b : list event) :
  status_queries (a ++ b) = (status_queries a + status_queries b)%nat.
Proof.
  induction a as [|ev a IH]; [reflexivity|].
  destruct ev; cbn; try exact IH. now rewrite IH.
Qed.

Lemma no_runner_app (a b : list event) :
  no_runner a -> no_runner b -> no_runner (a ++ b).
Proof. unfold no_runner. intros Ha Hb. now rewrite forallb_app, Ha, Hb. Qed.

Section Gate.

Context {L : PyStdlib}.
Variable E : environ.

(** The gate reads the status once at most and leaves everything else as
    it was. *)
Lemma check_rate_limit_frame (bot : value) (w : world) :
  exists o w' tl,
    Scheduler.check_rate_limit E bot w = (o, w')
    /\ trace w' = trace w ++ tl
    /\ o <> OutOfFuel
    /\ manifest_file w' = manifest_file w
    /\ n_post w' = n_post w /\ n_run w' = n_run w /\ n_now w' = n_now w
    /\ n_get w' = (n_get w + status_queries tl)%nat
    /\ (status_queries tl <= 1)%nat
    /\ no_runner tl.
Proof.
  unfold Scheduler.check_rate_limit, Scheduler.requests_get_status, try_except, bind,
    lift, ret, raise, log, emit, Scheduler.response_json.
  repeat (cbn; break_match); try no_fuel; close_frame.
Qed.

(** With a name to log, the gate always answers. *)
Lemma check_rate_limit_returns (bot name : value) (w : world) :
  getitem bot "name" = Return name ->
  exists b, fst (Scheduler.check_rate_limit E bot w) = Return b.
Proof.
  intros Hname.
  unfold Scheduler.check_rate_limit, Scheduler.requests_get_status, try_except, bind,
    lift, ret, raise, log, emit, Scheduler.response_json.
  rewrite Hname.
  repeat (cbn; break_match); try no_fuel; try not_exit; cbn; eauto.
Qed.

(** The gate opens only for a record with an id and a key. *)
Lemma check_rate_limit_open (bot : value) (w : world) :
  fst (Scheduler.check_rate_limit E bot w) = Return true ->
  exists agent_id key,
    getitem bot "agent_id" = Return agent_id /\ getitem bot "api_key" = Return key.
Proof.
  unfold Scheduler.check_rate_limit, Scheduler.requests_get_status, try_except, bind,
    lift, ret, raise, log, emit, Scheduler.response_json.
  repeat (cbn; break_match); try no_fuel; cbn; try discriminate; eauto.
Qed.

(** On an answer that keeps the gate shut, it says no after one query. *)
Lemma check_rate_limit_shut (bot agent_id key name : value) (w : world) :
  getitem bot "agent_id" = Return agent_id ->
  getitem bot "api_key" = Return key ->
  getitem bot "name" = Return name ->
  gate_shut (status_response E (n_get w)) = true ->
  exists w' tl,
    Scheduler.check_rate_limit E bot w = (Return false, w')
    /\ trace w' = trace w ++ GetStatus agent_id key :: tl
    /\ status_queries tl = 0%nat
    /\ n_get w' = S (n_get w).
Proof.
  intros Ha Hk Hn Hshut.
  unfold Scheduler.check_rate_limit, Scheduler.requests_get_status, try_except, bind,
    lift, ret, raise, log, emit, Scheduler.response_json.
  rewrite Ha, Hk, Hn. unfold gate_shut in Hshut. cbn.
  destruct (status_response E (n_get w)) as [cause|status body]; cbn.
  { eexists _, [_]. rewrite <- app_assoc. repeat split. }
  destruct (Scheduler.response_ok status); cbn.
  2:{ eexists _, []. repeat split. }
  destruct body as [[| | | | |top]|]; try discriminate. cbn.
  destruct (dict_get "data" top) as [[| | | | |d]|]; try discriminate; cbn.
  2:{ eexists _, []. repeat split. }
  destruct (dict_get "fights_remaining" d) as [[| |n| | |]|]; try discriminate; cbn.
  - apply Z.eqb_eq in Hshut. subst n. cbn. eexists _, []. repeat split.
  - eexists _, []. repeat split.
Qed.

End Gate.

(** ** Local cool-down *)

Lemma get_getitem (o : value) (k : string) (dflt v : value) :
  get o k dflt = Return v -> v <> dflt -> getitem o k = Return v.
Proof.
  destruct o; cbn; try discriminate.
  destruct (dict_get k d); intros [= ->]; [reflexivity|congruence].
Qed.

Section Cooldown.

Context {L : PyStdlib}.
Variable E : environ.

(** The check costs nothing but at most one reading of the clock. *)
Lemma battled_recently_frame (bot : value) (w : world) :
  exists o w',
    Scheduler.battled_recently E bot w = (o, w')
    /\ o <> OutOfFuel
    /\ manifest_file w' = manifest_file w
    /\ n_post w' = n_post w /\ n_get w' = n_get w /\ n_run w' = n_run w
    /\ trace w' = trace w.
Proof.
  unfold Scheduler.battled_recently, Scheduler.now, bind, lift, ret, raise.
  repeat (cbn; break_match); try no_fuel;
    (eexists _, _; split; [reflexivity|]; cbn; repeat split; congruence).
Qed.

Lemma battled_recently_unset (bot last_battle : value) (w : world) :
  get bot "last_battle" VNone = Return last_battle ->
  truthy last_battle = false ->
  Scheduler.battled_recently E bot w = (Return false, w).
Proof.
  intros Hget Hfalsy.
  unfold Scheduler.battled_recently, bind, lift, ret.
  now rewrite Hget, Hfalsy.
Qed.

Lemma battled_recently_set (bot : value) (s : string) (last : Z) (w : world) :
  get bot "last_battle" VNone = Return (VStr s) ->
  s <> "" ->
  fromisoformat s = Some last ->
  Scheduler.battled_recently E bot w =
    (Return (clock E (n_now w) - last <? minutes 55), snd (Scheduler.now E w)).
Proof.
  intros Hget Hs Hparse.
  assert (Hitem : getitem bot "last_battle" = Return (VStr s))
    by (apply (get_getitem _ _ _ _ Hget); discriminate).
  unfold Scheduler.battled_recently, bind, lift, ret.
  rewrite Hget. cbn [truthy].
  destruct (String.eqb s "") eqn:Heq; [apply String.eqb_eq in Heq; contradiction|].
  cbn. rewrite Hitem, Hparse. reflexivity.
Qed.

(** C10. For a record whose last-battle field is null or a timestamp that
    parses, the check lets the agent through exactly when the field is null
    or at least 55 minutes have passed, 55 minutes sharp included; and a
    record with a null field goes to the runner as soon as the remote gate
    is open. *)
Theorem cooldown_passes_iff (bot last_battle : value) (w : world) :
  get bot "last_battle" VNone = Return last_battle ->
  (last_battle = VNone
   \/ exists s t, last_battle = VStr s /\ s <> "" /\ fromisoformat s = Some t) ->
  (exists recent w',
     Scheduler.battled_recently E bot w = (Return recent, w')
     /\ (recent = false <->
         last_battle = VNone
         \/ exists s t, last_battle = VStr s /\ fromisoformat s = Some t
                        /\ minutes 55 <= clock E (n_now w) - t))
  /\ (last_battle = VNone ->
      forall cfg manifest before after w1,
        Scheduler.check_rate_limit E bot w = (Return true, w1) ->
        Scheduler.visit_bot E cfg manifest before bot after w =
          ('(ok, bot') <- Scheduler.run_bot_battle E bot cfg ;;
           (if ok
            then Scheduler.save_manifest (Scheduler.store_bots manifest (before ++ bot' :: after))
            else ret tt) ;;
           sleep 5 ;;
           ret (bot', ok))%py w1).
Proof.
  intros Hget Hwf. split.
  - destruct Hwf as [-> | (s & t & -> & Hs & Hparse)].
    + exists false, w. split.
      * now apply (battled_recently_unset _ VNone).
      * split; auto.
    + eexists _, _. split.
      * apply (battled_recently_set _ s t); assumption.
      * rewrite Z.ltb_ge. split.
        -- intros Hle. right. now exists s, t.
        -- intros [Hnone | (s' & t' & [= <-] & Hparse' & Hle)]; [discriminate|].
           rewrite Hparse in Hparse'. now injection Hparse' as <-.
  - intros -> cfg manifest before after w1 Hgate.
    unfold Scheduler.visit_bot.
    rewrite (bind_return _ _ _ _ _ Hgate). cbn [negb].
    rewrite (bind_return _ _ _ _ _ (battled_recently_unset bot VNone w1 Hget eq_refl)).
    reflexivity.
Qed.

End Cooldown.

(** An agent whose last battle ended exactly 55 minutes before the clock is
    read is let through. *)
Lemma cooldown_passes_iff_witness :
  let bot := Fixtures.agent (VStr "2026-11-03T13:05:00") 4 in
  exists w',
    @Scheduler.battled_recently Lib.python Fixtures.friendly bot Fixtures.fresh_world
      = (Return false, w').
Proof.
  intros bot.
  destruct (@cooldown_passes_iff Lib.python Fixtures.friendly bot
              (VStr "2026-11-03T13:05:00") Fixtures.fresh_world eq_refl)
    as [(recent & w' & Hrun & Hiff) _].
  - right. exists "2026-11-03T13:05:00", (Fixtures.t0 - minutes 55).
    split; [reflexivity|]. split; [discriminate|]. vm_compute. reflexivity.
  - exists w'. rewrite Hrun. f_equal. f_equal. apply Hiff.
    right. exists "2026-11-03T13:05:00", (Fixtures.t0 - minutes 55).
    split; [reflexivity|]. split; [vm_compute; reflexivity|].
    vm_compute. discriminate.
Defined.

(** ** Action runner *)

Ltac unfold_runner :=
  unfold Scheduler.run_bot_battle, Scheduler.run_bot_battle_body, Scheduler.in_world,
    Scheduler.the_bot, Scheduler.bot_setitem, Scheduler.subprocess_run, Scheduler.now,
    try_except, bind, lift, ret, raise, log, emit.

Section Runner.

Context {L : PyStdlib}.
Variable E : environ.

(** The runner starts the subprocess once at most, asks the service
    nothing, and does not write the manifest. *)
Lemma run_bot_battle_frame (bot : value) (cfg : Scheduler.llm_config) (w : world) :
  exists o w' tl,
    Scheduler.run_bot_battle E bot cfg w = (o, w')
    /\ trace w' = trace w ++ tl
    /\ o <> OutOfFuel
    /\ manifest_file w' = manifest_file w
    /\ n_post w' = n_post w /\ n_get w' = n_get w
    /\ (n_run w' <= S (n_run w))%nat
    /\ status_queries tl = 0%nat.
Proof.
  unfold_runner.
  repeat (cbn; break_match); try no_fuel;
    repeat match goal with
           | H : (_, _) = (_, _) |- _ => inversion H; subst; clear H
           end;
    try discriminate; close_frame.
Qed.

(** The count moves by one when the runner says yes and not at all when
    it says no. *)
Lemma run_bot_battle_count (bot : value) (cfg : Scheduler.llm_config) (w : world)
    (ok : bool) (bot' : value) (w' : world) :
  Scheduler.run_bot_battle E bot cfg w = (Return (ok, bot'), w') ->
  action_count bot' = action_count bot + (if ok then 1 else 0).
Proof.
  unfold_runner.
  destruct bot as [| | | | |d]; cbn; try discriminate.
  repeat (cbn; break_match); try no_fuel;
    intros H; inversion H; subst; clear H; cbn; try lia;
    rewrite ?dict_get_set_same;
    rewrite ?dict_get_set_other in * by discriminate;
    repeat match goal with
           | H : dict_get ?k ?d = _, H' : dict_get ?k ?d = _ |- _ =>
               rewrite H in H'; inversion H'; subst; clear H'
           end;
    cbn in *; try discriminate;
    repeat match goal with
           | H : Return _ = Return _ |- _ => inversion H; subst; clear H
           end;
    repeat match goal with
           | H : dict_get ?k ?d = _ |- context [dict_get ?k ?d] => rewrite H
           end;
    cbn; try lia.
Qed.

(** A run that did not end well: the answer is no and the record is the
    one that came in. *)
Lemma run_bot_battle_failed (bot name index : value) (agent_id key : string)
    (cfg : Scheduler.llm_config) (w : world) :
  getitem bot "name" = Return name ->
  getitem bot "index" = Return index ->
  getitem bot "agent_id" = Return (VStr agent_id) ->
  getitem bot "api_key" = Return (VStr key) ->
  run_failed (nanobot_outcome E (n_run w)) = true ->
  exists w' tl,
    Scheduler.run_bot_battle E bot cfg w = (Return (false, bot), w')
    /\ trace w' = trace w ++ Log INFO (MsgStartingBattle name (VStr agent_id))
                          :: WriteConfig index
                          :: RunNanobot (VStr agent_id) (VStr key) :: tl
    /\ manifest_file w' = manifest_file w
    /\ n_post w' = n_post w /\ n_get w' = n_get w
    /\ n_run w' = S (n_run w).
Proof.
  intros Hn Hi Ha Hk Hfail.
  unfold_runner. cbn. rewrite Hn, Ha, Hi, Hk. cbn.
  destruct (nanobot_outcome E (n_run w)) as [returncode stdout| |cause]; cbn in *.
  - destruct (returncode =? 0); [discriminate|]. cbn.
    eexists _, [_]. rewrite <- !app_assoc. repeat split.
  - eexists _, [_]. rewrite <- !app_assoc. repeat split.
  - eexists _, [_]. rewrite <- !app_assoc. repeat split.
Qed.

End Runner.

(** ** One turn of the cycle *)

Section Visit.

Context {L : PyStdlib}.
Variable E : environ.

(** C4. An agent whose last battle lies less than 55 minutes before the
    clock reading of the check is never handed to the runner, whatever the
    service says about remaining fights: the turn starts no subprocess,
    shows no effect of the runner, saves nothing and leaves the record as
    it is. *)
Theorem no_battle_within_cooldown (cfg : Scheduler.llm_config) (manifest : value)
    (before : list value) (bot : value) (after : list value) (w : world)
    (s : string) (last : Z) :
  get bot "last_battle" VNone = Return (VStr s) ->
  s <> "" ->
  fromisoformat s = Some last ->
  clock E (n_now w) - last < minutes 55 ->
  exists o w' tl,
    Scheduler.visit_bot E cfg manifest before bot after w = (o, w')
    /\ trace w' = trace w ++ tl
    /\ no_runner tl
    /\ n_run w' = n_run w
    /\ manifest_file w' = manifest_file w
    /\ (forall r, o = Return r -> r = (bot, false))
    /\ (forall name, getitem bot "name" = Return name -> o = Return (bot, false)).
Proof.
  intros Hget Hs Hparse Hrecent.
  destruct (check_rate_limit_frame E bot w)
    as (o1 & w1 & tl1 & Hgate & Htr1 & Hfuel1 & Hfile1 & Hpost1 & Hrun1 & Hnow1 & Hget1 & _ & Hquiet1).
  unfold Scheduler.visit_bot, bind. rewrite Hgate.
  destruct o1 as [[|]|e|]; [| | |contradiction].
  - (* the gate is open: the cool-down check stops the turn *)
    cbn [negb].
    rewrite (battled_recently_set E bot s last w1 Hget Hs Hparse).
    rewrite Hnow1.
    apply Z.ltb_lt in Hrecent. rewrite Hrecent.
    unfold lift, log, emit, ret. cbn.
    destruct (getitem bot "name") as [name|e|] eqn:Hname.
    + eexists _, _, (tl1 ++ [_]). split; [reflexivity|]. cbn.
      rewrite Htr1, <- app_assoc. repeat split; auto.
      * apply no_runner_app; [assumption|reflexivity].
      * now intros r [= <-].
    + eexists _, _, tl1. split; [reflexivity|]. cbn.
      repeat split; auto; discriminate.
    + now apply getitem_fuel in Hname.
  - (* the gate is shut *)
    cbn [negb]. unfold lift, log, emit, ret. cbn.
    destruct (getitem bot "name") as [name|e|] eqn:Hname.
    + eexists _, _, (tl1 ++ [_]). split; [reflexivity|]. cbn.
      rewrite Htr1, <- app_assoc. repeat split; auto.
      * apply no_runner_app; [assumption|reflexivity].
      * now intros r [= <-].
    + eexists _, _, tl1. split; [reflexivity|]. cbn.
      repeat split; auto; discriminate.
    + now apply getitem_fuel in Hname.
  - (* the gate raised: the record has no name to log *)
    exists (Raise e), w1, tl1. split; [reflexivity|].
    repeat split; auto; try discriminate.
    intros name Hname.
    destruct (check_rate_limit_returns E bot name w Hname) as [b Hb].
    rewrite Hgate in Hb. discriminate.
Qed.

(** C6. When the status query fails, comes back with an error status,
    carries no count or a count of zero, the gate says no without raising,
    after that one query; the turn ends there, and the runner is not
    called. *)
Theorem shut_gate_skips_agent (cfg : Scheduler.llm_config) (manifest : value)
    (before : list value) (bot : value) (after : list value) (w : world)
    (agent_id key name : value) :
  getitem bot "agent_id" = Return agent_id ->
  getitem bot "api_key" = Return key ->
  getitem bot "name" = Return name ->
  gate_shut (status_response E (n_get w)) = true ->
  exists w1 w' tl,
    Scheduler.check_rate_limit E bot w = (Return false, w1)
    /\ Scheduler.visit_bot E cfg manifest before bot after w = (Return (bot, false), w')
    /\ trace w' = trace w ++ tl
    /\ status_queries tl = 1%nat
    /\ n_get w' = S (n_get w)
    /\ no_runner tl
    /\ n_run w' = n_run w
    /\ manifest_file w' = manifest_file w.
Proof.
  intros Ha Hk Hn Hshut.
  destruct (check_rate_limit_shut E bot agent_id key name w Ha Hk Hn Hshut)
    as (w1 & tl0 & Hgate & Htr & Hq0 & Hget).
  destruct (check_rate_limit_frame E bot w)
    as (o1 & w1' & tl1 & Hgate' & Htr1 & _ & Hfile1 & _ & Hrun1 & _ & _ & _ & Hquiet1).
  rewrite Hgate in Hgate'. injection Hgate' as <- <-.
  rewrite Htr in Htr1. apply app_inv_head in Htr1. subst tl1.
  exists w1. unfold Scheduler.visit_bot, bind. rewrite Hgate. cbn [negb].
  unfold lift, log, emit, ret. rewrite Hn. cbn.
  eexists _, _. split; [reflexivity|]. split; [reflexivity|]. cbn.
  rewrite Htr, <- app_assoc. split; [reflexivity|]. cbn.
  rewrite status_queries_app, Hq0. repeat split; auto.
  change (GetStatus agent_id key :: tl0 ++ [Log INFO (MsgRateLimited name)])
    with ((GetStatus agent_id key :: tl0) ++ [Log INFO (MsgRateLimited name)]).
  apply no_runner_app; [assumption|reflexivity].
Qed.

(** C7. When the remote action times out or ends with a non-zero status
    (or cannot be started), the runner answers no and hands back the record
    it was given; the turn saves nothing, runs the action once, and the
    pass goes on with the next agent. *)
Theorem failed_battle_changes_nothing (cfg : Scheduler.llm_config) (manifest : value)
    (before : list value) (bot : value) (after : list value) (w : world)
    (name index : value) (agent_id key : string) (battles_run : nat) :
  getitem bot "name" = Return name ->
  getitem bot "index" = Return index ->
  getitem bot "agent_id" = Return (VStr agent_id) ->
  getitem bot "api_key" = Return (VStr key) ->
  run_failed (nanobot_outcome E (n_run w)) = true ->
  (exists w',
     Scheduler.run_bot_battle E bot cfg w = (Return (false, bot), w')
     /\ manifest_file w' = manifest_file w
     /\ n_run w' = S (n_run w))
  /\ (forall w1 w2,
        Scheduler.check_rate_limit E bot w = (Return true, w1) ->
        Scheduler.battled_recently E bot w1 = (Return false, w2) ->
        exists w',
          Scheduler.visit_bot E cfg manifest before bot after w = (Return (bot, false), w')
          /\ manifest_file w' = manifest_file w
          /\ n_run w' = S (n_run w)
          /\ Scheduler.battle_pass E cfg manifest before (bot :: after) battles_run w
             = Scheduler.battle_pass E cfg manifest (before ++ [bot]) after battles_run w').
Proof.
  intros Hn Hi Ha Hk Hfail. split.
  - destruct (run_bot_battle_failed E bot name index agent_id key cfg w Hn Hi Ha Hk Hfail)
      as (w' & tl & Hrun & _ & Hfile & _ & _ & Hnrun).
    now exists w'.
  - intros w1 w2 Hgate Hrecent.
    destruct (check_rate_limit_frame E bot w)
      as (o1 & w1' & tl1 & Hgate' & _ & _ & Hfile1 & _ & Hrun1 & _).
    rewrite Hgate in Hgate'. injection Hgate' as <- <-.
    destruct (battled_recently_frame E bot w1)
      as (o2 & w2' & Hrecent' & _ & Hfile2 & _ & _ & Hrun2 & _).
    rewrite Hrecent in Hrecent'. injection Hrecent' as <- <-.
    assert (Hfail2 : run_failed (nanobot_outcome E (n_run w2)) = true)
      by (now rewrite Hrun2, Hrun1).
    destruct (run_bot_battle_failed E bot name index agent_id key cfg w2 Hn Hi Ha Hk Hfail2)
      as (w3 & tl & Hrun & _ & Hfile3 & _ & _ & Hnrun3).
    assert (Hvisit : Scheduler.visit_bot E cfg manifest before bot after w =
              (Return (bot, false),
               {| manifest_file := manifest_file w3; trace := trace w3 ++ [Sleep 5];
                  n_post := n_post w3; n_get := n_get w3;
                  n_run := n_run w3; n_now := n_now w3 |})).
    { unfold Scheduler.visit_bot, bind. rewrite Hgate. cbn [negb].
      rewrite Hrecent, Hrun. reflexivity. }
    eexists. split; [exact Hvisit|]. cbn.
    split; [congruence|]. split; [congruence|].
    change (Scheduler.battle_pass E cfg manifest before (bot :: after) battles_run)
      with ('(bot', ran) <- Scheduler.visit_bot E cfg manifest before bot after ;;
            Scheduler.battle_pass E cfg manifest (before ++ [bot']) after
              (if ran then S battles_run else battles_run))%py.
    now rewrite (bind_return _ _ _ _ _ Hvisit).
Qed.

End Visit.

(** Ten minutes after a battle, with fights remaining on the service. *)
Lemma no_battle_within_cooldown_witness :
  let bot := Fixtures.agent (VStr "2026-11-03T13:50:00") 4 in
  exists w',
    @Scheduler.visit_bot Lib.python Fixtures.friendly
      {| Scheduler.provider := "deepseek"; Scheduler.api_key := "sk-test";
         Scheduler.model := "deepseek-chat" |}
      (Fixtures.fleet_of [bot]) [] bot [] Fixtures.fresh_world
      = (Return (bot, false), w')
    /\ n_run w' = 0%nat.
Proof.
  intros bot.
  destruct (@no_battle_within_cooldown Lib.python Fixtures.friendly
              {| Scheduler.provider := "deepseek"; Scheduler.api_key := "sk-test";
                 Scheduler.model := "deepseek-chat" |}
              (Fixtures.fleet_of [bot]) [] bot [] Fixtures.fresh_world
              "2026-11-03T13:50:00" (Fixtures.t0 - minutes 10))
    as (o & w' & tl & Hrun & _ & _ & Hn & _ & _ & Hname).
  - reflexivity.
  - discriminate.
  - vm_compute. reflexivity.
  - vm_compute. reflexivity.
  - exists w'. rewrite Hrun, (Hname (VStr "Bot-0") eq_refl). split; [reflexivity|exact Hn].
Defined.

(** The status query times out. *)
Lemma shut_gate_skips_agent_witness :
  let bot := Fixtures.agent VNone 0 in
  let E := {| getenv := getenv Fixtures.friendly; BOT_COUNT := 3;
              register_response := register_response Fixtures.friendly;
              status_response := fun _ => HttpFailed "timed out";
              nanobot_outcome := nanobot_outcome Fixtures.friendly;
              clock := clock Fixtures.friendly |} in
  exists w',
    @Scheduler.visit_bot Lib.python E
      {| Scheduler.provider := "deepseek"; Scheduler.api_key := "sk-test";
         Scheduler.model := "deepseek-chat" |}
      (Fixtures.fleet_of [bot]) [] bot [] Fixtures.fresh_world
      = (Return (bot, false), w')
    /\ n_get w' = 1%nat /\ n_run w' = 0%nat.
Proof.
  intros bot E.
  destruct (@shut_gate_skips_agent Lib.python E
              {| Scheduler.provider := "deepseek"; Scheduler.api_key := "sk-test";
                 Scheduler.model := "deepseek-chat" |}
              (Fixtures.fleet_of [bot]) [] bot [] Fixtures.fresh_world
              (VStr "agent-0") (VStr "key-0") (VStr "Bot-0")
              eq_refl eq_refl eq_refl eq_refl)
    as (w1 & w' & tl & _ & Hvisit & _ & _ & Hget & _ & Hrun & _).
  exists w'. repeat split; assumption.
Defined.

(** The remote action runs into its timeout. *)
Lemma failed_battle_changes_nothing_witness :
  let bot := Fixtures.agent VNone 0 in
  let E := {| getenv := getenv Fixtures.friendly; BOT_COUNT := 3;
              register_response := register_response Fixtures.friendly;
              status_response := status_response Fixtures.friendly;
              nanobot_outcome := fun _ => ProcTimeout;
              clock := clock Fixtures.friendly |} in
  exists w',
    @Scheduler.run_bot_battle Lib.python E bot
      {| Scheduler.provider := "deepseek"; Scheduler.api_key := "sk-test";
         Scheduler.model := "deepseek-chat" |} Fixtures.fresh_world
      = (Return (false, bot), w')
    /\ manifest_file w' = None.
Proof.
  intros bot E.
  destruct (@failed_battle_changes_nothing Lib.python E
              {| Scheduler.provider := "deepseek"; Scheduler.api_key := "sk-test";
                 Scheduler.model := "deepseek-chat" |}
              (Fixtures.fleet_of [bot]) [] bot [] Fixtures.fresh_world
              (VStr "Bot-0") (VInt 0) "agent-0" "key-0" 0%nat
              eq_refl eq_refl eq_refl eq_refl eq_refl)
    as [(w' & Hrun & Hfile & _) _].
  exists w'. split; assumption.
Defined.

(** ** Action counts *)

Lemma battles_logged_app (a b : list event) :
  battles_logged (a ++ b) = (battles_logged a + battles_logged b)%nat.
Proof.
  induction a as [|ev a IH]; [reflexivity|].
  destruct ev as [lv msg| | | | | | | | | ]; cbn; try exact IH.
  destruct lv; try exact IH.
  destruct msg; cbn; try exact IH. rewrite IH. lia.
Qed.

Lemma total_count_app (a b : list value) :
  total_count (a ++ b) = total_count a + total_count b.
Proof. induction a as [|x a IH]; cbn; [reflexivity|]. rewrite IH. lia. Qed.

Lemma fleet_store_bots (manifest : value) (bots : list value) :
  getitem manifest "bots" = Return (VList (fleet manifest)) ->
  fleet (Scheduler.store_bots manifest bots) = bots
  /\ getitem (Scheduler.store_bots manifest bots) "bots"
     = Return (VList (fleet (Scheduler.store_bots manifest bots))).
Proof.
  destruct manifest as [| | | | |d]; try discriminate. cbn.
  destruct (dict_get "bots" d) as [[| | | |l|]|] eqn:Hd; try discriminate.
  intros _. cbn. rewrite dict_get_set_same. auto.
Qed.

Section Counts.

Context {L : PyStdlib}.
Variable E : environ.

Lemma battle_pass_cons (cfg : Scheduler.llm_config) (manifest : value)
    (before : list value) (bot : value) (after : list value) (k : nat) :
  Scheduler.battle_pass E cfg manifest before (bot :: after) k =
    ('(bot', ran) <- Scheduler.visit_bot E cfg manifest before bot after ;;
     Scheduler.battle_pass E cfg manifest (before ++ [bot']) after
       (if ran then S k else k))%py.
Proof. reflexivity. Qed.

(** Nothing under a cycle writes a "Cycle complete" line. *)
Lemma check_rate_limit_logs (bot : value) (w : world) :
  exists tl,
    trace (snd (Scheduler.check_rate_limit E bot w)) = trace w ++ tl
    /\ battles_logged tl = 0%nat.
Proof.
  unfold Scheduler.check_rate_limit, Scheduler.requests_get_status, try_except, bind,
    lift, ret, raise, log, emit, Scheduler.response_json.
  repeat (cbn; break_match); cbn; rewrite <- ?app_assoc; cbn;
    first [ match goal with
            | |- exists tl, _ ++ ?t = _ /\ _ => exists t; split; reflexivity
            end
          | exists []; rewrite app_nil_r; split; reflexivity ].
Qed.

Lemma run_bot_battle_logs (bot : value) (cfg : Scheduler.llm_config) (w : world) :
  exists tl,
    trace (snd (Scheduler.run_bot_battle E bot cfg w)) = trace w ++ tl
    /\ battles_logged tl = 0%nat.
Proof.
  unfold_runner.
  repeat (cbn; break_match); cbn; rewrite <- ?app_assoc; cbn;
    first [ match goal with
            | |- exists tl, _ ++ ?t = _ /\ _ => exists t; split; reflexivity
            end
          | exists []; rewrite app_nil_r; split; reflexivity ].
Qed.

Lemma visit_bot_logs (cfg : Scheduler.llm_config) (manifest : value)
    (before : list value) (bot : value) (after : list value) (w : world) :
  exists tl,
    trace (snd (Scheduler.visit_bot E cfg manifest before bot after w)) = trace w ++ tl
    /\ battles_logged tl = 0%nat.
Proof.
  unfold Scheduler.visit_bot, bind.
  destruct (check_rate_limit_logs bot w) as (tl1 & Htr1 & Hlog1).
  destruct (Scheduler.check_rate_limit E bot w) as [o1 w1]. cbn [snd] in Htr1.
  assert (Hskip : forall msg : value -> message,
            (forall v k, msg v <> MsgCycleComplete k) ->
            exists tl,
              trace (snd (bind (lift (getitem bot "name"))
                            (fun name => bind (log INFO (msg name))
                                           (fun _ => ret (bot, false))) w1))
                = trace w ++ tl
              /\ battles_logged tl = 0%nat).
  { intros msg Hmsg. unfold bind, lift, log, emit, ret.
    destruct (getitem bot "name") as [name| |]; cbn; try now exists tl1.
    exists (tl1 ++ [Log INFO (msg name)]).
    rewrite Htr1, <- app_assoc, battles_logged_app, Hlog1. split; [reflexivity|].
    cbn. specialize (Hmsg name). destruct (msg name); try reflexivity.
    now contradiction (Hmsg battles_run). }
  destruct o1 as [[|]|e|]; cbn [negb snd]; try now exists tl1.
  - destruct (battled_recently_frame E bot w1)
      as (o2 & w2 & Hrecent & _ & _ & _ & _ & _ & Htr2).
    rewrite Hrecent.
    destruct o2 as [[|]|e|]; cbn [snd]; try (exists tl1; split; [congruence|assumption]).
    + destruct (Hskip MsgBattledRecently ltac:(discriminate)) as (tl & Htl & Hlog).
      unfold bind, lift, log, emit, ret in Htl.
      unfold lift, log, emit, ret.
      destruct (getitem bot "name"); cbn in *;
        [ exists tl; split; [|assumption]
        | exists tl1; split; [congruence|assumption]
        | exists tl1; split; [congruence|assumption] ].
      rewrite Htr2. exact Htl.
    + destruct (run_bot_battle_logs bot cfg w2) as (tl3 & Htr3 & Hlog3).
      destruct (Scheduler.run_bot_battle E bot cfg w2) as [[[ok bot1]|e|] w3];
        cbn [snd] in *;
        try (exists (tl1 ++ tl3); rewrite battles_logged_app, Hlog1, Hlog3;
             split; [|reflexivity]; rewrite Htr3, Htr2, Htr1, app_assoc; reflexivity).
      unfold Scheduler.save_manifest, write_manifest_file, sleep, emit, ret.
      destruct ok; cbn.
      * eexists (tl1 ++ tl3 ++ [_; _]).
        split; [rewrite Htr3, Htr2, Htr1, <- !app_assoc; reflexivity|].
        rewrite !battles_logged_app, Hlog1, Hlog3. reflexivity.
      * eexists (tl1 ++ tl3 ++ [_]).
        split; [rewrite Htr3, Htr2, Htr1, <- !app_assoc; reflexivity|].
        rewrite !battles_logged_app, Hlog1, Hlog3. reflexivity.
  - destruct (Hskip MsgRateLimited ltac:(discriminate)) as (tl & Htl & Hlog).
    now exists tl.
Qed.

Lemma battle_pass_logs (cfg : Scheduler.llm_config) (manifest : value)
    (todo : list value) :
  forall (before : list value) (k : nat) (w : world),
  exists tl,
    trace (snd (Scheduler.battle_pass E cfg manifest before todo k w)) = trace w ++ tl
    /\ battles_logged tl = 0%nat.
Proof.
  induction todo as [|bot after IH]; intros before k w.
  - exists []. now rewrite app_nil_r.
  - rewrite battle_pass_cons. unfold bind.
    destruct (visit_bot_logs cfg manifest before bot after w) as (tl1 & Htr1 & Hlog1).
    destruct (Scheduler.visit_bot E cfg manifest before bot after w)
      as [[[bot1 ran]|e|] w1]; cbn [snd] in *; try now exists tl1.
    destruct (IH (before ++ [bot1]) (if ran then S k else k) w1) as (tl2 & Htr2 & Hlog2).
    exists (tl1 ++ tl2). rewrite Htr2, Htr1, app_assoc, battles_logged_app, Hlog1, Hlog2.
    auto.
Qed.

Lemma visit_bot_count (cfg : Scheduler.llm_config) (manifest : value)
    (before : list value) (bot : value) (after : list value) (w : world)
    (bot' : value) (ran : bool) (w' : world) :
  Scheduler.visit_bot E cfg manifest before bot after w = (Return (bot', ran), w') ->
  action_count bot' = action_count bot + (if ran then 1 else 0).
Proof.
  unfold Scheduler.visit_bot, bind.
  destruct (Scheduler.check_rate_limit E bot w) as [[[|]|e|] w1]; try discriminate.
  - cbn [negb].
    destruct (Scheduler.battled_recently E bot w1) as [[[|]|e|] w2]; try discriminate.
    + unfold lift, log, emit, ret.
      destruct (getitem bot "name"); try discriminate.
      intros [= <- <- <-]. lia.
    + destruct (Scheduler.run_bot_battle E bot cfg w2) as [[[ok bot1]|e|] w3] eqn:Hrun;
        try discriminate.
      apply run_bot_battle_count in Hrun.
      destruct ok; cbn; intros [= <- <- <-]; exact Hrun.
  - cbn [negb]. unfold lift, log, emit, ret.
    destruct (getitem bot "name"); try discriminate.
    intros [= <- <- <-]. lia.
Qed.

Lemma battle_pass_count (cfg : Scheduler.llm_config) (manifest : value)
    (todo : list value) :
  forall (before : list value) (k : nat) (w : world)
         (bots' : list value) (k' : nat) (w' : world),
    Scheduler.battle_pass E cfg manifest before todo k w = (Return (bots', k'), w') ->
    exists visited,
      bots' = before ++ visited
      /\ Forall2 (fun b b' => action_count b <= action_count b' <= action_count b + 1)
                 todo visited
      /\ (k <= k')%nat
      /\ total_count visited = total_count todo + Z.of_nat (k' - k).
Proof.
  induction todo as [|bot after IH]; intros before k w bots' k' w' Hpass.
  - cbn in Hpass. injection Hpass as <- <- <-.
    exists []. rewrite app_nil_r, Nat.sub_diag. repeat split; auto.
  - rewrite battle_pass_cons in Hpass. unfold bind in Hpass.
    destruct (Scheduler.visit_bot E cfg manifest before bot after w)
      as [[[bot1 ran]|e|] w1] eqn:Hvisit; try discriminate.
    apply visit_bot_count in Hvisit.
    apply IH in Hpass as (visited & -> & Hall & Hk & Hsum).
    exists (bot1 :: visited). rewrite <- app_assoc. cbn.
    split; [reflexivity|]. split.
    + constructor; [|exact Hall]. destruct ran; lia.
    + destruct ran; split; try lia.
Qed.

Lemma battle_cycle_count (cfg : Scheduler.llm_config) (manifest : value) (w : world)
    (manifest' : value) (w' : world) :
  getitem manifest "bots" = Return (VList (fleet manifest)) ->
  Scheduler.battle_cycle E cfg manifest w = (Return manifest', w') ->
  getitem manifest' "bots" = Return (VList (fleet manifest'))
  /\ Forall2 (fun b b' => action_count b <= action_count b' <= action_count b + 1)
             (fleet manifest) (fleet manifest')
  /\ exists tl,
       trace w' = trace w ++ tl
       /\ total_count (fleet manifest')
          = total_count (fleet manifest) + Z.of_nat (battles_logged tl).
Proof.
  intros Hbots.
  unfold Scheduler.battle_cycle.
  unfold bind at 1. unfold log at 1, emit. unfold bind at 1.
  unfold Scheduler.now at 1. unfold bind at 1. unfold log at 1, emit.
  unfold bind at 1. unfold lift at 1, Scheduler.bots_of. rewrite Hbots. cbn [iter].
  unfold bind at 1.
  match goal with
  | |- context [Scheduler.battle_pass E cfg manifest [] (fleet manifest) 0 ?w0] =>
      set (w2 := w0)
  end.
  destruct (battle_pass_logs cfg manifest (fleet manifest) [] 0%nat w2)
    as (tlp & Htrp & Hlogp).
  destruct (Scheduler.battle_pass E cfg manifest [] (fleet manifest) 0 w2)
    as [[[bots' k']|e|] w3] eqn:Hpass; try discriminate.
  apply battle_pass_count in Hpass as (visited & -> & Hall & _ & Hsum).
  cbn [app snd] in *. unfold bind, log, sleep, emit, ret. cbn.
  intros [= <- <-].
  destruct (fleet_store_bots manifest visited Hbots) as [Hfleet Hget].
  split; [exact Hget|]. rewrite Hfleet. split; [exact Hall|].
  eexists. cbn. rewrite Htrp. subst w2. cbn. rewrite <- !app_assoc. split; [reflexivity|].
  cbn. rewrite battles_logged_app, Hlogp. cbn.
  rewrite Hsum. rewrite Nat.sub_0_r, Nat.add_0_r. reflexivity.
Qed.

Lemma battle_loop_count (cycles : nat) :
  forall (cfg : Scheduler.llm_config) (manifest : value) (w : world)
         (manifest' : value) (w' : world),
    getitem manifest "bots" = Return (VList (fleet manifest)) ->
    Scheduler.battle_loop E cycles cfg manifest w = (Return manifest', w') ->
    Forall2 (fun b b' => action_count b <= action_count b')
            (fleet manifest) (fleet manifest')
    /\ exists tl,
         trace w' = trace w ++ tl
         /\ total_count (fleet manifest')
            = total_count (fleet manifest) + Z.of_nat (battles_logged tl).
Proof.
  induction cycles as [|cycles IH]; intros cfg manifest w manifest' w' Hbots Hloop.
  - injection Hloop as <- <-. split.
    + generalize (fleet manifest). intros l.
      induction l; constructor; [lia|assumption].
    + exists []. rewrite app_nil_r. cbn. split; [reflexivity|lia].
  - change (Scheduler.battle_loop E (S cycles) cfg manifest)
      with (manifest1 <- Scheduler.battle_cycle E cfg manifest ;;
            Scheduler.battle_loop E cycles cfg manifest1)%py in Hloop.
    unfold bind in Hloop.
    destruct (Scheduler.battle_cycle E cfg manifest w) as [[manifest1|e|] w1] eqn:Hcycle;
      try discriminate.
    apply (battle_cycle_count _ _ _ _ _ Hbots) in Hcycle
      as (Hbots1 & Hall1 & tl1 & Htr1 & Hsum1).
    apply (IH _ _ _ _ _ Hbots1) in Hloop as (Hall & tl & Htr & Hsum).
    split.
    + clear - Hall1 Hall.
      revert Hall. generalize (fleet manifest').
      induction Hall1 as [|b b1 l l1 Hb Hl IHl]; intros l' Hall; inversion Hall; subst.
      * constructor.
      * constructor; [lia|]. now apply IHl.
    + exists (tl1 ++ tl). rewrite Htr, Htr1, app_assoc. split; [reflexivity|].
      rewrite battles_logged_app, Hsum, Hsum1. lia.
Qed.

(** C5. The count of a record goes up by one when the runner answers yes
    and stays when it answers no; a turn that skips the agent leaves it
    too. Over any number of cycles no count goes down, and the counts of
    the fleet together grow by the number of battles the cycles report as
    run. *)
Theorem action_count_tracks_success :
  (forall bot cfg w ok bot' w',
      Scheduler.run_bot_battle E bot cfg w = (Return (ok, bot'), w') ->
      action_count bot' = action_count bot + (if ok then 1 else 0))
  /\ (forall cfg manifest before bot after w bot' ran w',
        Scheduler.visit_bot E cfg manifest before bot after w = (Return (bot', ran), w') ->
        action_count bot' = action_count bot + (if ran then 1 else 0))
  /\ (forall cycles cfg manifest w manifest' w',
        getitem manifest "bots" = Return (VList (fleet manifest)) ->
        Scheduler.battle_loop E cycles cfg manifest w = (Return manifest', w') ->
        Forall2 (fun b b' => action_count b <= action_count b')
                (fleet manifest) (fleet manifest')
        /\ exists tl,
             trace w' = trace w ++ tl
             /\ total_count (fleet manifest')
                = total_count (fleet manifest) + Z.of_nat (battles_logged tl)).
Proof.
  split; [|split].
  - intros. eapply run_bot_battle_count; eassumption.
  - intros. eapply visit_bot_count; eassumption.
  - intros. eapply battle_loop_count; eassumption.
Qed.

End Counts.

(** ** The process keeps running *)

Lemma has_key_set (k k' : string) (v : value) (d : list (string * value)) :
  has_key k d = true -> has_key k (dict_set k' v d) = true.
Proof.
  unfold has_key. intros H.
  destruct (String.eqb k k') eqn:Hk.
  - apply String.eqb_eq in Hk. subst k'. now rewrite dict_get_set_same.
  - rewrite dict_get_set_other; [exact H|].
    intros ->. now rewrite String.eqb_refl in Hk.
Qed.

Section Total.

Context {L : PyStdlib}.
Variable E : environ.

(** Every timestamp the code writes can be read back. *)
Hypothesis clock_parses : forall k, fromisoformat (isoformat (clock E k)) <> None.

Lemma wf_agent_keys (bot : value) :
  wf_agent bot = true ->
  exists d name agent_id key index,
    bot = VDict d
    /\ dict_get "name" d = Some name
    /\ dict_get "agent_id" d = Some agent_id
    /\ dict_get "api_key" d = Some key
    /\ dict_get "index" d = Some index
    /\ last_battle_ok d = true.
Proof.
  destruct bot as [| | | | |d]; try discriminate. cbn [wf_agent]. unfold has_key.
  intros H. repeat (apply andb_prop in H as [H ?]).
  destruct (dict_get "name" d) as [name|] eqn:Hn; [|discriminate].
  destruct (dict_get "agent_id" d) as [agent_id|] eqn:Ha; [|discriminate].
  destruct (dict_get "api_key" d) as [key|] eqn:Hk; [|discriminate].
  destruct (dict_get "index" d) as [index|] eqn:Hi; [|discriminate].
  exists d, name, agent_id, key, index. repeat split; assumption.
Qed.

Lemma wf_agent_set_battles (d : list (string * value)) (v : value) :
  wf_agent (VDict d) = true -> wf_agent (VDict (dict_set "battles" v d)) = true.
Proof.
  cbn [wf_agent]. intros H. repeat (apply andb_prop in H as [H ?]).
  rewrite !has_key_set by assumption. cbn [andb].
  unfold last_battle_ok in *. now rewrite dict_get_set_other by discriminate.
Qed.

Lemma wf_agent_set_last_battle (d : list (string * value)) (k : nat) :
  wf_agent (VDict d) = true ->
  wf_agent (VDict (dict_set "last_battle" (VStr (isoformat (clock E k))) d)) = true.
Proof.
  cbn [wf_agent]. intros H. repeat (apply andb_prop in H as [H ?]).
  rewrite !has_key_set by assumption. cbn [andb].
  unfold last_battle_ok. rewrite dict_get_set_same.
  pose proof (clock_parses k) as Hp.
  destruct (fromisoformat (isoformat (clock E k))); [|contradiction].
  apply orb_true_r.
Qed.

Lemma registered_record_wf (i : nat) (bot : value) :
  registered_record i bot -> wf_agent bot = true /\ truthy bot = true.
Proof. intros (agent_id & key & name & registered & ->). split; reflexivity. Qed.

(** On a well-formed record the runner always answers, and what it hands
    back is well formed. *)
Lemma run_bot_battle_total (bot : value) (cfg : Scheduler.llm_config) (w : world) :
  wf_agent bot = true ->
  exists ok bot' w',
    Scheduler.run_bot_battle E bot cfg w = (Return (ok, bot'), w')
    /\ wf_agent bot' = true.
Proof.
  intros Hwf.
  destruct (wf_agent_keys bot Hwf) as (d & name & agent_id & key & index & -> & Hn & Ha & Hk & Hi & _).
  unfold_runner. cbn. rewrite Hn, Ha, Hi, Hk. cbn.
  repeat (cbn; break_match); try no_fuel; try not_exit;
    repeat match goal with
           | H : (_, _) = (_, _) |- _ => inversion H; subst; clear H
           end;
    try discriminate;
    (eexists _, _, _; split; [reflexivity|]);
    first [ exact Hwf
          | apply wf_agent_set_last_battle; exact Hwf
          | apply wf_agent_set_battles, wf_agent_set_last_battle; exact Hwf ].
Qed.

Lemma battled_recently_total (bot : value) (w : world) :
  wf_agent bot = true ->
  exists recent w', Scheduler.battled_recently E bot w = (Return recent, w').
Proof.
  intros Hwf.
  destruct (wf_agent_keys bot Hwf) as (d & _ & _ & _ & _ & -> & _ & _ & _ & _ & Hlast).
  unfold last_battle_ok in Hlast.
  unfold Scheduler.battled_recently, Scheduler.now, bind, lift, ret, raise. cbn.
  destruct (dict_get "last_battle" d) as [v|]; cbn; [|now eexists _, _].
  destruct (truthy v) eqn:Ht; cbn in *; [|now eexists _, _].
  destruct v; try discriminate.
  destruct (fromisoformat s); [|discriminate]. now eexists _, _.
Qed.

Lemma visit_bot_total (cfg : Scheduler.llm_config) (manifest : value)
    (before : list value) (bot : value) (after : list value) (w : world) :
  wf_agent bot = true ->
  exists bot' ran w',
    Scheduler.visit_bot E cfg manifest before bot after w = (Return (bot', ran), w')
    /\ wf_agent bot' = true.
Proof.
  intros Hwf.
  destruct (wf_agent_keys bot Hwf) as (d & name & _ & _ & _ & Hbot & Hn & _).
  assert (Hname : getitem bot "name" = Return name) by (subst bot; cbn; now rewrite Hn).
  destruct (check_rate_limit_returns E bot name w Hname) as [can Hcan].
  unfold Scheduler.visit_bot, bind.
  destruct (Scheduler.check_rate_limit E bot w) as [o1 w1]. cbn in Hcan. subst o1.
  destruct can; cbn [negb].
  - destruct (battled_recently_total bot w1 Hwf) as (recent & w2 & ->).
    destruct recent.
    + unfold lift, log, emit, ret. rewrite Hname. now eexists _, _, _.
    + destruct (run_bot_battle_total bot cfg w2 Hwf) as (ok & bot' & w3 & -> & Hwf').
      unfold Scheduler.save_manifest, write_manifest_file, sleep, emit, ret.
      destruct ok; now eexists _, _, _.
  - unfold lift, log, emit, ret. rewrite Hname. now eexists _, _, _.
Qed.

Lemma battle_pass_total (cfg : Scheduler.llm_config) (manifest : value)
    (todo : list value) :
  forall (before : list value) (k : nat) (w : world),
    forallb wf_agent before = true ->
    forallb wf_agent todo = true ->
    exists bots' k' w',
      Scheduler.battle_pass E cfg manifest before todo k w = (Return (bots', k'), w')
      /\ forallb wf_agent bots' = true.
Proof.
  induction todo as [|bot after IH]; intros before k w Hbefore Htodo.
  - now exists before, k, w.
  - cbn in Htodo. apply andb_prop in Htodo as [Hbot Hafter].
    rewrite battle_pass_cons. unfold bind.
    destruct (visit_bot_total cfg manifest before bot after w Hbot)
      as (bot' & ran & w1 & -> & Hwf').
    apply IH; [|exact Hafter].
    rewrite forallb_app, Hbefore. cbn. now rewrite Hwf'.
Qed.

Lemma wf_manifest_inv (manifest : value) :
  wf_manifest manifest = true ->
  exists d bots,
    manifest = VDict d /\ dict_get "bots" d = Some (VList bots)
    /\ forallb wf_agent bots = true.
Proof.
  destruct manifest as [| | | | |d]; try discriminate. cbn [wf_manifest].
  destruct (dict_get "bots" d) as [[| | | |bots|]|] eqn:Hd; try discriminate.
  intros H. exists d, bots. repeat split; assumption.
Qed.

Lemma battle_cycle_total (cfg : Scheduler.llm_config) (manifest : value) (w : world) :
  wf_manifest manifest = true ->
  exists manifest' w',
    Scheduler.battle_cycle E cfg manifest w = (Return manifest', w')
    /\ wf_manifest manifest' = true.
Proof.
  intros Hwf.
  destruct (wf_manifest_inv manifest Hwf) as (d & bots & -> & Hd & Hbots).
  unfold Scheduler.battle_cycle.
  unfold bind at 1. unfold log at 1, emit. unfold bind at 1.
  unfold Scheduler.now at 1. unfold bind at 1. unfold log at 1, emit.
  unfold bind at 1. unfold lift at 1, Scheduler.bots_of. cbn [getitem]. rewrite Hd.
  cbn [iter]. unfold bind at 1.
  match goal with
  | |- context [Scheduler.battle_pass E cfg (VDict d) [] bots 0 ?w0] => set (w2 := w0)
  end.
  destruct (battle_pass_total cfg (VDict d) bots [] 0%nat w2 eq_refl Hbots)
    as (bots' & k' & w3 & -> & Hbots').
  unfold bind, log, sleep, emit, ret. cbn. rewrite Hd.
  eexists _, _. split; [reflexivity|]. cbn. now rewrite dict_get_set_same.
Qed.

Lemma battle_loop_total (cycles : nat) :
  forall (cfg : Scheduler.llm_config) (manifest : value) (w : world),
    wf_manifest manifest = true ->
    exists manifest' w',
      Scheduler.battle_loop E cycles cfg manifest w = (Return manifest', w')
      /\ wf_manifest manifest' = true.
Proof.
  induction cycles as [|cycles IH]; intros cfg manifest w Hwf.
  - now exists manifest, w.
  - change (Scheduler.battle_loop E (S cycles) cfg manifest)
      with (manifest1 <- Scheduler.battle_cycle E cfg manifest ;;
            Scheduler.battle_loop E cycles cfg manifest1)%py.
    unfold bind.
    destruct (battle_cycle_total cfg manifest w Hwf) as (manifest1 & w1 & -> & Hwf1).
    now apply IH.
Qed.

(** The registration loop always comes back, whatever the service answers. *)
Lemma register_loop_total (fuel : nat) :
  forall (d : list (string * value)) (bots : list value) (w : world),
    dict_get "bots" d = Some (VList bots) ->
    forallb wf_agent bots = true ->
    Z.max 0 (BOT_COUNT E - Z.of_nat (List.length bots)) < Z.of_nat fuel ->
    exists manifest' w',
      Scheduler.register_loop E fuel (VDict d) w = (Return manifest', w')
      /\ wf_manifest manifest' = true.
Proof.
  induction fuel as [|fuel IH]; intros d bots w Hd Hbots Hfuel.
  - lia.
  - rewrite register_loop_S. unfold bind. cbn. rewrite Hd. cbn.
    destruct (Z.of_nat (List.length bots) <? BOT_COUNT E) eqn:Hlt.
    2:{ exists (VDict d), w. split; [reflexivity|]. cbn. now rewrite Hd. }
    destruct (accepted (register_response E (n_post w))) eqn:Hacc.
    + destruct (register_bot_accepted E (List.length bots) w Hacc)
        as (bot & w1 & -> & Hrec & _).
      destruct (registered_record_wf _ _ Hrec) as [Hwf Htruthy].
      rewrite Htruthy.
      destruct Hrec as (agent_id & key & name & registered & ->).
      cbn.
      set (bot := VDict (_ :: _)).
      apply (IH _ (bots ++ [bot])).
      * apply dict_get_set_same.
      * rewrite forallb_app, Hbots. cbn [forallb andb]. fold bot in Hwf.
        now rewrite Hwf.
      * apply Z.ltb_lt in Hlt. rewrite length_app. cbn. lia.
    + destruct (register_bot_rejected E (List.length bots) w Hacc)
        as (w1 & tl & -> & _).
      cbn. unfold log, emit, ret. cbn.
      eexists _, _. split; [reflexivity|]. cbn. now rewrite Hd.
Qed.

End Total.

Section Process.

Context {L : PyStdlib}.
Variable E : environ.

Lemma startup_total (fuel : nat) (w : world) :
  (forall k, fromisoformat (isoformat (clock E k)) <> None) ->
  (Scheduler.env_set E "DEEPSEEK_API_KEY" <> None
   \/ Scheduler.env_set E "OPENROUTER_API_KEY" <> None) ->
  usable_file w = true ->
  Z.max 0 (BOT_COUNT E) < Z.of_nat fuel ->
  exists cfg manifest w',
    Scheduler.startup E fuel w = (Return (cfg, manifest), w')
    /\ wf_manifest manifest = true.
Proof.
  intros Hclock Hkey Hfile Hfuel.
  assert (Hcfg : forall w0, exists cfg,
             Scheduler.get_llm_config E w0 = (Return cfg, w0)).
  { intros w0. unfold Scheduler.get_llm_config.
    destruct (Scheduler.env_set E "DEEPSEEK_API_KEY"); [now eexists|].
    destruct (Scheduler.env_set E "OPENROUTER_API_KEY"); [now eexists|].
    destruct Hkey; contradiction. }
  assert (Hload : forall w0, manifest_file w0 = manifest_file w ->
             exists manifest w3,
               Scheduler.load_manifest E w0 = (Return manifest, w3)
               /\ wf_manifest manifest = true).
  { intros w0 Hsame.
    unfold Scheduler.load_manifest, read_manifest_file, bind, Scheduler.now, ret, raise.
    unfold usable_file in Hfile. rewrite Hsame.
    destruct (manifest_file w) as [content|].
    - destruct (json_loads content) as [manifest|]; [|discriminate].
      now eexists _, _.
    - now eexists _, _. }
  unfold Scheduler.startup, bind, log, emit. cbn.
  match goal with
  | |- context [Scheduler.get_llm_config E ?w0] => destruct (Hcfg w0) as [cfg ->]
  end.
  cbn.
  match goal with
  | |- context [Scheduler.load_manifest E ?w0] =>
      destruct (Hload w0 eq_refl) as (manifest & w3 & -> & Hwf)
  end.
  destruct (wf_manifest_inv manifest Hwf) as (d & bots & -> & Hd & Hbots).
  destruct (register_loop_total E fuel d bots w3 Hd Hbots)
    as (manifest' & w4 & -> & Hwf'); [lia|].
  destruct (wf_manifest_inv manifest' Hwf') as (d' & bots' & -> & Hd' & Hbots').
  unfold lift, ret. cbn. rewrite Hd'. cbn.
  eexists _, _, _. split; [reflexivity|]. cbn [wf_manifest]. now rewrite Hd'.
Qed.

(** C8 (as amended). With no provider key set to a non-empty value the
    process logs the error and exits with status 1 before it reads the
    manifest or calls anyone. With a key, and a manifest file that is
    missing or holds a well-formed manifest, it reaches the battle loop and
    gets through any number of cycles, whatever the registration, status and
    action calls do: none of their failures leaves its handler. *)
Theorem only_startup_errors_stop_the_scheduler :
  (Scheduler.env_set E "DEEPSEEK_API_KEY" = None ->
   Scheduler.env_set E "OPENROUTER_API_KEY" = None ->
   forall fuel cycles w,
     Scheduler.main E fuel cycles w =
       (Raise (SystemExit 1),
        {| manifest_file := manifest_file w;
           trace := trace w ++ [Log INFO (MsgRule "=" 50); Log INFO MsgTitle;
                                Log INFO (MsgRule "=" 50); Log ERROR MsgNoKey];
           n_post := n_post w; n_get := n_get w;
           n_run := n_run w; n_now := n_now w |}))
  /\ ((forall k, fromisoformat (isoformat (clock E k)) <> None) ->
      (Scheduler.env_set E "DEEPSEEK_API_KEY" <> None
       \/ Scheduler.env_set E "OPENROUTER_API_KEY" <> None) ->
      forall fuel cycles w,
        usable_file w = true ->
        Z.max 0 (BOT_COUNT E) < Z.of_nat fuel ->
        exists manifest' w',
          Scheduler.main E fuel cycles w = (Return manifest', w')).
Proof.
  split.
  - intros Hd Ho fuel cycles w.
    unfold Scheduler.main, Scheduler.startup, Scheduler.get_llm_config.
    rewrite Hd, Ho. unfold bind, log, emit, raise. cbn.
    rewrite <- !app_assoc. reflexivity.
  - intros Hclock Hkey fuel cycles w Hfile Hfuel.
    destruct (startup_total fuel w Hclock Hkey Hfile Hfuel)
      as (cfg & manifest & w1 & Hstart & Hwf).
    unfold Scheduler.main. rewrite (bind_return _ _ _ _ _ Hstart).
    destruct (battle_loop_total E Hclock cycles cfg manifest w1 Hwf)
      as (manifest' & w' & Hloop & _).
    now exists manifest', w'.
Qed.

End Process.

(** ** The JSON library reads back what it writes *)

Module JsonFacts.

Import Lib.

(** *** Strings *)

Lemma scan_string_escape (c : ascii) (s : list ascii) :
  scan_string (escape_char c ++ s) =
    match scan_string s with
    | Some (cs, r) => Some (c :: cs, r)
    | None => None
    end.
Proof.
  destruct c as [[] [] [] [] [] [] [] []]; reflexivity.
Qed.

Lemma scan_string_quoted (cs rest : list ascii) :
  scan_string (flat_map escape_char cs ++ dquote :: rest) = Some (cs, rest).
Proof.
  induction cs as [|c cs IH]; [reflexivity|].
  cbn [flat_map]. rewrite <- app_assoc, scan_string_escape, IH. reflexivity.
Qed.

Lemma quote_app (s : string) (rest : list ascii) :
  quote s ++ rest = dquote :: flat_map escape_char (text s) ++ dquote :: rest.
Proof. unfold quote. cbn. now rewrite <- app_assoc. Qed.

(** *** Numbers *)

Lemma is_digit_digit_char (d : Z) :
  0 <= d < 10 -> is_digit (digit_char d) = true /\ digit_value (digit_char d) = d.
Proof.
  intros Hd.
  assert (H : d = 0 \/ d = 1 \/ d = 2 \/ d = 3 \/ d = 4 \/ d = 5 \/ d = 6 \/ d = 7
              \/ d = 8 \/ d = 9) by lia.
  repeat (destruct H as [-> | H]; [split; reflexivity|]). subst. split; reflexivity.
Qed.

Lemma digits_of_spec (fuel : nat) :
  forall (n : Z) (acc : list ascii),
    0 <= n < 2 ^ Z.of_nat fuel ->
    forallb is_digit acc = true ->
    forallb is_digit (digits_of fuel n acc) = true
    /\ value_from 0 (digits_of fuel n acc) = value_from n acc
    /\ (fuel <> 0%nat ->
        exists d tl, digits_of fuel n acc = digit_char d :: tl
                     /\ 0 <= d < 10
                     /\ (d = 0 -> n = 0 /\ tl = acc)).
Proof.
  induction fuel as [|fuel IH]; intros n acc Hn Hacc.
  - cbn in Hn. assert (n = 0) by lia. subst n. cbn.
    split; [assumption|]. split; [reflexivity|]. intros H. now contradiction H.
  - cbn [digits_of].
    assert (Hmod : 0 <= n mod 10 < 10) by (apply Z.mod_pos_bound; lia).
    destruct (is_digit_digit_char _ Hmod) as [Hdig Hval].
    destruct (n <? 10) eqn:Hlt.
    + apply Z.ltb_lt in Hlt. rewrite Z.mod_small in * by lia.
      cbn [forallb]. rewrite Hdig, Hacc. repeat split.
      * unfold value_from. cbn [fold_left]. rewrite Hval. reflexivity.
      * intros _. exists n, acc. split; [reflexivity|]. split; [lia|]. auto.
    + apply Z.ltb_ge in Hlt.
      assert (Hfuel : fuel <> 0%nat).
      { intros ->. cbn in Hn. lia. }
      assert (Hdiv : 0 <= n / 10 < 2 ^ Z.of_nat fuel).
      { split; [apply Z.div_pos; lia|].
        apply Z.div_lt_upper_bound; [lia|].
        rewrite Nat2Z.inj_succ, Z.pow_succ_r in Hn by lia. lia. }
      destruct (IH (n / 10) (digit_char (n mod 10) :: acc) Hdiv) as (Hall & Hvalue & Hhead).
      { cbn [forallb]. now rewrite Hdig, Hacc. }
      split; [exact Hall|]. split.
      * rewrite Hvalue. unfold value_from. cbn [fold_left]. rewrite Hval.
        f_equal. rewrite (Z.div_mod n 10) at 3 by lia. lia.
      * intros _. destruct (Hhead Hfuel) as (d & tl & Heq & Hd & Hzero).
        exists d, tl. split; [exact Heq|]. split; [exact Hd|].
        intros ->. exfalso. destruct (Hzero eq_refl) as [Hq _].
        apply Z.div_small_iff in Hq; lia.
Qed.

Lemma digit_char_cases (d : Z) :
  0 <= d < 10 ->
  Ascii.eqb (digit_char d) "-" = false
  /\ (d <> 0 -> Ascii.eqb (digit_char d) "0" = false).
Proof.
  intros Hd.
  assert (H : d = 0 \/ d = 1 \/ d = 2 \/ d = 3 \/ d = 4 \/ d = 5 \/ d = 6 \/ d = 7
              \/ d = 8 \/ d = 9) by lia.
  repeat (destruct H as [-> | H]; [split; [reflexivity|]; intros Hne; try reflexivity; lia|]).
  subst. split; reflexivity.
Qed.

(** The digits [decimal] writes for a number that is not negative. *)
Lemma decimal_digits (n : Z) :
  0 <= n ->
  exists d tl,
    digits_of (S (Z.to_nat (Z.log2 n))) n [] = digit_char d :: tl
    /\ 0 <= d < 10
    /\ (d = 0 -> n = 0 /\ tl = [])
    /\ forallb is_digit (digit_char d :: tl) = true
    /\ value_from 0 (digit_char d :: tl) = n.
Proof.
  intros Hn.
  assert (Hbound : 0 <= n < 2 ^ Z.of_nat (S (Z.to_nat (Z.log2 n)))).
  { split; [exact Hn|].
    rewrite Nat2Z.inj_succ, Z2Nat.id by apply Z.log2_nonneg.
    destruct (Z.eq_dec n 0) as [->|Hne]; [reflexivity|].
    apply Z.log2_spec. lia. }
  destruct (digits_of_spec _ n [] Hbound eq_refl) as (Hall & Hval & Hhead).
  destruct (Hhead ltac:(discriminate)) as (d & tl & Heq & Hd & Hzero).
  exists d, tl. rewrite Heq in *.
  split; [reflexivity|]. split; [exact Hd|]. split; [exact Hzero|].
  split; assumption.
Qed.

Lemma span_digits_app (ds rest : list ascii) :
  forallb is_digit ds = true ->
  match rest with [] => True | c :: _ => is_digit c = false end ->
  span_digits (ds ++ rest) = (ds, rest).
Proof.
  intros Hds Hrest. induction ds as [|c ds IH]; cbn [span_digits app].
  - destruct rest as [|c rest]; [reflexivity|]. cbn [span_digits]. now rewrite Hrest.
  - cbn [forallb] in Hds. apply andb_prop in Hds as [Hc Hds]. now rewrite Hc, IH.
Qed.

Lemma delimited_number_end (rest : list ascii) :
  delimited rest ->
  match rest with [] => True | c :: _ => is_digit c = false end
  /\ starts_fraction rest = false.
Proof.
  destruct rest as [|c rest]; [now split|].
  intros [-> | ->]; split; reflexivity.
Qed.

Lemma scan_number_decimal (n : Z) (rest : list ascii) :
  delimited rest ->
  scan_number (decimal n ++ rest) = Some (n, rest).
Proof.
  intros Hrest. destruct (delimited_number_end rest Hrest) as [Hend Hfrac].
  unfold decimal. destruct (n <? 0) eqn:Hneg.
  - apply Z.ltb_lt in Hneg.
    destruct (decimal_digits (- n)) as (d & tl & -> & Hd & Hzero & Hall & Hval); [lia|].
    assert (Hd0 : d <> 0) by (intros ->; destruct (Hzero eq_refl); lia).
    destruct (digit_char_cases d Hd) as [_ Hnz]. specialize (Hnz Hd0).
    unfold scan_number. cbn [app]. change (Ascii.eqb "-" "-") with true. cbv iota.
    change (digit_char d :: tl ++ rest) with ((digit_char d :: tl) ++ rest).
    rewrite (span_digits_app _ _ Hall Hend).
    destruct tl as [|c tl].
    + rewrite Hfrac. unfold number_of, digits_value. rewrite Hall.
      fold (value_from 0 [digit_char d]). rewrite Hval. f_equal. f_equal. lia.
    + rewrite Hnz, Hfrac. unfold number_of, digits_value. rewrite Hall.
      fold (value_from 0 (digit_char d :: c :: tl)). rewrite Hval. f_equal. f_equal. lia.
  - apply Z.ltb_ge in Hneg.
    destruct (decimal_digits n Hneg) as (d & tl & -> & Hd & Hzero & Hall & Hval).
    destruct (digit_char_cases d Hd) as [Hminus Hnz].
    unfold scan_number. cbn [app]. rewrite Hminus.
    change (digit_char d :: tl ++ rest) with ((digit_char d :: tl) ++ rest).
    rewrite (span_digits_app _ _ Hall Hend).
    destruct tl as [|c tl].
    + rewrite Hfrac. unfold number_of, digits_value. rewrite Hall.
      fold (value_from 0 [digit_char d]). now rewrite Hval.
    + assert (Hd0 : d <> 0) by (intros ->; destruct (Hzero eq_refl); discriminate).
      rewrite (Hnz Hd0), Hfrac. unfold number_of, digits_value. rewrite Hall.
      fold (value_from 0 (digit_char d :: c :: tl)). now rewrite Hval.
Qed.

(** *** White space and the first character of a text *)

Lemma skip_ws_indent (n : nat) (c : ascii) (r : list ascii) :
  is_ws c = false -> skip_ws (newline_indent n ++ c :: r) = c :: r.
Proof.
  intros Hc. unfold newline_indent. cbn [app skip_ws].
  change (is_ws newline) with true. cbv iota.
  induction n as [|n IH]; cbn [repeat app skip_ws].
  - now rewrite Hc.
  - change (is_ws " ") with true. cbv iota. exact IH.
Qed.

Lemma dumps_head (ind : nat) (v : value) :
  exists c t,
    dumps_at ind v = c :: t
    /\ is_ws c = false
    /\ Ascii.eqb c "]" = false
    /\ Ascii.eqb c "}" = false.
Proof.
  destruct v as [|[|]|n|s|[|x xs]|[|[k x] kxs]];
    try (eexists _, _; split; [reflexivity|]; repeat split; fail).
  cbn [dumps_at]. unfold decimal. destruct (n <? 0) eqn:Hneg.
  - eexists _, _. split; [reflexivity|]. repeat split.
  - apply Z.ltb_ge in Hneg.
    destruct (decimal_digits n Hneg) as (d & tl & -> & Hd & _).
    exists (digit_char d), tl. split; [reflexivity|].
    assert (H : d = 0 \/ d = 1 \/ d = 2 \/ d = 3 \/ d = 4 \/ d = 5 \/ d = 6 \/ d = 7
                \/ d = 8 \/ d = 9) by lia.
    repeat (destruct H as [-> | H]; [repeat split|]). subst. repeat split.
Qed.

Lemma decimal_head (n : Z) :
  exists c t, decimal n = c :: t /\ (is_digit c = true \/ c = "-"%char).
Proof.
  unfold decimal. destruct (n <? 0) eqn:Hneg.
  - eexists _, _. split; [reflexivity|]. now right.
  - apply Z.ltb_ge in Hneg.
    destruct (decimal_digits n Hneg) as (d & tl & -> & Hd & _ & Hall & _).
    exists (digit_char d), tl. split; [reflexivity|]. left.
    cbn [forallb] in Hall. now apply andb_prop in Hall as [Hall _].
Qed.

(** *** The parser, one step at a time *)

Lemma parse_value_number (f : nat) (c : ascii) (s : list ascii) (n : Z) (r : list ascii) :
  is_digit c = true \/ c = "-"%char ->
  scan_number (c :: s) = Some (n, r) ->
  parse_value (S f) (c :: s) = Some (VInt n, r).
Proof.
  intros Hc Hscan.
  assert (Hstep : parse_value (S f) (c :: s) =
                  match scan_number (c :: s) with
                  | Some (n, r) => Some (VInt n, r)
                  | None => None
                  end).
  { destruct Hc as [Hc | ->]; [|reflexivity].
    destruct c as [[] [] [] [] [] [] [] []]; try discriminate Hc; reflexivity. }
  now rewrite Hstep, Hscan.
Qed.

Lemma parse_elements_step (f : nat) (s : list ascii) :
  parse_elements (S f) s =
    match parse_value f s with
    | Some (v, r) =>
        match skip_ws r with
        | c :: r' =>
            if Ascii.eqb c "," then
              match parse_elements f (skip_ws r') with
              | Some (vs, r'') => Some (v :: vs, r'')
              | None => None
              end
            else if Ascii.eqb c "]" then Some ([v], r')
            else None
        | [] => None
        end
    | None => None
    end.
Proof. reflexivity. Qed.

Lemma parse_members_step (f : nat) (s : list ascii) :
  parse_members (S f) (dquote :: s) =
    match scan_string s with
    | Some (k, r) =>
        match skip_ws r with
        | c :: r1 =>
            if Ascii.eqb c ":" then
              match parse_value f (skip_ws r1) with
              | Some (v, r2) =>
                  match skip_ws r2 with
                  | c' :: r3 =>
                      if Ascii.eqb c' "," then
                        match parse_members f (skip_ws r3) with
                        | Some (kvs, r4) => Some ((string_of_list_ascii k, v) :: kvs, r4)
                        | None => None
                        end
                      else if Ascii.eqb c' "}" then
                        Some ([(string_of_list_ascii k, v)], r3)
                      else None
                  | [] => None
                  end
              | None => None
              end
            else None
        | [] => None
        end
    | None => None
    end.
Proof. reflexivity. Qed.

Lemma parse_value_list (f : nat) (s : list ascii) :
  parse_value (S f) ("["%char :: s) =
    match skip_ws s with
    | d :: r =>
        if Ascii.eqb d "]" then Some (VList [], r)
        else match parse_elements f (d :: r) with
             | Some (vs, r') => Some (VList vs, r')
             | None => None
             end
    | [] => None
    end.
Proof. reflexivity. Qed.

Lemma parse_value_dict (f : nat) (s : list ascii) :
  parse_value (S f) ("{"%char :: s) =
    match skip_ws s with
    | d :: r =>
        if Ascii.eqb d "}" then Some (VDict [], r)
        else match parse_members f (d :: r) with
             | Some (kvs, r') => Some (VDict (build_dict kvs []), r')
             | None => None
             end
    | [] => None
    end.
Proof. reflexivity. Qed.

Lemma parse_value_string (f : nat) (s : list ascii) :
  parse_value (S f) (dquote :: s) =
    match scan_string s with
    | Some (cs, r) => Some (VStr (string_of_list_ascii cs), r)
    | None => None
    end.
Proof. reflexivity. Qed.

(** *** Objects with distinct keys *)

Lemma dict_get_app_none (k : string) (d : list (string * value)) :
  existsb (String.eqb k) (map fst d) = false -> dict_get k d = None.
Proof.
  induction d as [|[k' v] d IH]; [reflexivity|].
  cbn. intros H. apply orb_false_iff in H as [Hk Hd]. rewrite Hk. now apply IH.
Qed.

Lemma dict_set_fresh (k : string) (v : value) (d : list (string * value)) :
  existsb (String.eqb k) (map fst d) = false -> dict_set k v d = d ++ [(k, v)].
Proof.
  induction d as [|[k' v'] d IH]; [reflexivity|].
  cbn. intros H. apply orb_false_iff in H as [Hk Hd]. rewrite Hk. now rewrite IH.
Qed.

Lemma distinct_app_cons (a : list string) (k : string) (b : list string) :
  distinct (a ++ k :: b) = true ->
  existsb (String.eqb k) a = false /\ distinct ((a ++ [k]) ++ b) = true.
Proof.
  induction a as [|x a IH]; cbn.
  - intros H. split; [reflexivity|exact H].
  - intros H. apply andb_prop in H as [Hx Hd].
    destruct (IH Hd) as [Hk Hd'].
    rewrite negb_true_iff in Hx.
    rewrite existsb_app in Hx. apply orb_false_iff in Hx as [Hxa Hxb].
    cbn in Hxb. apply orb_false_iff in Hxb as [Hxk Hxb].
    split.
    + rewrite Hk. rewrite String.eqb_sym, Hxk. reflexivity.
    + rewrite Hd'. rewrite <- app_assoc. cbn.
      rewrite existsb_app. cbn. rewrite Hxa, Hxk, Hxb. reflexivity.
Qed.

Lemma build_dict_distinct (kvs : list (string * value)) :
  forall d, distinct (map fst d ++ map fst kvs) = true -> build_dict kvs d = d ++ kvs.
Proof.
  induction kvs as [|[k v] kvs IH]; intros d Hd; cbn.
  - now rewrite app_nil_r.
  - cbn in Hd. destruct (distinct_app_cons _ _ _ Hd) as [Hfresh Hd'].
    rewrite (dict_set_fresh k v d Hfresh).
    rewrite IH; [now rewrite <- app_assoc|].
    now rewrite map_app.
Qed.

(** *** Induction on values *)

Lemma value_ind' (P : value -> Prop) :
  P VNone ->
  (forall b, P (VBool b)) ->
  (forall n, P (VInt n)) ->
  (forall s, P (VStr s)) ->
  (forall l, Forall P l -> P (VList l)) ->
  (forall d, Forall (fun kv => P (snd kv)) d -> P (VDict d)) ->
  forall v, P v.
Proof.
  intros Hnone Hbool Hint Hstr Hlist Hdict.
  fix IH 1. intros [|b|n|s|l|d].
  - exact Hnone.
  - apply Hbool.
  - apply Hint.
  - apply Hstr.
  - apply Hlist. induction l as [|x l IHl]; constructor; [apply IH|exact IHl].
  - apply Hdict. induction d as [|[k x] d IHd]; constructor; [apply IH|exact IHd].
Qed.

(** *** Lists and objects *)

Lemma dumps_at_list (ind : nat) (x : value) (xs : list value) :
  dumps_at ind (VList (x :: xs)) =
    "["%char :: newline_indent (ind + 2) ++ dumps_at (ind + 2) x
    ++ items_text (ind + 2) xs ++ newline_indent ind ++ ["]"%char].
Proof. reflexivity. Qed.

Lemma dumps_at_dict (ind : nat) (k : string) (x : value) (kxs : list (string * value)) :
  dumps_at ind (VDict ((k, x) :: kxs)) =
    "{"%char :: newline_indent (ind + 2) ++ quote k ++ text ": " ++ dumps_at (ind + 2) x
    ++ members_text (ind + 2) kxs ++ newline_indent ind ++ ["}"%char].
Proof. reflexivity. Qed.

Lemma delimited_indent (n : nat) (r : list ascii) : delimited (newline_indent n ++ r).
Proof. now right. Qed.

Lemma parse_items (xs : list value) :
  forall (x : value) (i ind : nat) (rest : list ascii) (fuel : nat),
    reads_back x ->
    Forall reads_back xs ->
    unique_keys x = true ->
    forallb unique_keys xs = true ->
    (need_items (x :: xs) <= fuel)%nat ->
    parse_elements fuel
      (dumps_at i x ++ items_text i xs ++ newline_indent ind ++ "]"%char :: rest)
      = Some (x :: xs, rest).
Proof.
  induction xs as [|y xs IH]; intros x i ind rest fuel Hx Hxs Hux Huxs Hfuel;
    (destruct fuel as [|f]; [cbn in Hfuel; lia|]);
    rewrite parse_elements_step.
  - cbn [items_text app].
    rewrite (Hx Hux i _ f); [|cbn in Hfuel; lia|apply delimited_indent].
    now rewrite skip_ws_indent.
  - cbn [items_text]. cbn [need_items] in Hfuel. fold need_items in Hfuel.
    rewrite (Hx Hux i _ f); [|lia|now left].
    cbn [app skip_ws]. change (is_ws ",") with false. cbv iota.
    change (Ascii.eqb "," ",") with true. cbv iota.
    destruct (dumps_head i y) as (c & t & Hy & Hc & _).
    rewrite <- !app_assoc. rewrite Hy at 1. cbn [app].
    rewrite (skip_ws_indent i c _ Hc).
    change (c :: t ++ ?r) with ((c :: t) ++ r). rewrite <- Hy.
    inversion Hxs as [|? ? Hy' Hxs']; subst.
    cbn [forallb] in Huxs. apply andb_prop in Huxs as [Huy Huxs].
    rewrite (IH y i ind rest f Hy' Hxs' Huy Huxs); [reflexivity|].
    cbn [need_items]. fold need_items. lia.
Qed.

Lemma parse_members_text (kxs : list (string * value)) :
  forall (k : string) (x : value) (i ind : nat) (rest : list ascii) (fuel : nat),
    reads_back x ->
    Forall (fun kv => reads_back (snd kv)) kxs ->
    unique_keys x = true ->
    unique_members kxs = true ->
    (need_members ((k, x) :: kxs) <= fuel)%nat ->
    parse_members fuel
      (quote k ++ text ": " ++ dumps_at i x ++ members_text i kxs
       ++ newline_indent ind ++ "}"%char :: rest)
      = Some ((k, x) :: kxs, rest).
Proof.
  induction kxs as [|[k' y] kxs IH]; intros k x i ind rest fuel Hx Hxs Hux Huxs Hfuel;
    (destruct fuel as [|f]; [cbn in Hfuel; lia|]);
    rewrite quote_app, parse_members_step, scan_string_quoted;
    cbn [text list_ascii_of_string app skip_ws];
    change (is_ws ":") with false; cbv iota;
    change (Ascii.eqb ":" ":") with true; cbv iota;
    change (is_ws " ") with true; cbv iota;
    destruct (dumps_head i x) as (c & t & Hxt & Hc & _);
    rewrite Hxt at 1; cbn [app skip_ws]; rewrite Hc;
    change (c :: t ++ ?r) with ((c :: t) ++ r); rewrite <- Hxt;
    change (is_ws " ") with true; cbv iota;
    unfold text; rewrite string_of_list_ascii_of_string.
  - cbn [members_text app].
    rewrite (Hx Hux i _ f); [|cbn in Hfuel; lia|apply delimited_indent].
    now rewrite skip_ws_indent.
  - cbn [members_text]. cbn [need_members] in Hfuel. fold need_members in Hfuel.
    rewrite (Hx Hux i _ f); [|lia|now left].
    cbn [app skip_ws]. change (is_ws ",") with false. cbv iota.
    change (Ascii.eqb "," ",") with true. cbv iota.
    rewrite <- !app_assoc. rewrite quote_app.
    rewrite (skip_ws_indent i dquote _ eq_refl). rewrite <- quote_app.
    inversion Hxs as [|? ? Hy' Hxs']; subst. cbn [snd] in Hy'.
    cbn [unique_members] in Huxs. fold unique_members in Huxs.
    apply andb_prop in Huxs as [Huy Huxs].
    fold (text ": ").
    rewrite (IH k' y i ind rest f Hy' Hxs' Huy Huxs); [reflexivity|].
    cbn [need_members]. fold need_members. lia.
Qed.

Lemma need_list (l : list value) : need (VList l) = S (need_items l).
Proof. reflexivity. Qed.

Lemma need_dict (d : list (string * value)) : need (VDict d) = S (need_members d).
Proof. reflexivity. Qed.

(** Every value without a repeated key is read back from its text. *)
Lemma parse_dumps (v : value) : reads_back v.
Proof.
  induction v as [|b|n|s|l IHl|d IHd] using value_ind';
    intros Hu ind rest fuel Hfuel Hrest;
    (destruct fuel as [|f]; [cbn in Hfuel; lia|]).
  - reflexivity.
  - destruct b; reflexivity.
  - cbn [dumps_at].
    destruct (decimal_head n) as (c & t & Hn & Hc).
    pose proof (scan_number_decimal n rest Hrest) as Hscan.
    rewrite Hn in *. cbn [app] in *.
    now apply parse_value_number.
  - cbn [dumps_at]. rewrite quote_app, parse_value_string, scan_string_quoted.
    unfold text. now rewrite string_of_list_ascii_of_string.
  - destruct l as [|x xs]; [reflexivity|].
    rewrite dumps_at_list. cbn [app]. rewrite <- !app_assoc. cbn [app].
    rewrite parse_value_list.
    destruct (dumps_head (ind + 2) x) as (c & t & Hx & Hc & Hclose & _).
    rewrite Hx at 1. cbn [app]. rewrite (skip_ws_indent _ c _ Hc), Hclose.
    change (c :: t ++ ?r) with ((c :: t) ++ r). rewrite <- Hx.
    inversion IHl as [|? ? Hx' Hxs']; subst.
    cbn [unique_keys] in Hu. cbn [forallb] in Hu. apply andb_prop in Hu as [Hux Huxs].
    rewrite (parse_items xs x (ind + 2) ind rest f Hx' Hxs' Hux Huxs); [reflexivity|].
    rewrite need_list in Hfuel. lia.
  - destruct d as [|[k x] kxs]; [reflexivity|].
    rewrite dumps_at_dict. cbn [app]. rewrite <- !app_assoc. cbn [app].
    rewrite parse_value_dict, quote_app.
    rewrite (skip_ws_indent _ dquote _ eq_refl).
    change (Ascii.eqb dquote "}") with false. cbv iota.
    rewrite <- quote_app.
    inversion IHd as [|? ? Hx' Hxs']; subst. cbn [snd] in Hx'.
    cbn [unique_keys] in Hu. fold unique_members in Hu.
    apply andb_prop in Hu as [Hkeys Hu].
    cbn [unique_members] in Hu. fold unique_members in Hu.
    apply andb_prop in Hu as [Hux Huxs].
    rewrite (parse_members_text kxs k x (ind + 2) ind rest f Hx' Hxs' Hux Huxs).
    + rewrite build_dict_distinct; [reflexivity|exact Hkeys].
    + rewrite need_dict in Hfuel. lia.
Qed.

(** *** Fuel *)

Lemma need_items_length (i : nat) (xs : list value) :
  Forall (fun y => forall ind, (need y <= List.length (dumps_at ind y))%nat) xs ->
  (need_items xs <= List.length (items_text i xs))%nat.
Proof.
  induction 1 as [|y xs Hy Hxs IH]; [apply Nat.le_refl|].
  cbn [need_items items_text]. fold need_items. cbn [List.length].
  rewrite !length_app. specialize (Hy i). lia.
Qed.

Lemma need_members_length (i : nat) (kxs : list (string * value)) :
  Forall (fun kv => forall ind, (need (snd kv) <= List.length (dumps_at ind (snd kv)))%nat)
         kxs ->
  (need_members kxs <= List.length (members_text i kxs))%nat.
Proof.
  induction 1 as [|[k y] kxs Hy Hxs IH]; [apply Nat.le_refl|].
  cbn [need_members members_text]. fold need_members. cbn [List.length].
  rewrite !length_app. specialize (Hy i). cbn [snd] in Hy. lia.
Qed.

Lemma need_length (v : value) :
  forall ind, (need v <= List.length (dumps_at ind v))%nat.
Proof.
  induction v as [|b|n|s|l IHl|d IHd] using value_ind'; intros ind.
  - cbn. lia.
  - destruct b; cbn; lia.
  - cbn [dumps_at need]. destruct (decimal_head n) as (c & t & -> & _). cbn. lia.
  - cbn [dumps_at need]. unfold quote. cbn [List.length]. lia.
  - destruct l as [|x xs]; [cbn; lia|].
    rewrite dumps_at_list, need_list. cbn [need_items]. fold need_items.
    inversion IHl as [|? ? Hx Hxs]; subst.
    pose proof (need_items_length (ind + 2) xs Hxs). specialize (Hx (ind + 2)%nat).
    cbn [List.length]. rewrite !length_app. cbn [List.length]. lia.
  - destruct d as [|[k x] kxs]; [cbn; lia|].
    rewrite dumps_at_dict, need_dict. cbn [need_members]. fold need_members.
    inversion IHd as [|? ? Hx Hxs]; subst. cbn [snd] in Hx.
    pose proof (need_members_length (ind + 2) kxs Hxs). specialize (Hx (ind + 2)%nat).
    cbn [List.length]. rewrite !length_app. cbn [List.length]. lia.
Qed.

(** [json.loads(json.dumps(v, indent=2)) == v] for every value in which no
    object has a key twice. *)
Theorem loads_dumps (v : value) :
  unique_keys v = true -> loads (dumps v) = Some v.
Proof.
  intros Hu. unfold loads, dumps, text.
  rewrite list_ascii_of_string_of_list_ascii.
  destruct (dumps_head 0 v) as (c & t & Hv & Hc & _).
  assert (Hskip : skip_ws (dumps_at 0 v) = dumps_at 0 v).
  { rewrite Hv. cbn [skip_ws]. now rewrite Hc. }
  rewrite Hskip.
  pose proof (parse_dumps v Hu 0%nat [] (S (List.length (dumps_at 0 v)))) as Hparse.
  rewrite app_nil_r in Hparse. rewrite Hparse; [reflexivity| |exact I].
  pose proof (need_length v 0%nat). lia.
Qed.

(** *** What the parser returns has no repeated key *)

Lemma distinct_snoc (keys : list string) (k : string) :
  distinct keys = true ->
  existsb (String.eqb k) keys = false ->
  distinct (keys ++ [k]) = true.
Proof.
  induction keys as [|x keys IH]; [reflexivity|].
  cbn. intros H Hk. apply andb_prop in H as [Hx Hd].
  apply orb_false_iff in Hk as [Hkx Hk].
  rewrite existsb_app. cbn. rewrite negb_true_iff in Hx.
  rewrite Hx, String.eqb_sym, Hkx. cbn. now apply IH.
Qed.

Lemma dict_set_keys (k : string) (v : value) (d : list (string * value)) :
  map fst (dict_set k v d) =
    if existsb (String.eqb k) (map fst d) then map fst d else map fst d ++ [k].
Proof.
  induction d as [|[k' v'] d IH]; [reflexivity|].
  cbn. destruct (String.eqb k k') eqn:Hk; cbn.
  - apply String.eqb_eq in Hk. now subst.
  - rewrite IH. now destruct (existsb (String.eqb k) (map fst d)).
Qed.

Lemma dict_set_unique (k : string) (v : value) (d : list (string * value)) :
  distinct (map fst d) = true ->
  unique_members d = true ->
  unique_keys v = true ->
  distinct (map fst (dict_set k v d)) = true /\ unique_members (dict_set k v d) = true.
Proof.
  intros Hd Hu Hv. split.
  - rewrite dict_set_keys.
    destruct (existsb (String.eqb k) (map fst d)) eqn:Hk; [exact Hd|].
    now apply distinct_snoc.
  - induction d as [|[k' v'] d IH]; cbn.
    + now rewrite Hv.
    + cbn in Hd, Hu. apply andb_prop in Hd as [_ Hd]. apply andb_prop in Hu as [Hv' Hu].
      destruct (String.eqb k k'); cbn; fold unique_members.
      * now rewrite Hv, Hu.
      * rewrite Hv'. now apply IH.
Qed.

Lemma build_dict_unique (kvs : list (string * value)) :
  forall d,
    distinct (map fst d) = true ->
    unique_members d = true ->
    unique_members kvs = true ->
    unique_keys (VDict (build_dict kvs d)) = true.
Proof.
  induction kvs as [|[k v] kvs IH]; intros d Hd Hu Hkvs.
  - cbn [build_dict unique_keys]. fold unique_members. now rewrite Hd, Hu.
  - cbn [build_dict]. cbn [unique_members] in Hkvs. fold unique_members in Hkvs.
    apply andb_prop in Hkvs as [Hv Hkvs].
    destruct (dict_set_unique k v d Hd Hu Hv) as [Hd' Hu'].
    now apply IH.
Qed.

Ltac break_hyp H :=
  repeat match type of H with
         | context [match ?x with _ => _ end] =>
             lazymatch x with
             | context [match _ with _ => _ end] => fail
             | _ => destruct x eqn:?; try discriminate H
             end
         end.

Lemma parse_unique (fuel : nat) :
  (forall s v r, parse_value fuel s = Some (v, r) -> unique_keys v = true)
  /\ (forall s vs r, parse_elements fuel s = Some (vs, r) ->
      forallb unique_keys vs = true)
  /\ (forall s kvs r, parse_members fuel s = Some (kvs, r) ->
      unique_members kvs = true).
Proof.
  induction fuel as [|f (IHv & IHe & IHm)].
  - repeat split; intros; discriminate.
  - split; [|split].
    + intros s v r H. destruct s as [|c s]; [discriminate|].
      cbn [parse_value] in H. break_hyp H;
        injection H as <- <-; try reflexivity.
      * cbn [unique_keys]. eapply IHe. eassumption.
      * apply build_dict_unique; try reflexivity. eapply IHm. eassumption.
    + intros s vs r H. rewrite parse_elements_step in H. break_hyp H;
        injection H as <- <-; cbn [forallb].
      * erewrite IHv by eassumption. eapply IHe. eassumption.
      * erewrite IHv by eassumption. reflexivity.
    + intros s kvs r H. destruct s as [|q s]; [discriminate|].
      cbn [parse_members] in H. break_hyp H;
        injection H as <- <-; cbn [unique_members]; fold unique_members.
      * erewrite IHv by eassumption. eapply IHm. eassumption.
      * erewrite IHv by eassumption. reflexivity.
Qed.

Lemma loads_unique (s : string) (v : value) :
  loads s = Some v -> unique_keys v = true.
Proof.
  unfold loads. intros H. break_hyp H. injection H as <-.
  eapply (proj1 (parse_unique _)). eassumption.
Qed.

(** Whatever [json.loads] has read is written and read back unchanged. *)
Corollary loads_dumps_loads (s : string) (v : value) :
  loads s = Some v -> loads (dumps v) = Some v.
Proof. intros H. apply loads_dumps. now apply loads_unique in H. Qed.

End JsonFacts.

(** ** Loading and saving *)

Section RoundTrip.

Context {L : PyStdlib}.
Variable E : environ.

(** With any JSON library that reads back what it writes for [manifest]. *)
Lemma load_save_with_library (cfg : Scheduler.llm_config) (w : world)
    (content : string) (manifest : value) :
  manifest_file w = Some content ->
  json_loads content = Some manifest ->
  json_loads (json_dumps manifest) = Some manifest ->
  exists w',
    (m <- Scheduler.load_manifest E ;;
     m' <- Scheduler.battle_loop E 0 cfg m ;;
     Scheduler.save_manifest m' ;;
     ret m')%py w = (Return manifest, w')
    /\ manifest_file w' = Some (json_dumps manifest)
    /\ Scheduler.load_manifest E w' = (Return manifest, w')
    /\ (content = json_dumps manifest -> manifest_file w' = manifest_file w).
Proof.
  intros Hfile Hparse Hlaw.
  unfold Scheduler.load_manifest, Scheduler.save_manifest, read_manifest_file,
    write_manifest_file, bind, ret.
  rewrite Hfile, Hparse. cbn.
  eexists. split; [reflexivity|]. cbn. rewrite Hlaw.
  repeat split. intros ->. reflexivity.
Qed.

End RoundTrip.

(** C9. For every manifest file that parses, loading it, running no cycle
    and saving it again leaves a file that loads to the same manifest,
    field for field; a file that [save_manifest] wrote is left with the
    same text. Here the JSON library is the executable one of [Lib], which
    reads back all it writes ([JsonFacts.loads_dumps]). *)
Theorem load_save_round_trip (E : environ) (cfg : Scheduler.llm_config) (w : world)
    (content : string) (manifest : value) :
  manifest_file w = Some content ->
  Lib.loads content = Some manifest ->
  exists w',
    (m <- @Scheduler.load_manifest Lib.python E ;;
     m' <- @Scheduler.battle_loop Lib.python E 0 cfg m ;;
     @Scheduler.save_manifest Lib.python m' ;;
     ret m')%py w = (Return manifest, w')
    /\ manifest_file w' = Some (Lib.dumps manifest)
    /\ @Scheduler.load_manifest Lib.python E w' = (Return manifest, w')
    /\ (content = Lib.dumps manifest -> manifest_file w' = manifest_file w).
Proof.
  intros Hfile Hparse.
  apply (@load_save_with_library Lib.python E cfg w content manifest Hfile Hparse).
  exact (JsonFacts.loads_dumps_loads content manifest Hparse).
Qed.

(** A manifest written without indentation comes back field for field. *)
Lemma load_save_round_trip_witness :
  let manifest := Fixtures.fleet_of [Fixtures.agent (VStr "2026-11-03T13:05:00") 4;
                                      Fixtures.agent VNone 0] in
  exists w',
    (m <- @Scheduler.load_manifest Lib.python Fixtures.friendly ;;
     m' <- @Scheduler.battle_loop Lib.python Fixtures.friendly 0 Fixtures.deepseek m ;;
     @Scheduler.save_manifest Lib.python m' ;;
     ret m')%py (Fixtures.world_with_file (Fixtures.compact manifest))
      = (Return manifest, w')
    /\ @Scheduler.load_manifest Lib.python Fixtures.friendly w' = (Return manifest, w').
Proof.
  intros manifest.
  destruct (load_save_round_trip Fixtures.friendly Fixtures.deepseek
              (Fixtures.world_with_file (Fixtures.compact manifest))
              (Fixtures.compact manifest) manifest)
    as (w' & Hrun & _ & Hload & _).
  - reflexivity.
  - vm_compute. reflexivity.
  - exists w'. split; assumption.
Defined.

(** ** Runs of the whole scheduler *)

(** One agent, two cycles: a battle in the first, a skip in the second. *)
Lemma action_count_tracks_success_witness :
  let manifest := Fixtures.fleet_of [Fixtures.agent VNone 0] in
  exists manifest' w',
    @Scheduler.battle_loop Lib.python Fixtures.friendly 2 Fixtures.deepseek manifest
       Fixtures.fresh_world = (Return manifest', w')
    /\ total_count (fleet manifest') = 1
    /\ battles_logged (trace w') = 1%nat.
Proof.
  intros manifest.
  destruct (@Scheduler.battle_loop Lib.python Fixtures.friendly 2 Fixtures.deepseek manifest
              Fixtures.fresh_world) as [o w'] eqn:Hrun.
  assert (Ho : exists manifest', o = Return manifest'
                                 /\ battles_logged (trace w') = 1%nat).
  { vm_compute in Hrun. injection Hrun as <- <-. eexists. split; reflexivity. }
  destruct Ho as (manifest' & -> & Hlogged).
  exists manifest', w'. split; [reflexivity|].
  destruct (proj2 (proj2 (@action_count_tracks_success Lib.python Fixtures.friendly))
              2%nat Fixtures.deepseek manifest Fixtures.fresh_world manifest' w'
              eq_refl Hrun) as (_ & tl & Htr & Hsum).
  cbn in Htr. subst tl. rewrite Hsum, Hlogged. split; reflexivity.
Defined.

(** With a key and no manifest file the scheduler registers its fleet and
    runs two cycles; with no key it exits at once. *)
Lemma only_startup_errors_stop_the_scheduler_witness :
  (exists manifest' w',
     @Scheduler.main Lib.python Fixtures.steady 4 2 Fixtures.fresh_world
       = (Return manifest', w'))
  /\ fst (@Scheduler.main Lib.python Fixtures.no_key 4 2 Fixtures.fresh_world)
     = Raise (SystemExit 1).
Proof.
  destruct (@only_startup_errors_stop_the_scheduler Lib.python Fixtures.steady)
    as [_ Hruns].
  destruct (@only_startup_errors_stop_the_scheduler Lib.python Fixtures.no_key)
    as [Hexit _].
  split.
  - apply Hruns.
    + intros k. vm_compute. discriminate.
    + left. vm_compute. discriminate.
    + reflexivity.
    + vm_compute. reflexivity.
  - rewrite (Hexit eq_refl eq_refl). reflexivity.
Defined.

(** C8, as stated, fails: with a provider key in place and a manifest file
    that does not parse, the scheduler ends before the battle loop on the
    decoder's error, which is no configuration error. *)
Lemma corrupt_manifest_stops_the_scheduler :
  Scheduler.env_set Fixtures.friendly "DEEPSEEK_API_KEY" = Some "sk-test"
  /\ fst (@Scheduler.startup Lib.python Fixtures.friendly 4 Fixtures.corrupt_world)
     = Raise JSONDecodeError
  /\ fst (@Scheduler.main Lib.python Fixtures.friendly 4 1 Fixtures.corrupt_world)
     = Raise JSONDecodeError
  /\ posts (trace (snd (@Scheduler.main Lib.python Fixtures.friendly 4 1
                          Fixtures.corrupt_world))) = 0%nat.
Proof. repeat split; vm_compute; reflexivity. Qed.

(** * Further properties of the code *)

(** ** Provider configuration *)

Section Provider.

Context {L : PyStdlib}.
Variable E : environ.

Lemma env_set_cases (name : string) :
  (unset (getenv E name) = true /\ Scheduler.env_set E name = None)
  \/ (exists k, k <> "" /\ getenv E name = Some k /\ Scheduler.env_set E name = Some k
                /\ unset (getenv E name) = false).
Proof.
  unfold Scheduler.env_set, unset.
  destruct (getenv E name) as [s|]; [|now left].
  destruct (String.eqb s "") eqn:Hs; [now left|].
  right. exists s. repeat split; try assumption.
  intros ->. discriminate.
Qed.

(** X1. [get_llm_config] reads nothing but the two variables and changes
    nothing: what it returns carries a key that is not empty and is the
    value of the variable of the provider it names; OpenRouter is named
    only when the DeepSeek variable is unset or empty; and it ends the
    process with status 1 exactly when both are unset or empty. *)
Theorem provider_choice (w : world) :
  (forall cfg w',
      Scheduler.get_llm_config E w = (Return cfg, w') ->
      w' = w
      /\ Scheduler.api_key cfg <> ""
      /\ ((Scheduler.provider cfg = "deepseek"
           /\ Scheduler.model cfg = "deepseek-chat"
           /\ getenv E "DEEPSEEK_API_KEY" = Some (Scheduler.api_key cfg))
          \/ (Scheduler.provider cfg = "openrouter"
              /\ Scheduler.model cfg = "meta-llama/llama-3.3-70b-instruct:free"
              /\ getenv E "OPENROUTER_API_KEY" = Some (Scheduler.api_key cfg)
              /\ unset (getenv E "DEEPSEEK_API_KEY") = true)))
  /\ ((exists cfg, Scheduler.get_llm_config E w = (Return cfg, w))
      \/ fst (Scheduler.get_llm_config E w) = Raise (SystemExit 1))
  /\ (fst (Scheduler.get_llm_config E w) = Raise (SystemExit 1)
      <-> unset (getenv E "DEEPSEEK_API_KEY") = true
          /\ unset (getenv E "OPENROUTER_API_KEY") = true).
Proof.
  unfold Scheduler.get_llm_config.
  destruct (env_set_cases "DEEPSEEK_API_KEY") as [[Hd ->]|(k & Hk & Hd & -> & Hd')].
  - destruct (env_set_cases "OPENROUTER_API_KEY") as [[Ho ->]|(k & Hk & Ho & -> & Ho')].
    + split; [intros cfg w'; discriminate|]. split; [now right|].
      split; [now split|reflexivity].
    + split.
      { intros cfg w' [= <- <-]. cbn. split; [reflexivity|]. split; [exact Hk|].
        right. repeat split; assumption. }
      split; [left; now eexists|].
      split; [discriminate|]. intros [_ H]. congruence.
  - split.
    { intros cfg w' [= <- <-]. cbn. split; [reflexivity|]. split; [exact Hk|].
      left. repeat split; assumption. }
    split; [left; now eexists|].
    split; [discriminate|]. intros [H _]. congruence.
Qed.

End Provider.

(** A DeepSeek key set to the empty string beside an OpenRouter key. *)
Lemma provider_choice_witness :
  let E := {| getenv := fun name => if String.eqb name "DEEPSEEK_API_KEY" then Some ""
                                    else Some "or-key";
              BOT_COUNT := 3;
              register_response := register_response Fixtures.friendly;
              status_response := status_response Fixtures.friendly;
              nanobot_outcome := nanobot_outcome Fixtures.friendly;
              clock := clock Fixtures.friendly |} in
  exists cfg,
    Scheduler.get_llm_config E Fixtures.fresh_world = (Return cfg, Fixtures.fresh_world)
    /\ Scheduler.provider cfg = "openrouter"
    /\ Scheduler.api_key cfg = "or-key".
Proof.
  intros E.
  destruct (provider_choice E Fixtures.fresh_world) as (Hret & _ & _).
  destruct (Hret {| Scheduler.provider := "openrouter"; Scheduler.api_key := "or-key";
                    Scheduler.model := "meta-llama/llama-3.3-70b-instruct:free" |}
                 Fixtures.fresh_world eq_refl) as (_ & _ & _).
  eexists. repeat split.
Defined.

(** ** What a registration gives *)

Section RegistrationResult.

Context {L : PyStdlib}.
Variable E : environ.

(** X2. Whatever the service answers, [register_bot] raises nothing and
    sends exactly one request: it comes back with [None] or with a full
    record of the slot, the latter exactly on an accepted answer, and never
    touches the manifest file. *)
Theorem register_bot_always_answers (i : nat) (w : world) :
  exists bot w' tl,
    Scheduler.register_bot E i w = (Return bot, w')
    /\ (bot = VNone \/ registered_record i bot)
    /\ (bot = VNone <-> accepted (register_response E (n_post w)) = false)
    /\ trace w' = trace w ++ Log INFO (MsgRegistering i) :: PostRegister auto_payload :: tl
    /\ posts tl = 0%nat
    /\ n_post w' = S (n_post w)
    /\ manifest_file w' = manifest_file w.
Proof.
  destruct (accepted (register_response E (n_post w))) eqn:Hacc.
  - destruct (register_bot_accepted E i w Hacc) as (bot & w' & Hrun & Hrec & Hfile & Hpost & Htr).
    exists bot, w', []. repeat split; auto.
    + intros ->. destruct Hrec as (a & k & n & r & Hrec). discriminate.
    + discriminate.
  - destruct (register_bot_rejected E i w Hacc) as (w' & tl & Hrun & Hfile & Hpost & Htr & _ & Hposts).
    exists VNone, w', tl. repeat split; auto.
Qed.

(** X3. The record of an accepted registration: the slot number, the id
    and the key of the answer, the name of the answer or ["Bot-<slot>"] when
    the answer has none, the time of the one reading of the clock, no last
    battle and a count of zero. *)
Theorem register_bot_record (i : nat) (w : world) (status : Z)
    (top d : list (string * value)) (agent_id key : value) :
  register_response E (n_post w) = HttpResponse status (Some (VDict top)) ->
  Scheduler.response_ok status = true ->
  dict_get "data" top = Some (VDict d) ->
  dict_get "agent_id" d = Some agent_id ->
  dict_get "api_key" d = Some key ->
  Scheduler.register_bot E i w =
    (Return (VDict [("index", VInt (Z.of_nat i));
                    ("agent_id", agent_id);
                    ("api_key", key);
                    ("name", match dict_get "name" d with
                             | Some name => name
                             | None => VStr ("Bot-" ++ str_of_nat i)
                             end);
                    ("registered", VStr (isoformat (clock E (n_now w))));
                    ("last_battle", VNone);
                    ("battles", VInt 0)]),
     {| manifest_file := manifest_file w;
        trace := trace w ++ [Log INFO (MsgRegistering i); PostRegister auto_payload];
        n_post := S (n_post w); n_get := n_get w;
        n_run := n_run w; n_now := S (n_now w) |}).
Proof.
  intros Hr Hok Hd Ha Hk.
  unfold Scheduler.register_bot, Scheduler.requests_post_register, log, emit,
    bind, try_except. cbn.
  rewrite Hr. cbn. unfold Scheduler.raise_for_status. rewrite Hok. cbn.
  rewrite Hd. cbn. rewrite Ha. cbn. rewrite Hk. cbn.
  destruct (dict_get "name" d) as [name|]; cbn; rewrite <- app_assoc; reflexivity.
Qed.

(** X4. An answer with a good status whose JSON object has no ["data"] is
    refused without a word: [register_bot] gives [None] and logs no error,
    and the registration loop stops on it with the one warning that it will
    retry later, the manifest and its file as they were. *)
Theorem register_bot_silent_refusal (i : nat) (w : world) (status : Z)
    (top : list (string * value)) :
  register_response E (n_post w) = HttpResponse status (Some (VDict top)) ->
  Scheduler.response_ok status = true ->
  dict_get "data" top = None ->
  Scheduler.register_bot E i w =
    (Return VNone,
     {| manifest_file := manifest_file w;
        trace := trace w ++ [Log INFO (MsgRegistering i); PostRegister auto_payload];
        n_post := S (n_post w); n_get := n_get w;
        n_run := n_run w; n_now := n_now w |})
  /\ forall (fuel : nat) (dm : list (string * value)) (bots : list value),
       dict_get "bots" dm = Some (VList bots) ->
       List.length bots = i ->
       Z.of_nat i < BOT_COUNT E ->
       Scheduler.register_loop E (S fuel) (VDict dm) w =
         (Return (VDict dm),
          {| manifest_file := manifest_file w;
             trace := trace w ++ [Log INFO (MsgRegistering i); PostRegister auto_payload;
                                  Log WARNING MsgRetryLater];
             n_post := S (n_post w); n_get := n_get w;
             n_run := n_run w; n_now := n_now w |}).
Proof.
  intros Hr Hok Hd.
  assert (Hreg : Scheduler.register_bot E i w =
    (Return VNone,
     {| manifest_file := manifest_file w;
        trace := trace w ++ [Log INFO (MsgRegistering i); PostRegister auto_payload];
        n_post := S (n_post w); n_get := n_get w;
        n_run := n_run w; n_now := n_now w |})).
  { unfold Scheduler.register_bot, Scheduler.requests_post_register, log, emit,
      bind, try_except. cbn.
    rewrite Hr. cbn. unfold Scheduler.raise_for_status. rewrite Hok. cbn.
    rewrite Hd. cbn. rewrite <- app_assoc. reflexivity. }
  split; [exact Hreg|].
  intros fuel dm bots Hbots Hlen Hlt.
  rewrite register_loop_S. unfold bind at 1. cbn. rewrite Hbots. cbn.
  rewrite Hlen. apply Z.ltb_lt in Hlt. rewrite Hlt.
  rewrite (bind_return _ _ _ _ _ Hreg). cbn.
  unfold bind, log, emit, ret. cbn. rewrite <- app_assoc. reflexivity.
Qed.

End RegistrationResult.

(** The third slot, on an answer that names no bot. *)
Lemma register_bot_record_witness :
  exists w',
    @Scheduler.register_bot Lib.python Fixtures.friendly 2 Fixtures.fresh_world =
      (Return (VDict [("index", VInt 2);
                      ("agent_id", VStr "agent-0");
                      ("api_key", VStr "key-0");
                      ("name", VStr "Bot-2");
                      ("registered", VStr "2026-11-03T14:00:00");
                      ("last_battle", VNone);
                      ("battles", VInt 0)]), w').
Proof.
  eexists.
  exact (@register_bot_record Lib.python Fixtures.friendly 2 Fixtures.fresh_world 200
           [("data", VDict [("agent_id", VStr "agent-0"); ("api_key", VStr "key-0")])]
           [("agent_id", VStr "agent-0"); ("api_key", VStr "key-0")]
           (VStr "agent-0") (VStr "key-0")
           eq_refl eq_refl eq_refl eq_refl eq_refl).
Defined.

(** The service answers 200 with an error object. *)
Lemma register_bot_silent_refusal_witness :
  let E := {| getenv := getenv Fixtures.friendly; BOT_COUNT := 3;
              register_response :=
                fun _ => HttpResponse 200 (Some (VDict [("error", VStr "name taken")]));
              status_response := status_response Fixtures.friendly;
              nanobot_outcome := nanobot_outcome Fixtures.friendly;
              clock := clock Fixtures.friendly |} in
  exists w',
    @Scheduler.register_loop Lib.python E 1 (Fixtures.fleet_of []) Fixtures.fresh_world
      = (Return (Fixtures.fleet_of []), w')
    /\ complaints (trace w') = 1%nat
    /\ manifest_file w' = None.
Proof.
  intros E.
  destruct (@register_bot_silent_refusal Lib.python E 0 Fixtures.fresh_world 200
              [("error", VStr "name taken")] eq_refl eq_refl eq_refl) as [_ Hloop].
  eexists. split.
  - apply (Hloop 0%nat _ []); [reflexivity|reflexivity|cbn; lia].
  - split; reflexivity.
Defined.

(** ** What the gate answers *)

Section GateAnswer.

Context {L : PyStdlib}.
Variable E : environ.

Lemma check_rate_limit_answer (bot agent_id key name : value) (w : world) :
  getitem bot "agent_id" = Return agent_id ->
  getitem bot "api_key" = Return key ->
  getitem bot "name" = Return name ->
  exists w' tl,
    Scheduler.check_rate_limit E bot w
      = (Return (gate_open (status_response E (n_get w))), w')
    /\ trace w' = trace w ++ GetStatus agent_id key :: tl
    /\ status_queries tl = 0%nat
    /\ n_get w' = S (n_get w)
    /\ n_run w' = n_run w
    /\ manifest_file w' = manifest_file w.
Proof.
  intros Ha Hk Hn.
  unfold Scheduler.check_rate_limit, Scheduler.requests_get_status, try_except, bind,
    lift, ret, raise, log, emit, Scheduler.response_json.
  rewrite Ha, Hk, Hn. unfold gate_open. cbn.
  destruct (status_response E (n_get w)) as [cause|status body]; cbn.
  { eexists _, [_]. rewrite <- app_assoc. repeat split. }
  destruct (Scheduler.response_ok status); cbn.
  2:{ destruct body as [[| | | | |top]|]; eexists _, []; repeat split. }
  destruct body as [[| | | s | l |top]|]; cbn;
    try (eexists _, [_]; rewrite <- app_assoc; now repeat split).
  - destruct (substring_of "data" s); cbn.
    + eexists _, [_]. rewrite <- app_assoc. repeat split.
    + eexists _, []. repeat split.
  - destruct (existsb (is_str "data") l); cbn.
    + eexists _, [_]. rewrite <- app_assoc. repeat split.
    + eexists _, []. repeat split.
  - destruct (dict_get "data" top) as [[| | | | |d]|]; cbn;
      try (eexists _, [_]; rewrite <- app_assoc; now repeat split);
      try (eexists _, []; now repeat split).
    destruct (dict_get "fights_remaining" d) as [[| | | | |]|]; cbn;
      try (eexists _, [_]; rewrite <- app_assoc; now repeat split);
      try (eexists _, []; now repeat split).
Qed.

(** X5. For a record with an id, a key and a name, the gate sends one
    status query with these credentials and answers yes exactly when the
    status is below 400 and the JSON object of the answer has a ["data"]
    object with a positive ["fights_remaining"]; every other answer, and
    every failure of the call, is a no. *)
Theorem check_rate_limit_decides (bot agent_id key name : value) (w : world) :
  getitem bot "agent_id" = Return agent_id ->
  getitem bot "api_key" = Return key ->
  getitem bot "name" = Return name ->
  exists w' tl,
    Scheduler.check_rate_limit E bot w
      = (Return (gate_open (status_response E (n_get w))), w')
    /\ trace w' = trace w ++ GetStatus agent_id key :: tl
    /\ status_queries tl = 0%nat
    /\ n_get w' = S (n_get w)
    /\ n_run w' = n_run w
    /\ manifest_file w' = manifest_file w.
Proof. exact (check_rate_limit_answer bot agent_id key name w). Qed.

(** Without a name to log, whatever the gate raises is the missing name. *)
Lemma check_rate_limit_unnamed (d : list (string * value)) (w : world) (e : exn) :
  dict_get "name" d = None ->
  fst (Scheduler.check_rate_limit E (VDict d) w) = Raise e ->
  e = KeyError "name".
Proof.
  intros Hn.
  unfold Scheduler.check_rate_limit, Scheduler.requests_get_status, try_except, bind,
    lift, ret, raise, log, emit, Scheduler.response_json.
  cbn. rewrite Hn.
  repeat (cbn; break_match); cbn; try discriminate;
    try (intros [= <-]; reflexivity);
    intros [= <-]; try not_exit;
    repeat match goal with
           | H : (_, _) = (_, _) |- _ => inversion H; subst; clear H
           end;
    try discriminate; try reflexivity.
Qed.

(** X6. A record without a name stops the pass at its turn: whatever the
    service answers, the turn ends in an exception that nothing in the
    loop catches, which is the [KeyError] of the name whenever the
    last-battle field is readable; the records behind it are not visited. *)
Theorem unnamed_record_stops_the_pass (cfg : Scheduler.llm_config) (manifest : value)
    (before : list value) (d : list (string * value)) (after : list value)
    (battles_run : nat) (w : world) :
  dict_get "name" d = None ->
  exists e w',
    Scheduler.visit_bot E cfg manifest before (VDict d) after w = (Raise e, w')
    /\ Scheduler.battle_pass E cfg manifest before (VDict d :: after) battles_run w
       = (Raise e, w')
    /\ (last_battle_ok d = true -> e = KeyError "name")
    /\ (n_get w' <= S (n_get w))%nat
    /\ n_run w' = n_run w.
Proof.
  intros Hn.
  assert (Hname : getitem (VDict d) "name" = Raise (KeyError "name"))
    by (cbn; now rewrite Hn).
  assert (Hvisit : exists e w',
    Scheduler.visit_bot E cfg manifest before (VDict d) after w = (Raise e, w')
    /\ (last_battle_ok d = true -> e = KeyError "name")
    /\ (n_get w' <= S (n_get w))%nat
    /\ n_run w' = n_run w).
  { destruct (check_rate_limit_frame E (VDict d) w)
      as (o1 & w1 & tl1 & Hgate & _ & Hfuel1 & _ & _ & Hrun1 & _ & Hget1 & Hq1 & _).
    unfold Scheduler.visit_bot, bind. rewrite Hgate.
    destruct o1 as [[|]|e|]; [| | |contradiction]; cbn [negb].
    - destruct (battled_recently_frame E (VDict d) w1)
        as (o2 & w2 & Hrecent & Hfuel2 & _ & _ & Hget2 & Hrun2 & _).
      rewrite Hrecent.
      destruct o2 as [[|]|e|]; [| | |contradiction].
      + unfold lift. rewrite Hname. exists (KeyError "name"), w2.
        repeat split; auto; lia.
      + unfold_runner. cbn. rewrite Hn.
        exists (KeyError "name"), w2. repeat split; auto; lia.
      + exists e, w2. split; [reflexivity|]. split; [|split; [lia|congruence]].
        intros Hlast. exfalso.
        unfold last_battle_ok in Hlast.
        revert Hrecent.
        unfold Scheduler.battled_recently, Scheduler.now, bind, lift, ret, raise. cbn.
        destruct (dict_get "last_battle" d) as [v|]; cbn; [|discriminate].
        destruct (truthy v) eqn:Ht; cbn in *; [|discriminate].
        destruct v; try discriminate.
        destruct (fromisoformat s); discriminate.
    - unfold lift. rewrite Hname. exists (KeyError "name"), w1.
      repeat split; auto; lia.
    - exists e, w1. split; [reflexivity|]. split; [|split; [lia|assumption]].
      intros _. apply (check_rate_limit_unnamed d w e Hn). now rewrite Hgate. }
  destruct Hvisit as (e & w' & Hv & He & Hget & Hrun).
  exists e, w'. split; [exact Hv|]. split; [|auto].
  rewrite battle_pass_cons. now rewrite (bind_raise _ _ _ _ _ Hv).
Qed.

End GateAnswer.

(** A body that carries the count as a string keeps the gate shut. *)
Lemma check_rate_limit_decides_witness :
  let E := {| getenv := getenv Fixtures.friendly; BOT_COUNT := 3;
              register_response := register_response Fixtures.friendly;
              status_response :=
                fun _ => HttpResponse 200
                  (Some (VDict [("data", VDict [("fights_remaining", VStr "5")])]));
              nanobot_outcome := nanobot_outcome Fixtures.friendly;
              clock := clock Fixtures.friendly |} in
  exists w',
    Scheduler.check_rate_limit E (Fixtures.agent VNone 0) Fixtures.fresh_world
      = (Return false, w')
    /\ n_get w' = 1%nat.
Proof.
  intros E.
  destruct (check_rate_limit_decides E (Fixtures.agent VNone 0)
              (VStr "agent-0") (VStr "key-0") (VStr "Bot-0") Fixtures.fresh_world
              eq_refl eq_refl eq_refl)
    as (w' & tl & Hrun & _ & _ & Hget & _).
  exists w'. split; [exact Hrun|exact Hget].
Defined.

(** A record without a name in front of a good one, with fights left. *)
Lemma unnamed_record_stops_the_pass_witness :
  let nameless := [("index", VInt 0); ("agent_id", VStr "agent-0");
                   ("api_key", VStr "key-0"); ("last_battle", VNone)] in
  exists w',
    @Scheduler.battle_pass Lib.python Fixtures.friendly Fixtures.deepseek
      (Fixtures.fleet_of [VDict nameless; Fixtures.agent VNone 0]) []
      [VDict nameless; Fixtures.agent VNone 0] 0 Fixtures.fresh_world
      = (Raise (KeyError "name"), w')
    /\ n_run w' = 0%nat.
Proof.
  intros nameless.
  destruct (@unnamed_record_stops_the_pass Lib.python Fixtures.friendly Fixtures.deepseek
              (Fixtures.fleet_of [VDict nameless; Fixtures.agent VNone 0]) []
              nameless [Fixtures.agent VNone 0] 0 Fixtures.fresh_world eq_refl)
    as (e & w' & _ & Hpass & He & _ & Hrun).
  exists w'. rewrite Hpass, (He eq_refl). split; [reflexivity|exact Hrun].
Defined.

(** ** What the runner writes *)

Lemma field_set_other (k k' : string) (v : value) (d : list (string * value)) :
  k' <> k -> field k' (VDict (dict_set k v d)) = field k' (VDict d).
Proof. intros H. cbn. now apply dict_get_set_other. Qed.

Lemma same_identity_refl (b : value) : same_identity b b.
Proof. intros k _ _. reflexivity. Qed.

Lemma same_identity_trans (a b c : value) :
  same_identity a b -> same_identity b c -> same_identity a c.
Proof. intros Hab Hbc k H1 H2. now rewrite (Hbc k H1 H2), (Hab k H1 H2). Qed.

Lemma same_identity_set_last_battle (d : list (string * value)) (v : value) :
  same_identity (VDict d) (VDict (dict_set "last_battle" v d)).
Proof. intros k H1 _. now apply field_set_other. Qed.

Lemma same_identity_set_battles (d : list (string * value)) (v : value) :
  same_identity (VDict d) (VDict (dict_set "battles" v d)).
Proof. intros k _ H2. now apply field_set_other. Qed.

Section RunnerResult.

Context {L : PyStdlib}.
Variable E : environ.

(** X7. A battle that ends with status 0: the runner answers yes, stamps
    the record with the time of its one reading of the clock and puts the
    count one up (from 0 when the record has none); every other field
    stays, the subprocess ran once with the credentials of the record, and
    the manifest file is not written by the runner. *)
Theorem run_bot_battle_success (d : list (string * value)) (name index : value)
    (agent_id key stdout : string) (battles battles' : value)
    (cfg : Scheduler.llm_config) (w : world) :
  dict_get "name" d = Some name ->
  dict_get "index" d = Some index ->
  dict_get "agent_id" d = Some (VStr agent_id) ->
  dict_get "api_key" d = Some (VStr key) ->
  nanobot_outcome E (n_run w) = Completed 0 stdout ->
  get (VDict d) "battles" (VInt 0) = Return battles ->
  add1 battles = Return battles' ->
  Scheduler.run_bot_battle E (VDict d) cfg w =
    (Return (true,
             VDict (dict_set "battles" battles'
                      (dict_set "last_battle" (VStr (isoformat (clock E (n_now w)))) d))),
     {| manifest_file := manifest_file w;
        trace := trace w ++ [Log INFO (MsgStartingBattle name (VStr agent_id));
                             WriteConfig index;
                             RunNanobot (VStr agent_id) (VStr key);
                             Log INFO (MsgBattleResult name
                                         (Scheduler.last_chars 500 stdout))];
        n_post := n_post w; n_get := n_get w;
        n_run := S (n_run w); n_now := S (n_now w) |}).
Proof.
  intros Hn Hi Ha Hk Hout Hget Hadd.
  unfold_runner. cbn. rewrite Hn, Ha, Hi, Hk. cbn. rewrite Hout. cbn.
  cbn in Hget. rewrite dict_get_set_other by discriminate.
  destruct (dict_get "battles" d) as [v|]; injection Hget as <-; rewrite Hadd; cbn;
    rewrite <- !app_assoc; reflexivity.
Qed.

(** X8. A battle that ends with status 0 on a record whose count is not a
    number: the stamp is written before the count is read, so the runner
    logs the error and answers no, but hands back the record with the new
    stamp and the old count. *)
Theorem run_bot_battle_half_update (d : list (string * value)) (name index : value)
    (agent_id key stdout : string) (battles : value) (e : exn)
    (cfg : Scheduler.llm_config) (w : world) :
  dict_get "name" d = Some name ->
  dict_get "index" d = Some index ->
  dict_get "agent_id" d = Some (VStr agent_id) ->
  dict_get "api_key" d = Some (VStr key) ->
  nanobot_outcome E (n_run w) = Completed 0 stdout ->
  dict_get "battles" d = Some battles ->
  add1 battles = Raise e ->
  exists w',
    Scheduler.run_bot_battle E (VDict d) cfg w =
      (Return (false,
               VDict (dict_set "last_battle" (VStr (isoformat (clock E (n_now w)))) d)),
       w')
    /\ e = TypeError
    /\ trace w' = trace w ++ [Log INFO (MsgStartingBattle name (VStr agent_id));
                              WriteConfig index;
                              RunNanobot (VStr agent_id) (VStr key);
                              Log INFO (MsgBattleResult name
                                          (Scheduler.last_chars 500 stdout));
                              Log ERROR (MsgBattleError name TypeError)]
    /\ manifest_file w' = manifest_file w.
Proof.
  intros Hn Hi Ha Hk Hout Hget Hadd.
  assert (He : e = TypeError)
    by (destruct battles; cbn in Hadd; congruence).
  subst e.
  unfold_runner. cbn. rewrite Hn, Ha, Hi, Hk. cbn. rewrite Hout. cbn.
  rewrite dict_get_set_other by discriminate. rewrite Hget, Hadd. cbn.
  eexists. split; [reflexivity|]. cbn. rewrite <- !app_assoc. repeat split.
Qed.

(** Whatever the runner does to a record, it leaves its other fields. *)
Lemma run_bot_battle_identity (bot : value) (cfg : Scheduler.llm_config) (w : world)
    (ok : bool) (bot' : value) (w' : world) :
  Scheduler.run_bot_battle E bot cfg w = (Return (ok, bot'), w') ->
  same_identity bot bot'.
Proof.
  unfold_runner.
  destruct bot as [| | | | |d]; cbn; try discriminate.
  repeat (cbn; break_match); try no_fuel;
    intros H; inversion H; subst; clear H;
    repeat match goal with
           | H : (_, _) = (_, _) |- _ => inversion H; subst; clear H
           end;
    try discriminate;
    first [ apply same_identity_refl
          | apply same_identity_set_last_battle
          | eapply same_identity_trans;
            [apply same_identity_set_last_battle|apply same_identity_set_battles] ].
Qed.

End RunnerResult.

(** The first battle of a fresh record. *)
Lemma run_bot_battle_success_witness :
  exists w',
    @Scheduler.run_bot_battle Lib.python Fixtures.friendly (Fixtures.agent VNone 0)
      Fixtures.deepseek Fixtures.fresh_world
      = (Return (true, Fixtures.agent (VStr "2026-11-03T14:00:00") 1), w')
    /\ n_run w' = 1%nat.
Proof.
  eexists. split.
  - exact (@run_bot_battle_success Lib.python Fixtures.friendly
             [("index", VInt 0); ("agent_id", VStr "agent-0"); ("api_key", VStr "key-0");
              ("name", VStr "Bot-0"); ("registered", VStr "2026-11-03T13:00:00");
              ("last_battle", VNone); ("battles", VInt 0)]
             (VStr "Bot-0") (VInt 0)
             "agent-0" "key-0" "won" (VInt 0) (VInt 1) Fixtures.deepseek
             Fixtures.fresh_world eq_refl eq_refl eq_refl eq_refl eq_refl eq_refl eq_refl).
  - reflexivity.
Defined.

(** A record whose count was written as a string. *)
Lemma run_bot_battle_half_update_witness :
  let d := [("index", VInt 0); ("agent_id", VStr "agent-0"); ("api_key", VStr "key-0");
            ("name", VStr "Bot-0"); ("last_battle", VNone); ("battles", VStr "4")] in
  exists w',
    @Scheduler.run_bot_battle Lib.python Fixtures.friendly (VDict d)
      Fixtures.deepseek Fixtures.fresh_world
      = (Return (false,
                 VDict [("index", VInt 0); ("agent_id", VStr "agent-0");
                        ("api_key", VStr "key-0"); ("name", VStr "Bot-0");
                        ("last_battle", VStr "2026-11-03T14:00:00");
                        ("battles", VStr "4")]), w').
Proof.
  intros d.
  destruct (@run_bot_battle_half_update Lib.python Fixtures.friendly d (VStr "Bot-0")
              (VInt 0) "agent-0" "key-0" "won" (VStr "4") TypeError Fixtures.deepseek
              Fixtures.fresh_world eq_refl eq_refl eq_refl eq_refl eq_refl eq_refl eq_refl)
    as (w' & Hrun & _).
  exists w'. exact Hrun.
Defined.

(** ** The slice of the output that is logged *)

Lemma substring_all (s : string) :
  forall n, (String.length s <= n)%nat -> String.substring 0 n s = s.
Proof.
  induction s as [|c s IH]; intros [|n] Hn; cbn in *; try reflexivity; try lia.
  rewrite IH by lia. reflexivity.
Qed.

(** X15. [stdout[-500:]]: what the runner logs of the output of a battle
    is the end of that output, the whole of it when it has 500 characters
    or fewer and its last 500 otherwise. *)
Theorem last_chars_is_the_end (n : nat) (s : string) :
  exists front,
    s = (front ++ Scheduler.last_chars n s)%string
    /\ String.length (Scheduler.last_chars n s) = Nat.min n (String.length s)
    /\ String.length front = (String.length s - n)%nat.
Proof.
  unfold Scheduler.last_chars.
  induction s as [|c s (front & Hs & Hlen & Hfront)].
  - exists ""%string. destruct n; cbn; auto.
  - destruct (Nat.le_gt_cases (String.length (String c s)) n) as [Hle|Hgt].
    + exists ""%string.
      replace (String.length (String c s) - n)%nat with 0%nat by lia.
      rewrite substring_all by exact Hle.
      split; [reflexivity|]. split; [lia|reflexivity].
    + cbn [String.length] in *.
      replace (S (String.length s) - n)%nat with (S (String.length s - n)) by lia.
      cbn [String.substring].
      exists (String c front). cbn [String.append String.length].
      rewrite <- Hs, Hlen, Hfront. split; [reflexivity|]. split; lia.
Qed.

(** ** What the battle loop leaves alone *)

Lemma saves_app (a b : list event) : saves (a ++ b) = (saves a + saves b)%nat.
Proof.
  induction a as [|ev a IH]; [reflexivity|].
  destruct ev; cbn; try exact IH. now rewrite IH.
Qed.

Lemma same_header_refl (m : value) : same_header m m.
Proof. intros k _. reflexivity. Qed.

Lemma same_header_trans (a b c : value) :
  same_header a b -> same_header b c -> same_header a c.
Proof. intros Hab Hbc k H. now rewrite (Hbc k H), (Hab k H). Qed.

Lemma same_header_store_bots (manifest : value) (bots : list value) :
  same_header manifest (Scheduler.store_bots manifest bots).
Proof.
  destruct manifest as [| | | | |d]; try apply same_header_refl.
  cbn. destruct (dict_get "bots" d) as [[| | | |l|]|]; try apply same_header_refl.
  intros k Hk. now apply field_set_other.
Qed.

Lemma Forall2_same_identity_refl (l : list value) : Forall2 same_identity l l.
Proof. induction l; constructor; [apply same_identity_refl|assumption]. Qed.

Lemma Forall2_same_identity_trans (a b : list value) :
  Forall2 same_identity a b ->
  forall c, Forall2 same_identity b c -> Forall2 same_identity a c.
Proof.
  induction 1 as [|x y a b Hxy Hab IH]; intros c Hbc; inversion Hbc; subst.
  - constructor.
  - constructor; [eapply same_identity_trans; eassumption|now apply IH].
Qed.

Section FleetFacts.

Context {L : PyStdlib}.
Variable E : environ.

(** The gate and the runner write no manifest and register nobody. *)
Lemma check_rate_limit_trace (bot : value) (w : world) :
  exists tl,
    trace (snd (Scheduler.check_rate_limit E bot w)) = trace w ++ tl
    /\ saves tl = 0%nat /\ posts tl = 0%nat /\ attempts tl = [].
Proof.
  unfold Scheduler.check_rate_limit, Scheduler.requests_get_status, try_except, bind,
    lift, ret, raise, log, emit, Scheduler.response_json.
  repeat (cbn; break_match); cbn; rewrite <- ?app_assoc; cbn;
    first [ match goal with
            | |- exists tl, _ ++ ?t = _ /\ _ => exists t; repeat split; reflexivity
            end
          | exists []; rewrite app_nil_r; repeat split; reflexivity ].
Qed.

Lemma run_bot_battle_trace (bot : value) (cfg : Scheduler.llm_config) (w : world) :
  exists tl,
    trace (snd (Scheduler.run_bot_battle E bot cfg w)) = trace w ++ tl
    /\ saves tl = 0%nat /\ posts tl = 0%nat /\ attempts tl = [].
Proof.
  unfold_runner.
  repeat (cbn; break_match); cbn; rewrite <- ?app_assoc; cbn;
    first [ match goal with
            | |- exists tl, _ ++ ?t = _ /\ _ => exists t; repeat split; reflexivity
            end
          | exists []; rewrite app_nil_r; repeat split; reflexivity ].
Qed.

(** The runner says yes only after a run of the subprocess, and never
    takes a run back. *)
Lemma run_bot_battle_runs (bot : value) (cfg : Scheduler.llm_config) (w : world) :
  (n_run w <= n_run (snd (Scheduler.run_bot_battle E bot cfg w)))%nat
  /\ forall bot' w',
       Scheduler.run_bot_battle E bot cfg w = (Return (true, bot'), w') ->
       n_run w' = S (n_run w).
Proof.
  unfold_runner.
  repeat (cbn; break_match);
    repeat match goal with
           | H : (_, _) = (_, _) |- _ => inversion H; subst; clear H
           end;
    cbn; (split; [lia|]); intros bot' w' H; inversion H; reflexivity.
Qed.

Lemma has_credentials_inv (bot : value) :
  has_credentials bot = true ->
  exists agent_id key name,
    getitem bot "agent_id" = Return agent_id
    /\ getitem bot "api_key" = Return key
    /\ getitem bot "name" = Return name.
Proof.
  destruct bot as [| | | | |d]; try discriminate. cbn. unfold has_key.
  intros H. apply andb_prop in H as [H Hn]. apply andb_prop in H as [Ha Hk].
  destruct (dict_get "agent_id" d) as [agent_id|]; [|discriminate].
  destruct (dict_get "api_key" d) as [key|]; [|discriminate].
  destruct (dict_get "name" d) as [name|]; [|discriminate].
  now exists agent_id, key, name.
Qed.

(** One turn: what it may touch, whatever its outcome, and what a turn
    that comes back has done. *)
Lemma visit_bot_facts (cfg : Scheduler.llm_config) (manifest : value)
    (before : list value) (bot : value) (after : list value) (w : world) :
  exists o w' tl,
    Scheduler.visit_bot E cfg manifest before bot after w = (o, w')
    /\ trace w' = trace w ++ tl
    /\ o <> OutOfFuel
    /\ posts tl = 0%nat /\ attempts tl = []
    /\ n_post w' = n_post w
    /\ (n_get w' <= S (n_get w))%nat
    /\ (n_run w <= n_run w' <= S (n_run w))%nat
    /\ forall bot' ran,
         o = Return (bot', ran) ->
         same_identity bot bot'
         /\ saves tl = (if ran then 1 else 0)%nat
         /\ (ran = true -> n_run w' = S (n_run w))
         /\ (has_credentials bot = true -> n_get w' = S (n_get w)).
Proof.
  destruct (check_rate_limit_frame E bot w)
    as (o1 & w1 & tl1 & Hgate & Htr1 & Hfuel1 & _ & Hpost1 & Hrun1 & _ & Hget1 & Hq1 & _).
  destruct (check_rate_limit_trace bot w) as (tl1' & Htr1' & Hs1 & Hp1 & Ha1).
  rewrite Hgate in Htr1'. cbn [snd] in Htr1'. rewrite Htr1 in Htr1'.
  apply app_inv_head in Htr1'. subst tl1'.
  assert (Hcred : has_credentials bot = true -> n_get w1 = S (n_get w)).
  { intros Hc. destruct (has_credentials_inv bot Hc) as (agent_id & key & name & Ha & Hk & Hn).
    destruct (check_rate_limit_answer E bot agent_id key name w Ha Hk Hn)
      as (w2 & tl2 & Hrun & _ & _ & Hget & _).
    rewrite Hgate in Hrun. now injection Hrun as _ <-. }
  assert (Hskip : forall (msg : value -> message) (w0 : world),
            trace w0 = trace w ++ tl1 -> n_post w0 = n_post w -> n_get w0 = n_get w1 ->
            n_run w0 = n_run w ->
            (forall v i, msg v <> MsgRegistering i) ->
            let run := bind (lift (getitem bot "name"))
                         (fun name => bind (log INFO (msg name))
                                        (fun _ => ret (bot, false))) w0 in
            exists o w' tl,
              run = (o, w')
              /\ trace w' = trace w ++ tl
              /\ o <> OutOfFuel
              /\ posts tl = 0%nat /\ attempts tl = []
              /\ n_post w' = n_post w
              /\ (n_get w' <= S (n_get w))%nat
              /\ (n_run w <= n_run w' <= S (n_run w))%nat
              /\ forall bot' ran,
                   o = Return (bot', ran) ->
                   same_identity bot bot'
                   /\ saves tl = (if ran then 1 else 0)%nat
                   /\ (ran = true -> n_run w' = S (n_run w))
                   /\ (has_credentials bot = true -> n_get w' = S (n_get w))).
  { intros msg w0 Htr0 Hpost0 Hget0 Hrun0 Hmsg. unfold bind, lift, log, emit, ret.
    destruct (getitem bot "name") as [name|e|] eqn:Hname; cbn.
    - eexists _, _, (tl1 ++ [Log INFO (msg name)]). split; [reflexivity|]. cbn.
      rewrite Htr0, <- app_assoc, posts_app, attempts_app, saves_app, Hp1, Ha1, Hs1.
      split; [reflexivity|]. split; [discriminate|].
      split; [reflexivity|]. split.
      { cbn. specialize (Hmsg name). destruct (msg name); try reflexivity.
        now contradiction (Hmsg bot_index). }
      split; [assumption|]. split; [lia|]. split; [lia|].
      intros bot' ran [= <- <-]. split; [apply same_identity_refl|].
      split; [reflexivity|]. split; [discriminate|]. intros Hc. rewrite Hget0. now apply Hcred.
    - exists (Raise e), w0, tl1. split; [reflexivity|].
      split; [assumption|]. split; [discriminate|]. split; [assumption|].
      split; [assumption|]. split; [assumption|]. split; [lia|]. split; [lia|].
      intros bot' ran [=].
    - now apply getitem_fuel in Hname. }
  unfold Scheduler.visit_bot, bind. rewrite Hgate.
  destruct o1 as [[|]|e|]; [| | |contradiction]; cbn [negb].
  - destruct (battled_recently_frame E bot w1)
      as (o2 & w2 & Hrecent & Hfuel2 & _ & Hpost2 & Hget2 & Hrun2 & Htr2).
    rewrite Hrecent.
    destruct o2 as [[|]|e|]; [| | |contradiction].
    + apply (Hskip MsgBattledRecently w2); first [congruence | discriminate].
    + destruct (run_bot_battle_frame E bot cfg w2)
        as (o3 & w3 & tl3 & Hrunner & Htr3 & Hfuel3 & _ & Hpost3 & Hget3 & Hrun3 & _).
      destruct (run_bot_battle_trace bot cfg w2) as (tl3' & Htr3' & Hs3 & Hp3 & Ha3).
      destruct (run_bot_battle_runs bot cfg w2) as [Hmono Hran].
      rewrite Hrunner in Htr3', Hmono. cbn [snd] in Htr3', Hmono. rewrite Htr3 in Htr3'.
      apply app_inv_head in Htr3'. subst tl3'.
      rewrite Hrunner.
      destruct o3 as [[ok bot1]|e|]; [| |contradiction].
      * pose proof (run_bot_battle_identity E bot cfg w2 ok bot1 w3 Hrunner) as Hid.
        unfold Scheduler.save_manifest, write_manifest_file, sleep, emit, ret.
        destruct ok; cbn.
        -- eexists _, _, (tl1 ++ tl3 ++ [_; _]). split; [reflexivity|]. cbn.
           rewrite Htr3, Htr2, Htr1, <- !app_assoc.
           rewrite !posts_app, !attempts_app, !saves_app, Hp1, Ha1, Hs1, Hp3, Ha3, Hs3.
           split; [reflexivity|]. split; [discriminate|].
           split; [reflexivity|]. split; [reflexivity|].
           split; [congruence|]. split; [lia|]. split; [lia|].
           intros bot' ran [= <- <-]. split; [exact Hid|]. split; [reflexivity|].
           split.
           ++ intros _. cbn. rewrite (Hran bot1 w3 Hrunner). congruence.
           ++ intros Hc. rewrite Hget3, Hget2. now apply Hcred.
        -- eexists _, _, (tl1 ++ tl3 ++ [_]). split; [reflexivity|]. cbn.
           rewrite Htr3, Htr2, Htr1, <- !app_assoc.
           rewrite !posts_app, !attempts_app, !saves_app, Hp1, Ha1, Hs1, Hp3, Ha3, Hs3.
           split; [reflexivity|]. split; [discriminate|].
           split; [reflexivity|]. split; [reflexivity|].
           split; [congruence|]. split; [lia|]. split; [lia|].
           intros bot' ran [= <- <-]. split; [exact Hid|]. split; [reflexivity|].
           split; [discriminate|].
           intros Hc. rewrite Hget3, Hget2. now apply Hcred.
      * exists (Raise e), w3, (tl1 ++ tl3). split; [reflexivity|].
        rewrite Htr3, Htr2, Htr1, <- !app_assoc.
        rewrite !posts_app, !attempts_app, Hp1, Ha1, Hp3, Ha3.
        split; [reflexivity|]. split; [discriminate|].
        split; [reflexivity|]. split; [reflexivity|].
        split; [congruence|]. split; [lia|]. split; [lia|].
        intros bot' ran [=].
    + exists (Raise e), w2, tl1. split; [reflexivity|].
      split; [congruence|]. split; [discriminate|]. split; [assumption|].
      split; [assumption|]. split; [congruence|]. split; [lia|]. split; [lia|].
      intros bot' ran [=].
  - apply (Hskip MsgRateLimited w1); first [congruence | discriminate].
  - exists (Raise e), w1, tl1. split; [reflexivity|].
    split; [assumption|]. split; [discriminate|]. split; [assumption|].
    split; [assumption|]. split; [assumption|]. split; [lia|]. split; [lia|].
    intros bot' ran [=].
Qed.

End FleetFacts.

Section LoopFacts.

Context {L : PyStdlib}.
Variable E : environ.

Lemma battle_pass_facts (cfg : Scheduler.llm_config) (manifest : value)
    (todo : list value) :
  forall (before : list value) (k : nat) (w : world),
  exists o w' tl,
    Scheduler.battle_pass E cfg manifest before todo k w = (o, w')
    /\ trace w' = trace w ++ tl
    /\ o <> OutOfFuel
    /\ posts tl = 0%nat /\ attempts tl = []
    /\ n_post w' = n_post w
    /\ (n_get w' <= n_get w + List.length todo)%nat
    /\ (n_run w <= n_run w' <= n_run w + List.length todo)%nat
    /\ forall bots' k',
         o = Return (bots', k') ->
         exists visited,
           bots' = before ++ visited
           /\ Forall2 same_identity todo visited
           /\ (k <= k')%nat
           /\ saves tl = (k' - k)%nat
           /\ (n_run w + (k' - k) <= n_run w')%nat
           /\ (forallb has_credentials todo = true ->
               n_get w' = (n_get w + List.length todo)%nat).
Proof.
  induction todo as [|bot after IH]; intros before k w.
  - exists (Return (before, k)), w, []. cbn. rewrite app_nil_r, !Nat.add_0_r.
    split; [reflexivity|]. split; [reflexivity|]. split; [discriminate|].
    repeat (split; [first [reflexivity | lia]|]).
    intros bots' k' [= <- <-]. exists []. rewrite app_nil_r, Nat.sub_diag, Nat.add_0_r.
    repeat split; auto.
  - rewrite battle_pass_cons. unfold bind.
    destruct (visit_bot_facts E cfg manifest before bot after w)
      as (o1 & w1 & tl1 & Hv & Htr1 & Hfuel1 & Hp1 & Ha1 & Hpost1 & Hget1 & Hrun1 & Hret1).
    rewrite Hv.
    destruct o1 as [[bot1 ran]|e|]; [| |contradiction].
    + destruct (Hret1 bot1 ran eq_refl) as (Hid1 & Hs1 & Hran1 & Hcred1).
      destruct (IH (before ++ [bot1]) (if ran then S k else k) w1)
        as (o & w' & tl & Hpass & Htr & Hfuel & Hp & Ha & Hpost & Hget & Hrun & Hret).
      exists o, w', (tl1 ++ tl). split; [exact Hpass|].
      rewrite Htr, Htr1, <- app_assoc, posts_app, attempts_app, Hp1, Ha1, Hp, Ha.
      split; [reflexivity|]. split; [assumption|].
      split; [reflexivity|]. split; [reflexivity|]. split; [congruence|].
      cbn [List.length]. split; [lia|]. split; [lia|].
      intros bots' k' Ho.
      destruct (Hret bots' k' Ho) as (visited & -> & Hall & Hk & Hs & Hruns & Hcred).
      exists (bot1 :: visited). rewrite <- app_assoc. cbn [app].
      split; [reflexivity|]. split; [now constructor|].
      rewrite saves_app, Hs, Hs1.
      destruct ran.
      * specialize (Hran1 eq_refl).
        split; [lia|]. split; [lia|]. split; [lia|].
        cbn [forallb]. intros Hc. apply andb_prop in Hc as [Hc1 Hc2].
        rewrite (Hcred Hc2), (Hcred1 Hc1). lia.
      * split; [lia|]. split; [lia|]. split; [lia|].
        cbn [forallb]. intros Hc. apply andb_prop in Hc as [Hc1 Hc2].
        rewrite (Hcred Hc2), (Hcred1 Hc1). lia.
    + exists (Raise e), w1, tl1. split; [reflexivity|].
      split; [assumption|]. split; [discriminate|].
      split; [assumption|]. split; [assumption|]. split; [assumption|].
      cbn [List.length]. split; [lia|]. split; [lia|].
      intros bots' k' [=].
Qed.

Lemma battle_cycle_facts (cfg : Scheduler.llm_config) (manifest : value) (w : world) :
  exists o w' tl,
    Scheduler.battle_cycle E cfg manifest w = (o, w')
    /\ trace w' = trace w ++ tl
    /\ o <> OutOfFuel
    /\ posts tl = 0%nat /\ attempts tl = []
    /\ n_post w' = n_post w
    /\ (n_run w <= n_run w')%nat
    /\ forall manifest',
         o = Return manifest' ->
         getitem manifest "bots" = Return (VList (fleet manifest)) ->
         getitem manifest' "bots" = Return (VList (fleet manifest'))
         /\ Forall2 same_identity (fleet manifest) (fleet manifest')
         /\ same_header manifest manifest'
         /\ saves tl = battles_logged tl
         /\ (n_get w' <= n_get w + List.length (fleet manifest))%nat
         /\ (n_run w + battles_logged tl <= n_run w')%nat
         /\ (n_run w' <= n_run w + List.length (fleet manifest))%nat
         /\ (forallb has_credentials (fleet manifest) = true ->
             n_get w' = (n_get w + List.length (fleet manifest))%nat).
Proof.
  unfold Scheduler.battle_cycle.
  unfold bind at 1. unfold log at 1, emit. unfold bind at 1.
  unfold Scheduler.now at 1. unfold bind at 1. unfold log at 1, emit.
  unfold bind at 1. unfold lift at 1.
  destruct (Scheduler.bots_of manifest) as [bots|e|] eqn:Hbots.
  - unfold bind at 1.
    match goal with
    | |- context [Scheduler.battle_pass E cfg manifest [] bots 0 ?w0] => set (w2 := w0)
    end.
    assert (Hw2 : trace w2 = trace w ++ [Log INFO (MsgRule "-" 30);
                                         Log INFO (MsgCycleStart (clock E (n_now w)))]
                  /\ n_post w2 = n_post w /\ n_get w2 = n_get w /\ n_run w2 = n_run w).
    { subst w2. cbn. rewrite <- app_assoc. repeat split. }
    destruct Hw2 as (Htr2 & Hpost2 & Hget2 & Hrun2). clearbody w2.
    destruct (battle_pass_facts cfg manifest bots [] 0%nat w2)
      as (o & w3 & tlp & Hpass & Htrp & Hfuel & Hp & Ha & Hpost & Hget & Hrun & Hret).
    destruct (battle_pass_logs E cfg manifest bots [] 0%nat w2) as (tlp' & Htrp' & Hlogp).
    rewrite Hpass in Htrp'. cbn [snd] in Htrp'. rewrite Htrp in Htrp'.
    apply app_inv_head in Htrp'. subst tlp'.
    rewrite Hpass.
    destruct o as [[bots' k']|e|]; [| |contradiction].
    + unfold bind, log, sleep, emit, ret. cbn.
      exists (Return (Scheduler.store_bots manifest bots')).
      eexists.
      exists ([Log INFO (MsgRule "-" 30); Log INFO (MsgCycleStart (clock E (n_now w)))]
              ++ tlp ++ [Log INFO (MsgCycleComplete k'); Log INFO MsgSleeping; Sleep 600]).
      split; [reflexivity|]. cbn [trace n_post n_get n_run].
      split; [rewrite Htrp, Htr2, <- !app_assoc; reflexivity|].
      split; [discriminate|].
      rewrite !posts_app, !attempts_app, Hp, Ha.
      split; [reflexivity|]. split; [reflexivity|].
      split; [congruence|]. split; [lia|].
      intros manifest' [= <-] Hlist.
      assert (bots = fleet manifest) as ->.
      { unfold Scheduler.bots_of in Hbots. rewrite Hlist in Hbots. cbn in Hbots. congruence. }
      destruct (Hret bots' k' eq_refl) as (visited & -> & Hall & _ & Hs & Hruns & Hcred).
      cbn [app] in *.
      destruct (fleet_store_bots manifest visited Hlist) as [Hfleet Hgetbots].
      split; [exact Hgetbots|]. rewrite Hfleet. split; [exact Hall|].
      split; [apply same_header_store_bots|].
      cbn [saves battles_logged app].
      rewrite ?saves_app, ?battles_logged_app, Hs, Hlogp. cbn.
      rewrite Nat.sub_0_r in *. rewrite !Nat.add_0_r.
      split; [reflexivity|]. split; [lia|]. split; [lia|]. split; [lia|].
      intros Hc. rewrite (Hcred Hc). lia.
    + exists (Raise e), w3,
        ([Log INFO (MsgRule "-" 30); Log INFO (MsgCycleStart (clock E (n_now w)))] ++ tlp).
      split; [reflexivity|].
      split; [rewrite Htrp, Htr2, <- !app_assoc; reflexivity|].
      split; [discriminate|].
      rewrite !posts_app, !attempts_app, Hp, Ha.
      split; [reflexivity|]. split; [reflexivity|].
      split; [congruence|]. split; [lia|].
      intros manifest' [=].
  - eexists _, _, [_; _]. split; [reflexivity|]. cbn. rewrite <- !app_assoc. cbn.
    split; [reflexivity|]. split; [discriminate|].
    repeat (split; [first [reflexivity | lia]|]).
    intros manifest' [=].
  - exfalso. unfold Scheduler.bots_of in Hbots.
    destruct (getitem manifest "bots") eqn:Hg; try discriminate; no_fuel.
Qed.

Lemma battle_loop_facts (cycles : nat) :
  forall (cfg : Scheduler.llm_config) (manifest : value) (w : world),
  exists o w' tl,
    Scheduler.battle_loop E cycles cfg manifest w = (o, w')
    /\ trace w' = trace w ++ tl
    /\ posts tl = 0%nat /\ attempts tl = []
    /\ n_post w' = n_post w
    /\ forall manifest',
         o = Return manifest' ->
         getitem manifest "bots" = Return (VList (fleet manifest)) ->
         getitem manifest' "bots" = Return (VList (fleet manifest'))
         /\ Forall2 same_identity (fleet manifest) (fleet manifest')
         /\ same_header manifest manifest'
         /\ saves tl = battles_logged tl
         /\ (n_get w' <= n_get w + cycles * List.length (fleet manifest))%nat
         /\ (n_run w + battles_logged tl <= n_run w')%nat.
Proof.
  induction cycles as [|cycles IH]; intros cfg manifest w.
  - exists (Return manifest), w, []. rewrite app_nil_r.
    repeat (split; [reflexivity|]).
    intros manifest' [= <-] Hlist. split; [exact Hlist|].
    split; [apply Forall2_same_identity_refl|]. split; [apply same_header_refl|].
    cbn. split; [reflexivity|]. split; lia.
  - change (Scheduler.battle_loop E (S cycles) cfg manifest)
      with (manifest1 <- Scheduler.battle_cycle E cfg manifest ;;
            Scheduler.battle_loop E cycles cfg manifest1)%py.
    unfold bind.
    destruct (battle_cycle_facts cfg manifest w)
      as (o1 & w1 & tl1 & Hcycle & Htr1 & Hfuel1 & Hp1 & Ha1 & Hpost1 & Hrun1 & Hret1).
    rewrite Hcycle.
    destruct o1 as [manifest1|e|]; [| |contradiction].
    + destruct (IH cfg manifest1 w1) as (o & w' & tl & Hloop & Htr & Hp & Ha & Hpost & Hret).
      exists o, w', (tl1 ++ tl). split; [exact Hloop|].
      rewrite Htr, Htr1, <- app_assoc, posts_app, attempts_app, Hp1, Ha1, Hp, Ha.
      split; [reflexivity|]. split; [reflexivity|]. split; [reflexivity|].
      split; [congruence|].
      intros manifest' Ho Hlist.
      destruct (Hret1 manifest1 eq_refl Hlist)
        as (Hlist1 & Hall1 & Hhead1 & Hs1 & Hget1 & Hruns1 & _ & _).
      destruct (Hret manifest' Ho Hlist1) as (Hlist' & Hall & Hhead & Hs & Hget & Hruns).
      split; [exact Hlist'|].
      split; [eapply Forall2_same_identity_trans; eassumption|].
      split; [eapply same_header_trans; eassumption|].
      rewrite saves_app, battles_logged_app, Hs1, Hs.
      split; [reflexivity|].
      rewrite <- (Forall2_length Hall1) in Hget.
      split; [cbn; lia|lia].
    + exists (Raise e), w1, tl1. split; [reflexivity|].
      split; [assumption|]. split; [assumption|]. split; [assumption|].
      split; [assumption|]. intros manifest' [=].
Qed.

(** X9. Over any number of cycles the battle loop keeps the fleet: the
    same number of records in the same order, each with every field it had
    except the time of the last battle and the count, and every other entry
    of the manifest as it was. *)
Theorem battle_loop_keeps_fleet (cycles : nat) (cfg : Scheduler.llm_config)
    (manifest : value) (w : world) (manifest' : value) (w' : world) :
  getitem manifest "bots" = Return (VList (fleet manifest)) ->
  Scheduler.battle_loop E cycles cfg manifest w = (Return manifest', w') ->
  List.length (fleet manifest') = List.length (fleet manifest)
  /\ Forall2 same_identity (fleet manifest) (fleet manifest')
  /\ same_header manifest manifest'
  /\ getitem manifest' "bots" = Return (VList (fleet manifest')).
Proof.
  intros Hlist Hloop.
  destruct (battle_loop_facts cycles cfg manifest w)
    as (o & w1 & tl & Hrun & _ & _ & _ & _ & Hret).
  rewrite Hloop in Hrun. injection Hrun as <- <-.
  destruct (Hret manifest' eq_refl Hlist) as (Hlist' & Hall & Hhead & _).
  split; [symmetry; exact (Forall2_length Hall)|]. auto.
Qed.

(** X10. The battle loop registers nobody: however many cycles it runs and
    however it ends, it sends no registration request and logs no
    registration attempt. *)
Theorem battle_loop_never_registers (cycles : nat) (cfg : Scheduler.llm_config)
    (manifest : value) (w : world) :
  exists tl,
    trace (snd (Scheduler.battle_loop E cycles cfg manifest w)) = trace w ++ tl
    /\ posts tl = 0%nat
    /\ attempts tl = []
    /\ n_post (snd (Scheduler.battle_loop E cycles cfg manifest w)) = n_post w.
Proof.
  destruct (battle_loop_facts cycles cfg manifest w)
    as (o & w1 & tl & Hrun & Htr & Hp & Ha & Hpost & _).
  exists tl. rewrite Hrun. auto.
Qed.

(** X12. The manifest file is written once for each battle the loop
    reports as run, and at no other time: over any number of cycles the
    writes in the trace are as many as the reported battles, and no more
    than the runs of the subprocess. *)
Theorem saves_match_reported_battles (cycles : nat) (cfg : Scheduler.llm_config)
    (manifest : value) (w : world) (manifest' : value) (w' : world) :
  getitem manifest "bots" = Return (VList (fleet manifest)) ->
  Scheduler.battle_loop E cycles cfg manifest w = (Return manifest', w') ->
  exists tl,
    trace w' = trace w ++ tl
    /\ saves tl = battles_logged tl
    /\ (n_run w + saves tl <= n_run w')%nat.
Proof.
  intros Hlist Hloop.
  destruct (battle_loop_facts cycles cfg manifest w)
    as (o & w1 & tl & Hrun & Htr & _ & _ & _ & Hret).
  rewrite Hloop in Hrun. injection Hrun as <- <-.
  destruct (Hret manifest' eq_refl Hlist) as (_ & _ & _ & Hs & _ & Hruns).
  exists tl. rewrite Hs. auto.
Qed.

End LoopFacts.

(** Two cycles over one fresh record: a battle, then a skip. *)
Lemma battle_loop_keeps_fleet_witness :
  let manifest := Fixtures.fleet_of [Fixtures.agent VNone 0] in
  exists manifest' w',
    @Scheduler.battle_loop Lib.python Fixtures.friendly 2 Fixtures.deepseek manifest
       Fixtures.fresh_world = (Return manifest', w')
    /\ List.length (fleet manifest') = 1%nat
    /\ Forall2 same_identity (fleet manifest) (fleet manifest').
Proof.
  intros manifest.
  destruct (@Scheduler.battle_loop Lib.python Fixtures.friendly 2 Fixtures.deepseek manifest
              Fixtures.fresh_world) as [o w'] eqn:Hrun.
  assert (Ho : exists manifest', o = Return manifest').
  { vm_compute in Hrun. injection Hrun as <- _. now eexists. }
  destruct Ho as (manifest' & ->).
  exists manifest', w'. split; [reflexivity|].
  destruct (@battle_loop_keeps_fleet Lib.python Fixtures.friendly 2 Fixtures.deepseek
              manifest Fixtures.fresh_world manifest' w' eq_refl Hrun)
    as (Hlen & Hall & _).
  split; assumption.
Defined.

(** Two cycles over one fresh record: one battle, one write. *)
Lemma saves_match_reported_battles_witness :
  let manifest := Fixtures.fleet_of [Fixtures.agent VNone 0] in
  exists manifest' w',
    @Scheduler.battle_loop Lib.python Fixtures.friendly 2 Fixtures.deepseek manifest
       Fixtures.fresh_world = (Return manifest', w')
    /\ saves (trace w') = 1%nat
    /\ battles_logged (trace w') = 1%nat.
Proof.
  intros manifest.
  destruct (@Scheduler.battle_loop Lib.python Fixtures.friendly 2 Fixtures.deepseek manifest
              Fixtures.fresh_world) as [o w'] eqn:Hrun.
  assert (Ho : exists manifest', o = Return manifest'
                                 /\ battles_logged (trace w') = 1%nat).
  { vm_compute in Hrun. injection Hrun as <- <-. eexists. split; reflexivity. }
  destruct Ho as (manifest' & -> & Hlogged).
  exists manifest', w'. split; [reflexivity|].
  destruct (@saves_match_reported_battles Lib.python Fixtures.friendly 2 Fixtures.deepseek
              manifest Fixtures.fresh_world manifest' w' eq_refl Hrun)
    as (tl & Htr & Hs & _).
  cbn in Htr. subst tl. rewrite Hs, Hlogged. split; reflexivity.
Defined.

(** ** The turns of a cycle *)

Lemma runs_app (a b : list event) : runs (a ++ b) = (runs a + runs b)%nat.
Proof.
  induction a as [|ev a IH]; [reflexivity|].
  destruct ev; cbn; try exact IH. now rewrite IH.
Qed.

Lemma getitem_field (bot : value) (k : string) (v : value) :
  getitem bot k = Return v -> field k bot = Some v.
Proof.
  destruct bot as [| | | | |d]; cbn; try discriminate.
  destruct (dict_get k d); [now intros [= ->]|discriminate].
Qed.

(** Closes [Forall (made_for bot) t] for an explicit stretch [t]. *)
Ltac made_for_bot :=
  repeat first [apply Forall_nil | apply Forall_cons];
  cbn [made_for]; try exact I;
  (split; apply getitem_field; assumption).

Section Turns.

Context {L : PyStdlib}.
Variable E : environ.

Lemma check_rate_limit_turn (bot : value) (w : world) :
  exists tl,
    trace (snd (Scheduler.check_rate_limit E bot w)) = trace w ++ tl
    /\ runs tl = 0%nat
    /\ Forall (made_for bot) tl.
Proof.
  unfold Scheduler.check_rate_limit, Scheduler.requests_get_status, try_except, bind,
    lift, ret, raise, log, emit, Scheduler.response_json.
  repeat (cbn; break_match); cbn; rewrite <- ?app_assoc; cbn;
    first [ match goal with
            | |- exists tl, _ ++ ?t = _ /\ _ =>
                exists t; split; [reflexivity|]; split; [reflexivity|]; made_for_bot
            end
          | exists []; rewrite app_nil_r; repeat split; constructor ].
Qed.

Lemma run_bot_battle_turn (bot : value) (cfg : Scheduler.llm_config) (w : world) :
  exists tl,
    trace (snd (Scheduler.run_bot_battle E bot cfg w)) = trace w ++ tl
    /\ status_queries tl = 0%nat
    /\ (runs tl <= 1)%nat
    /\ Forall (made_for bot) tl.
Proof.
  unfold_runner.
  repeat (cbn; break_match); cbn; rewrite <- ?app_assoc; cbn;
    first [ match goal with
            | |- exists tl, _ ++ ?t = _ /\ _ =>
                exists t; split; [reflexivity|]; split; [reflexivity|];
                split; [cbn; lia|]; made_for_bot
            end
          | exists []; rewrite app_nil_r; split; [reflexivity|]; split; [reflexivity|];
            split; [cbn; lia|constructor] ].
Qed.

Lemma turn_of_app (bot : value) (a x : list event) :
  (status_queries a <= 1)%nat -> runs a = 0%nat -> Forall (made_for bot) a ->
  (has_credentials bot = true -> status_queries a = 1%nat) ->
  status_queries x = 0%nat -> (runs x <= 1)%nat -> Forall (made_for bot) x ->
  turn_of bot (a ++ x).
Proof.
  intros Hq Hr Hf Hc Hqx Hrx Hfx. unfold turn_of.
  rewrite status_queries_app, runs_app, Hqx, Hr, Nat.add_0_r.
  split; [exact Hq|]. split; [exact Hrx|]. split; [|exact Hc].
  apply Forall_app. now split.
Qed.

(** The stretch of trace of one turn, however the turn ends. *)
Lemma visit_bot_turn (cfg : Scheduler.llm_config) (manifest : value)
    (before : list value) (bot : value) (after : list value) (w : world) :
  exists tl,
    trace (snd (Scheduler.visit_bot E cfg manifest before bot after w)) = trace w ++ tl
    /\ turn_of bot tl.
Proof.
  destruct (check_rate_limit_frame E bot w)
    as (o1 & w1 & tl1 & Hgate & Htr1 & Hfuel1 & _ & _ & _ & _ & _ & Hq1 & _).
  destruct (check_rate_limit_turn bot w) as (tl1' & Htr1' & Hr1 & Hf1).
  rewrite Hgate in Htr1'. cbn [snd] in Htr1'. rewrite Htr1 in Htr1'.
  apply app_inv_head in Htr1'. subst tl1'.
  assert (Hc1 : has_credentials bot = true -> status_queries tl1 = 1%nat).
  { intros Hc. destruct (has_credentials_inv bot Hc) as (agent_id & key & name & Ha & Hk & Hn).
    destruct (check_rate_limit_answer E bot agent_id key name w Ha Hk Hn)
      as (w2 & tl2 & Hrun & Htr2 & Hq2 & _).
    rewrite Hgate in Hrun. injection Hrun as _ <-.
    rewrite Htr1 in Htr2. apply app_inv_head in Htr2. subst tl1. cbn. now rewrite Hq2. }
  assert (Hturn : forall x, status_queries x = 0%nat -> (runs x <= 1)%nat ->
                            Forall (made_for bot) x -> turn_of bot (tl1 ++ x))
    by (intros x; now apply turn_of_app).
  assert (Hturn0 : turn_of bot tl1).
  { rewrite <- (app_nil_r tl1). apply Hturn; [reflexivity|cbn; lia|constructor]. }
  assert (Hskip : forall (msg : value -> message) (w0 : world),
            trace w0 = trace w ++ tl1 ->
            exists tl,
              trace (snd (bind (lift (getitem bot "name"))
                            (fun name => bind (log INFO (msg name))
                                           (fun _ => ret (bot, false))) w0))
                = trace w ++ tl
              /\ turn_of bot tl).
  { intros msg w0 Htr0. unfold bind, lift, log, emit, ret.
    destruct (getitem bot "name") as [name|e|]; cbn; try now exists tl1.
    exists (tl1 ++ [Log INFO (msg name)]). rewrite Htr0, <- app_assoc.
    split; [reflexivity|]. apply Hturn; [reflexivity|cbn; lia|].
    repeat constructor. }
  unfold Scheduler.visit_bot, bind. rewrite Hgate.
  destruct o1 as [[|]|e|]; [| | |contradiction]; cbn [negb snd].
  - destruct (battled_recently_frame E bot w1)
      as (o2 & w2 & Hrecent & Hfuel2 & _ & _ & _ & _ & Htr2).
    rewrite Hrecent.
    destruct o2 as [[|]|e|]; [| | |contradiction]; cbn [snd].
    + apply (Hskip MsgBattledRecently w2). congruence.
    + destruct (run_bot_battle_frame E bot cfg w2)
        as (o3 & w3 & tl3 & Hrunner & Htr3 & Hfuel3 & _ & _ & _ & _ & Hq3).
      destruct (run_bot_battle_turn bot cfg w2) as (tl3' & Htr3' & _ & Hr3 & Hf3).
      rewrite Hrunner in Htr3'. cbn [snd] in Htr3'. rewrite Htr3 in Htr3'.
      apply app_inv_head in Htr3'. subst tl3'.
      rewrite Hrunner.
      destruct o3 as [[ok bot1]|e|]; [| |contradiction].
      * unfold Scheduler.save_manifest, write_manifest_file, sleep, emit, ret.
        destruct ok; cbn.
        -- eexists (tl1 ++ tl3 ++ [_; _]).
           split; [rewrite Htr3, Htr2, Htr1, <- !app_assoc; reflexivity|].
           apply Hturn.
           ++ rewrite status_queries_app, Hq3. reflexivity.
           ++ rewrite runs_app. cbn. lia.
           ++ apply Forall_app. split; [exact Hf3|repeat constructor].
        -- eexists (tl1 ++ tl3 ++ [_]).
           split; [rewrite Htr3, Htr2, Htr1, <- !app_assoc; reflexivity|].
           apply Hturn.
           ++ rewrite status_queries_app, Hq3. reflexivity.
           ++ rewrite runs_app. cbn. lia.
           ++ apply Forall_app. split; [exact Hf3|repeat constructor].
      * exists (tl1 ++ tl3). cbn [snd].
        split; [rewrite Htr3, Htr2, Htr1, <- !app_assoc; reflexivity|].
        now apply Hturn.
    + exists tl1. split; [congruence|exact Hturn0].
  - apply (Hskip MsgRateLimited w1). exact Htr1.
  - exists tl1. split; [exact Htr1|exact Hturn0].
Qed.

(** A pass that comes back has given every record one turn, in order. *)
Lemma battle_pass_turns (cfg : Scheduler.llm_config) (manifest : value)
    (todo : list value) :
  forall (before : list value) (k : nat) (w : world)
         (bots' : list value) (k' : nat) (w' : world),
    Scheduler.battle_pass E cfg manifest before todo k w = (Return (bots', k'), w') ->
    exists stretches,
      trace w' = trace w ++ List.concat stretches
      /\ Forall2 turn_of todo stretches.
Proof.
  induction todo as [|bot after IH]; intros before k w bots' k' w' Hpass.
  - cbn in Hpass. injection Hpass as _ _ <-. exists []. cbn.
    rewrite app_nil_r. split; [reflexivity|constructor].
  - rewrite battle_pass_cons in Hpass. unfold bind in Hpass.
    destruct (visit_bot_turn cfg manifest before bot after w) as (tl1 & Htr1 & Hturn1).
    destruct (Scheduler.visit_bot E cfg manifest before bot after w)
      as [[[bot1 ran]|e|] w1]; try discriminate.
    cbn [snd] in Htr1.
    apply IH in Hpass as (stretches & Htr & Hall).
    exists (tl1 :: stretches). cbn [List.concat].
    rewrite Htr, Htr1, <- app_assoc. split; [reflexivity|now constructor].
Qed.

(** X11. The traffic of one cycle: between its opening and its closing
    log lines the trace is one stretch for each record of the fleet, in the
    order of the fleet, and the stretch of a record holds at most one
    status query and at most one run of the subprocess, each with the id
    and the key of that record, and exactly one query when the record has
    an id, a key and a name. In all the cycle sends no more queries and
    starts no more runs than the fleet has records, and at least as many
    runs as it reports battles. *)
Theorem cycle_traffic (cfg : Scheduler.llm_config) (manifest : value) (w : world)
    (manifest' : value) (w' : world) :
  getitem manifest "bots" = Return (VList (fleet manifest)) ->
  Scheduler.battle_cycle E cfg manifest w = (Return manifest', w') ->
  (n_get w' <= n_get w + List.length (fleet manifest))%nat
  /\ (n_run w' <= n_run w + List.length (fleet manifest))%nat
  /\ (forallb has_credentials (fleet manifest) = true ->
      n_get w' = (n_get w + List.length (fleet manifest))%nat)
  /\ (exists tl,
        trace w' = trace w ++ tl
        /\ (n_run w + battles_logged tl <= n_run w')%nat)
  /\ exists stretches battles_run,
       trace w' = trace w
                  ++ [Log INFO (MsgRule "-" 30);
                      Log INFO (MsgCycleStart (clock E (n_now w)))]
                  ++ List.concat stretches
                  ++ [Log INFO (MsgCycleComplete battles_run);
                      Log INFO MsgSleeping; Sleep 600]
       /\ Forall2 turn_of (fleet manifest) stretches.
Proof.
  intros Hlist Hcycle.
  destruct (battle_cycle_facts E cfg manifest w)
    as (o & w1 & tl & Hrun & Htr & _ & _ & _ & _ & _ & Hret).
  rewrite Hcycle in Hrun. injection Hrun as <- <-.
  destruct (Hret manifest' eq_refl Hlist) as (_ & _ & _ & _ & Hget & Hruns & Hrun & Hcred).
  split; [exact Hget|]. split; [exact Hrun|]. split; [exact Hcred|].
  split; [now exists tl|].
  clear Hret Hget Hruns Hrun Hcred Htr tl.
  revert Hcycle. unfold Scheduler.battle_cycle.
  unfold bind at 1. unfold log at 1, emit. unfold bind at 1.
  unfold Scheduler.now at 1. unfold bind at 1. unfold log at 1, emit.
  unfold bind at 1. unfold lift at 1, Scheduler.bots_of. rewrite Hlist. cbn [iter].
  unfold bind at 1.
  match goal with
  | |- context [Scheduler.battle_pass E cfg manifest [] (fleet manifest) 0 ?w0] =>
      set (w2 := w0)
  end.
  assert (Htr2 : trace w2 = trace w ++ [Log INFO (MsgRule "-" 30);
                                        Log INFO (MsgCycleStart (clock E (n_now w)))])
    by (subst w2; cbn; now rewrite <- app_assoc).
  clearbody w2.
  destruct (Scheduler.battle_pass E cfg manifest [] (fleet manifest) 0 w2)
    as [[[bots' k']|e|] w3] eqn:Hpass; try discriminate.
  apply battle_pass_turns in Hpass as (stretches & Htr3 & Hall).
  unfold bind, log, sleep, emit, ret. cbn. intros [= _ <-].
  exists stretches, k'. cbn [trace]. split; [|exact Hall].
  rewrite Htr3, Htr2, <- !app_assoc. reflexivity.
Qed.

End Turns.

(** One cycle over two records with fights left. *)
Lemma cycle_traffic_witness :
  let manifest := Fixtures.fleet_of [Fixtures.agent VNone 0; Fixtures.agent VNone 3] in
  exists manifest' w',
    @Scheduler.battle_cycle Lib.python Fixtures.friendly Fixtures.deepseek manifest
       Fixtures.fresh_world = (Return manifest', w')
    /\ n_get w' = 2%nat
    /\ (n_run w' <= 2)%nat.
Proof.
  intros manifest.
  destruct (@Scheduler.battle_cycle Lib.python Fixtures.friendly Fixtures.deepseek manifest
              Fixtures.fresh_world) as [o w'] eqn:Hrun.
  assert (Ho : exists manifest', o = Return manifest').
  { vm_compute in Hrun. injection Hrun as <- _. now eexists. }
  destruct Ho as (manifest' & ->).
  exists manifest', w'. split; [reflexivity|].
  destruct (@cycle_traffic Lib.python Fixtures.friendly Fixtures.deepseek
              manifest Fixtures.fresh_world manifest' w' eq_refl Hrun)
    as (_ & Hruns & Hget & _).
  split; [exact (Hget eq_refl)|exact Hruns].
Defined.

(** ** What is on disk *)

Lemma unique_keys_dict (d : list (string * value)) :
  unique_keys (VDict d) = distinct (map fst d) && unique_members d.
Proof. reflexivity. Qed.

Lemma unique_keys_dict_set (k : string) (v : value) (d : list (string * value)) :
  unique_keys (VDict d) = true ->
  unique_keys v = true ->
  unique_keys (VDict (dict_set k v d)) = true.
Proof.
  rewrite !unique_keys_dict. intros H Hv. apply andb_prop in H as [Hd Hu].
  destruct (JsonFacts.dict_set_unique k v d Hd Hu Hv) as [Hd' Hu'].
  now rewrite Hd', Hu'.
Qed.

Lemma unique_keys_store_bots (manifest : value) (bots : list value) :
  unique_keys manifest = true ->
  forallb unique_keys bots = true ->
  unique_keys (Scheduler.store_bots manifest bots) = true.
Proof.
  intros Hm Hb. destruct manifest as [| | | | |d]; try exact Hm.
  cbn [Scheduler.store_bots].
  destruct (dict_get "bots" d) as [[| | | |l|]|]; try exact Hm.
  now apply unique_keys_dict_set.
Qed.

Section RunnerKeys.

Context {L : PyStdlib}.
Variable E : environ.

Lemma run_bot_battle_unique (bot : value) (cfg : Scheduler.llm_config) (w : world)
    (ok : bool) (bot' : value) (w' : world) :
  Scheduler.run_bot_battle E bot cfg w = (Return (ok, bot'), w') ->
  unique_keys bot = true ->
  unique_keys bot' = true.
Proof.
  unfold_runner.
  destruct bot as [| | | | |d]; cbn - [unique_keys]; try discriminate.
  repeat (cbn - [unique_keys]; break_match); try no_fuel;
    intros H; inversion H; subst; clear H;
    repeat match goal with
           | H : (_, _) = (_, _) |- _ => inversion H; subst; clear H
           end;
    try discriminate; intros Hu;
    repeat match goal with
           | H : add1 ?v = Return ?v' |- _ =>
               assert (unique_keys v' = true)
                 by (destruct v; cbn in H; try discriminate; now inversion H);
               clear H
           end;
    repeat first [ exact Hu | assumption | reflexivity | apply unique_keys_dict_set ].
Qed.

End RunnerKeys.

Section Store.

Variable E : environ.

(** X13. What [save_manifest] writes, [load_manifest] reads back: after
    a save of a manifest in which no object has a key twice, a load gives
    that manifest, field for field, without reading the clock. *)
Theorem saved_manifest_loads_back (manifest : value) (w : world) :
  unique_keys manifest = true ->
  exists w',
    (@Scheduler.save_manifest Lib.python manifest ;;
     @Scheduler.load_manifest Lib.python E)%py w = (Return manifest, w')
    /\ manifest_file w' = Some (Lib.dumps manifest)
    /\ trace w' = trace w ++ [WriteManifest (Lib.dumps manifest)]
    /\ n_now w' = n_now w.
Proof.
  intros Hu.
  unfold Scheduler.save_manifest, Scheduler.load_manifest, write_manifest_file,
    read_manifest_file, bind, ret. cbn.
  rewrite (JsonFacts.loads_dumps manifest Hu).
  eexists. split; [reflexivity|]. repeat split.
Qed.

(** X14. A battle that was run is on disk before the turn ends: after a
    turn that reports a battle the manifest file holds the fleet with the
    record as the runner left it, its count one up, and a load (after a
    restart, say) gives exactly that manifest. *)
Theorem successful_battle_is_persisted (cfg : Scheduler.llm_config) (manifest : value)
    (before : list value) (bot : value) (after : list value) (w : world)
    (bot' : value) (w' : world) :
  unique_keys manifest = true ->
  forallb unique_keys (before ++ bot :: after) = true ->
  @Scheduler.visit_bot Lib.python E cfg manifest before bot after w
    = (Return (bot', true), w') ->
  manifest_file w'
    = Some (Lib.dumps (Scheduler.store_bots manifest (before ++ bot' :: after)))
  /\ @Scheduler.load_manifest Lib.python E w'
     = (Return (Scheduler.store_bots manifest (before ++ bot' :: after)), w')
  /\ action_count bot' = action_count bot + 1.
Proof.
  intros Hm Hbots Hvisit.
  pose proof (@visit_bot_count Lib.python E cfg manifest before bot after w bot' true w'
                Hvisit) as Hcount.
  revert Hvisit. unfold Scheduler.visit_bot, bind.
  destruct (Scheduler.check_rate_limit E bot w) as [[[|]|e|] w1]; try discriminate.
  - cbn [negb].
    destruct (@Scheduler.battled_recently Lib.python E bot w1) as [[[|]|e|] w2];
      try discriminate.
    + unfold lift, log, emit, ret.
      destruct (getitem bot "name"); discriminate.
    + destruct (@Scheduler.run_bot_battle Lib.python E bot cfg w2)
        as [[[ok bot1]|e|] w3] eqn:Hrun; try discriminate.
      unfold Scheduler.save_manifest, write_manifest_file, sleep, emit, ret.
      destruct ok; cbn; intros [= <- <-]; cbn.
      split; [reflexivity|]. split; [|exact Hcount].
      unfold Scheduler.load_manifest, read_manifest_file, bind, ret. cbn.
      rewrite JsonFacts.loads_dumps; [reflexivity|].
      apply unique_keys_store_bots; [exact Hm|].
      rewrite forallb_app in *. cbn [forallb] in *.
      apply andb_prop in Hbots as [Hb Ha]. apply andb_prop in Ha as [Hbot Ha].
      rewrite Hb, Ha, (@run_bot_battle_unique Lib.python E bot cfg w2 true bot1 w3 Hrun Hbot).
      reflexivity.
  - cbn [negb]. unfold lift, log, emit, ret.
    destruct (getitem bot "name"); discriminate.
Qed.

End Store.

(** A manifest of one record. *)
Lemma saved_manifest_loads_back_witness :
  let manifest := Fixtures.fleet_of [Fixtures.agent VNone 0] in
  exists w',
    (@Scheduler.save_manifest Lib.python manifest ;;
     @Scheduler.load_manifest Lib.python Fixtures.friendly)%py Fixtures.fresh_world
      = (Return manifest, w').
Proof.
  intros manifest.
  destruct (saved_manifest_loads_back Fixtures.friendly manifest Fixtures.fresh_world
              eq_refl) as (w' & Hrun & _).
  exists w'. exact Hrun.
Defined.

(** The first battle of the second of two records. *)
Lemma successful_battle_is_persisted_witness :
  let first := Fixtures.agent (VStr "2026-11-03T13:50:00") 2 in
  let bot := Fixtures.agent VNone 0 in
  let manifest := Fixtures.fleet_of [first; bot] in
  exists bot' w',
    @Scheduler.visit_bot Lib.python Fixtures.friendly Fixtures.deepseek manifest
      [first] bot [] Fixtures.fresh_world = (Return (bot', true), w')
    /\ @Scheduler.load_manifest Lib.python Fixtures.friendly w'
       = (Return (Fixtures.fleet_of [first; bot']), w')
    /\ action_count bot' = 1.
Proof.
  intros first bot manifest.
  destruct (@Scheduler.visit_bot Lib.python Fixtures.friendly Fixtures.deepseek manifest
              [first] bot [] Fixtures.fresh_world) as [o w'] eqn:Hrun.
  assert (Ho : exists bot', o = Return (bot', true)).
  { vm_compute in Hrun. injection Hrun as <- _. now eexists. }
  destruct Ho as (bot' & ->).
  exists bot', w'. split; [reflexivity|].
  destruct (successful_battle_is_persisted Fixtures.friendly Fixtures.deepseek manifest
              [first] bot [] Fixtures.fresh_world bot' w' eq_refl eq_refl Hrun)
    as (_ & Hload & Hcount).
  split; [exact Hload|exact Hcount].
Defined.

(** ** Names and directories of the fleet manager *)

Lemma append_inv_head (p a b : string) : (p ++ a = p ++ b)%string -> a = b.
Proof. induction p as [|c p IH]; cbn; [auto|]. intros [= H]. now apply IH. Qed.

Lemma append_assoc (a b c : string) : ((a ++ b) ++ c)%string = (a ++ (b ++ c))%string.
Proof. induction a as [|x a IH]; cbn; [reflexivity|now rewrite IH]. Qed.

Lemma append_nil_r (s : string) : (s ++ "")%string = s.
Proof. induction s as [|c s IH]; cbn; [reflexivity|now rewrite IH]. Qed.

(** A text without digits followed by digits splits in one way only. *)
Lemma split_digits (x : string) :
  forall (y dx dy : string),
    no_digit x = true -> no_digit y = true ->
    all_digits dx = true -> all_digits dy = true ->
    (x ++ dx = y ++ dy)%string ->
    x = y /\ dx = dy.
Proof.
  unfold no_digit, all_digits.
  induction x as [|c x IH]; intros [|c' y] dx dy Hx Hy Hdx Hdy; cbn in *.
  - auto.
  - intros ->. cbn in Hdx. apply andb_prop in Hy as [Hc _]. apply andb_prop in Hdx as [Hc' _].
    rewrite Hc in Hc'. discriminate.
  - intros <-. cbn in Hdy. apply andb_prop in Hx as [Hc _]. apply andb_prop in Hdy as [Hc' _].
    rewrite Hc in Hc'. discriminate.
  - intros [= <- H]. apply andb_prop in Hx as [_ Hx]. apply andb_prop in Hy as [_ Hy].
    destruct (IH y dx dy Hx Hy Hdx Hdy H) as [-> ->]. auto.
Qed.

Lemma string_of_uint_digits (d : Decimal.uint) :
  all_digits (NilEmpty.string_of_uint d) = true.
Proof. unfold all_digits. induction d; cbn; auto. Qed.

Lemma str_of_nat_digits (n : nat) : all_digits (str_of_nat n) = true.
Proof.
  unfold str_of_nat, NilZero.string_of_uint.
  destruct (Nat.to_uint n) eqn:Hd; try reflexivity;
    rewrite <- Hd; apply string_of_uint_digits.
Qed.

Lemma str_of_nat_not_empty (n : nat) : str_of_nat n <> ""%string.
Proof.
  unfold str_of_nat, NilZero.string_of_uint.
  destruct (Nat.to_uint n); cbn; discriminate.
Qed.

(** [int(str(n)) == n] *)
Lemma nat_of_text_str (n : nat) : nat_of_text (str_of_nat n) = n.
Proof.
  unfold nat_of_text, str_of_nat, NilZero.string_of_uint.
  pose proof (DecimalNat.Unsigned.of_to n) as Hn.
  destruct (Nat.to_uint n) eqn:Hd;
    try (rewrite <- Hd, NilEmpty.usu; rewrite Hd; exact Hn).
  cbn in *. now subst n.
Qed.

Lemma str_of_nat_inj (a b : nat) : str_of_nat a = str_of_nat b -> a = b.
Proof. intros H. rewrite <- (nat_of_text_str a), <- (nat_of_text_str b). now rewrite H. Qed.

Lemma nat_of_text_zeros (k : nat) (s : string) :
  nat_of_text (zeros k ++ s) = nat_of_text s.
Proof.
  induction k as [|k IH]; [reflexivity|].
  change (zeros (S k) ++ s)%string with (String "0" (zeros k ++ s)).
  unfold nat_of_text in *. cbn [NilEmpty.uint_of_string].
  destruct (NilEmpty.uint_of_string (zeros k ++ s)) as [d|]; cbn; [|exact IH].
  exact IH.
Qed.

Lemma round_number_digits (q : nat) : all_digits (round_number q) = true.
Proof.
  unfold round_number. destruct (1 <? q + 1)%nat; [apply str_of_nat_digits|reflexivity].
Qed.

Lemma round_number_inj (a b : nat) : round_number a = round_number b -> a = b.
Proof.
  unfold round_number.
  destruct (1 <? a + 1)%nat eqn:Ha; destruct (1 <? b + 1)%nat eqn:Hb.
  - intros H. apply str_of_nat_inj in H. lia.
  - intros H. now apply str_of_nat_not_empty in H.
  - intros H. symmetry in H. now apply str_of_nat_not_empty in H.
  - apply Nat.ltb_ge in Ha, Hb. lia.
Qed.

Lemma forallb_seq (f : nat -> bool) (n : nat) :
  forallb f (seq 0 n) = true -> forall a, (a < n)%nat -> f a = true.
Proof.
  intros H a Ha. rewrite forallb_forall in H. apply H. apply in_seq. lia.
Qed.

Lemma distinct_nth (l : list string) :
  distinct l = true ->
  forall a b, (a < List.length l)%nat -> (b < List.length l)%nat ->
              nth a l ""%string = nth b l ""%string -> a = b.
Proof.
  induction l as [|x l IH]; cbn [distinct List.length]; intros H a b Ha Hb Hab; [lia|].
  apply andb_prop in H as [Hx Hl]. apply negb_true_iff in Hx.
  assert (Hnot : forall c, (c < List.length l)%nat -> x <> nth c l ""%string).
  { intros c Hc Heq.
    assert (Hin : existsb (String.eqb x) l = true).
    { apply existsb_exists. exists (nth c l ""%string).
      split; [now apply nth_In|now apply String.eqb_eq]. }
    congruence. }
  destruct a as [|a], b as [|b]; cbn [nth] in Hab.
  - reflexivity.
  - exfalso. apply (Hnot b); [lia|exact Hab].
  - exfalso. apply (Hnot a); [lia|now symmetry].
  - f_equal. apply IH; auto; lia.
Qed.

Lemma base_name_inj (a b : nat) :
  (a < 870)%nat -> (b < 870)%nat -> base_name a = base_name b -> a = b.
Proof.
  intros Ha Hb H.
  assert (Hall : distinct (map base_name (seq 0 870)) = true) by (vm_compute; reflexivity).
  assert (Hlen : List.length (map base_name (seq 0 870)) = 870%nat)
    by (now rewrite length_map, length_seq).
  assert (Hnth : forall c, (c < 870)%nat ->
                           nth c (map base_name (seq 0 870)) ""%string = base_name c).
  { intros c Hc.
    rewrite (nth_indep _ ""%string (base_name 0)) by (rewrite Hlen; exact Hc).
    rewrite map_nth, seq_nth by exact Hc. reflexivity. }
  apply (distinct_nth _ Hall); rewrite ?Hlen, ?Hnth; assumption.
Qed.

Lemma base_name_no_digit (a : nat) : (a < 870)%nat -> no_digit (base_name a) = true.
Proof.
  assert (Hall : forallb (fun a => no_digit (base_name a)) (seq 0 870) = true)
    by (vm_compute; reflexivity).
  exact (forallb_seq _ _ Hall a).
Qed.

(** A name is the base name of the index within its round of 870 and the
    number of the round. *)
Lemma generate_bot_name_parts (i : nat) :
  FleetManager.generate_bot_name i
    = (base_name (i mod 870) ++ round_number (i / 870))%string.
Proof.
  unfold FleetManager.generate_bot_name, base_name, round_number.
  change (List.length FleetManager.NAME_PREFIXES) with 30%nat.
  change (List.length FleetManager.NAME_SUFFIXES) with 29%nat.
  change (30 * 29)%nat with 870%nat.
  assert (H30 : ((i mod 870) mod 30 = i mod 30)%nat).
  { change 870%nat with (30 * 29)%nat.
    rewrite Nat.Div0.mod_mul_r, Nat.mul_comm, Nat.Div0.mod_add.
    apply Nat.Div0.mod_mod. }
  assert (H29 : (((i mod 870) * 7) mod 29 = (i * 7) mod 29)%nat).
  { rewrite (Nat.div_mod_eq i 870) at 2.
    replace ((870 * (i / 870) + i mod 870) * 7)%nat
      with ((i mod 870) * 7 + (210 * (i / 870)) * 29)%nat by lia.
    now rewrite Nat.Div0.mod_add. }
  rewrite H30, H29.
  destruct (1 <? i / 870 + 1)%nat.
  - now rewrite append_assoc.
  - now rewrite append_nil_r.
Qed.

(** X16. [generate_bot_name] gives every index a name of its own: two
    indices with the same name are the same index. *)
Theorem generate_bot_name_injective (i j : nat) :
  FleetManager.generate_bot_name i = FleetManager.generate_bot_name j <-> i = j.
Proof.
  split; [|now intros ->].
  rewrite !generate_bot_name_parts. intros H.
  assert (Hi : (i mod 870 < 870)%nat) by (apply Nat.mod_upper_bound; discriminate).
  assert (Hj : (j mod 870 < 870)%nat) by (apply Nat.mod_upper_bound; discriminate).
  apply split_digits in H as [Hbase Hround];
    auto using base_name_no_digit, round_number_digits.
  apply base_name_inj in Hbase; [|assumption|assumption].
  apply round_number_inj in Hround.
  rewrite (Nat.div_mod_eq i 870), (Nat.div_mod_eq j 870). congruence.
Qed.

Lemma format_03d_zeros (n : nat) :
  FleetManager.format_03d n
    = (zeros (3 - String.length (str_of_nat n)) ++ str_of_nat n)%string.
Proof. reflexivity. Qed.

(** [int(f"{n:03d}") == n] *)
Lemma nat_of_text_format_03d (n : nat) : nat_of_text (FleetManager.format_03d n) = n.
Proof. now rewrite format_03d_zeros, nat_of_text_zeros, nat_of_text_str. Qed.

(** X17. No two bots share a directory: the directory name
    [bot_<id, three digits at least>] determines the id, so the set-up of
    one bot never writes into the directory of another. *)
Theorem bot_dir_injective (BOTS_DIR : string) (i j : nat) :
  FleetManager.bot_dir BOTS_DIR i = FleetManager.bot_dir BOTS_DIR j <-> i = j.
Proof.
  split; [|now intros ->].
  unfold FleetManager.bot_dir, FleetManager.bot_dir_name. intros H.
  do 3 apply append_inv_head in H.
  rewrite <- (nat_of_text_format_03d i), <- (nat_of_text_format_03d j). now rewrite H.
Qed.

(** X18. [create_bot_config] never fails on a provider object: every bot
    id has a personality, every personality has a prompt, and the
    configuration carries the provider as given, the model of the provider
    (["deepseek/deepseek-chat"] when it names none), the directory of the
    bot and the two credentials, in the prompt and in the environment. *)
Theorem create_bot_config_total (BOTS_DIR : string) (bot_id : nat)
    (agent_id api_key : string) (provider : list (string * value)) :
  exists prompt,
    In (FleetManager.generate_bot_personality bot_id, prompt)
       FleetManager.personality_prompts
    /\ In (FleetManager.generate_bot_personality bot_id) FleetManager.PERSONALITIES
    /\ FleetManager.create_bot_config BOTS_DIR bot_id agent_id api_key (VDict provider)
       = Return
           (VDict
              [("providers", VDict provider);
               ("agents",
                VDict [("defaults",
                        VDict [("model",
                                match dict_get "default_model" provider with
                                | Some model => model
                                | None => VStr "deepseek/deepseek-chat"
                                end);
                               ("systemPrompt",
                                VStr (FleetManager.system_prompt
                                        (FleetManager.generate_bot_personality bot_id)
                                        prompt agent_id api_key))])]);
               ("workspace", VStr (FleetManager.bot_dir BOTS_DIR bot_id));
               ("env", VDict [("CLAWCOMBAT_AGENT_ID", VStr agent_id);
                              ("CLAWCOMBAT_API_KEY", VStr api_key)])]).
Proof.
  unfold FleetManager.create_bot_config, FleetManager.generate_bot_personality.
  change (List.length FleetManager.PERSONALITIES) with 8%nat.
  assert (H : (bot_id mod 8 < 8)%nat) by (apply Nat.mod_upper_bound; discriminate).
  cbn [get].
  destruct (bot_id mod 8)%nat as [|[|[|[|[|[|[|[|k]]]]]]]]; [..|lia];
    (eexists; split; [|split; [|destruct (dict_get "default_model" provider); reflexivity]];
     cbn; tauto).
Qed.

(** ** The set-up loop of the fleet manager *)

Lemma requested_names_app (a b : list event) :
  requested_names (a ++ b) = requested_names a ++ requested_names b.
Proof.
  induction a as [|ev a IH]; [reflexivity|].
  destruct ev; cbn; try exact IH.
  destruct (field "name" payload); cbn; now rewrite IH.
Qed.

Lemma append_raises (o x : value) (e : exn) :
  append o x = Raise e -> is_Exception e = true.
Proof. destruct o; cbn; try discriminate; intros [= <-]; reflexivity. Qed.

Section Creation.

Context {L : PyStdlib}.
Variable E : environ.

Lemma register_on_clawcombat_cases (i : nat) (w : world) :
  exists o w' tl,
    FleetManager.register_bot_on_clawcombat E i w = (o, w')
    /\ trace w' = trace w ++ PostRegister (fm_payload i) :: tl
    /\ n_post w' = S (n_post w)
    /\ manifest_file w' = manifest_file w
    /\ n_now w' = n_now w
    /\ match fm_credentials (register_response E (n_post w)) with
       | Some credentials => o = Return credentials /\ tl = []
       | None =>
           exists e, o = Raise e /\ is_Exception e = true
                     /\ tl = [PrintLine (MsgFailedToRegister i e)]
       end.
Proof.
  unfold FleetManager.register_bot_on_clawcombat, fm_payload, fm_credentials.
  generalize (FleetManager.generate_bot_name i) as name.
  generalize (FleetManager.upper (nth (i mod List.length FleetManager.LOBSTER_TYPES)
                                      FleetManager.LOBSTER_TYPES "")) as type.
  intros type name.
  unfold Scheduler.requests_post_register, Scheduler.raise_for_status,
    Scheduler.response_json, emit, bind, try_except, lift, ret, raise.
  cbn.
  destruct (register_response E (n_post w)) as [cause|status [[| | | | |top]|]]; cbn;
    try destruct (Scheduler.response_ok status); cbn;
    try (destruct (dict_get "data" top) as [[| | | | |d]|]; cbn);
    try (destruct (dict_get "agent_id" d) as [agent_id|]; cbn);
    try (destruct (dict_get "api_key" d) as [key|]; cbn);
    (eexists _, _, _; split; [reflexivity|]; cbn; rewrite <- ?app_assoc; cbn;
     split; [reflexivity|]; repeat split;
     try (eexists; repeat split; reflexivity)).
Qed.

(** X19. The fleet manager's registration sends one request, for the name
    of the slot and its type in capitals, and returns the id and the key of
    an answer that has both; on any other answer it prints the failure and
    raises it again to its caller, never anything but an [Exception]. *)
Theorem register_on_clawcombat_outcome (i : nat) (w : world) :
  exists o w' tl,
    FleetManager.register_bot_on_clawcombat E i w = (o, w')
    /\ trace w' = trace w ++ PostRegister (fm_payload i) :: tl
    /\ n_post w' = S (n_post w)
    /\ manifest_file w' = manifest_file w
    /\ n_now w' = n_now w
    /\ match fm_credentials (register_response E (n_post w)) with
       | Some credentials => o = Return credentials /\ tl = []
       | None =>
           exists e, o = Raise e /\ is_Exception e = true
                     /\ tl = [PrintLine (MsgFailedToRegister i e)]
       end.
Proof. exact (register_on_clawcombat_cases i w). Qed.


End Creation.

Arguments FleetManager.generate_bot_name : simpl never.
Arguments FleetManager.generate_bot_personality : simpl never.
Arguments FleetManager.register_bot_on_clawcombat : simpl never.
Arguments fm_payload : simpl never.

Section CreationLoop.

Context {L : PyStdlib}.
Variable E : environ.

(** One turn of the set-up loop always goes on to the next slot. *)
Lemma create_bots_cons (i : nat) (rest : list nat) (manifest : value) (w : world) :
  exists manifest1 w1 tl,
    FleetManager.create_bots E (i :: rest) manifest w
      = FleetManager.create_bots E rest manifest1 w1
    /\ trace w1 = trace w ++ tl
    /\ requested_names tl = [VStr (FleetManager.generate_bot_name i)]
    /\ n_post w1 = S (n_post w).
Proof.
  cbn [FleetManager.create_bots]. unfold bind at 1. unfold emit at 1.
  unfold bind at 1.
  match goal with
  | |- context [try_except _ _ ?w0] => set (w0' := w0)
  end.
  destruct (register_on_clawcombat_cases E i w0')
    as (o & w1 & tl & Hreg & Htr & Hpost & _ & _ & Hcases).
  unfold try_except, bind at 1. rewrite Hreg.
  assert (Hname : requested_names (PostRegister (fm_payload i) :: tl)
                  = [VStr (FleetManager.generate_bot_name i)]).
  { destruct (fm_credentials (register_response E (n_post w0'))) as [c|].
    - destruct Hcases as [_ ->]. reflexivity.
    - destruct Hcases as (e & _ & _ & ->). reflexivity. }
  assert (Hpost0 : n_post w1 = S (n_post w)) by (rewrite Hpost; reflexivity).
  assert (Htr0 : trace w1 = trace w ++ PrintLine (MsgSettingUp (i + 1))
                                    :: PostRegister (fm_payload i) :: tl).
  { rewrite Htr. subst w0'. cbn. now rewrite <- app_assoc. }
  clearbody w0'. clear Hreg Htr Hpost.
  destruct (fm_credentials (register_response E (n_post w0'))) as [[agent_id key]|].
  - destruct Hcases as [-> ->].
    unfold Scheduler.now, write_manifest_file, sleep, emit, bind, lift, ret.
    destruct manifest as [| | | | |d];
    repeat (cbn; break_match); try no_fuel;
      try (exfalso;
           match goal with
           | H : append _ _ = Raise ?e, H' : is_Exception ?e = false |- _ =>
               apply append_raises in H; congruence
           end);
      repeat match goal with
             | H : (_, _) = (_, _) |- _ => inversion H; subst; clear H
             end;
      try discriminate;
      (eexists _, _, _; split; [reflexivity|]; cbn [trace n_post];
       rewrite Htr0, <- ?app_assoc; cbn [app];
       split; [reflexivity|]; split; [|exact Hpost0];
       match goal with
       | |- requested_names (?a :: ?b :: ?t) = _ =>
           change (requested_names (a :: b :: t)) with (requested_names (b :: t))
       end;
       change (PostRegister (fm_payload i) :: ?t)
         with ((PostRegister (fm_payload i) :: []) ++ t);
       rewrite requested_names_app; reflexivity).
  - destruct Hcases as (e & -> & He & ->). rewrite He.
    unfold emit, bind, ret. cbn.
    eexists _, _, _. split; [reflexivity|]. cbn.
    rewrite Htr0, <- ?app_assoc. cbn. split; [reflexivity|]. split; [|exact Hpost0].
    reflexivity.
Qed.

(** The same turn on a manifest with a list of bots: the record of the
    slot is appended and saved when the answer carries credentials, and
    nothing changes when it does not. *)
Lemma create_bots_cons_wf (i : nat) (rest : list nat) (d : list (string * value))
    (bots : list value) (w : world) :
  dict_get "bots" d = Some (VList bots) ->
  exists w1,
    FleetManager.create_bots E (i :: rest) (VDict d) w
      = FleetManager.create_bots E rest
          (VDict (dict_set "bots"
                    (VList (bots ++ fm_records E (n_post w) (n_now w) [i])) d)) w1
    /\ n_post w1 = S (n_post w)
    /\ n_now w1 = (n_now w + List.length (fm_records E (n_post w) (n_now w) [i]))%nat
    /\ manifest_file w1 =
         match fm_records E (n_post w) (n_now w) [i] with
         | [] => manifest_file w
         | _ => Some (json_dumps
                        (VDict (dict_set "bots"
                                  (VList (bots ++ fm_records E (n_post w) (n_now w) [i]))
                                  d)))
         end.
Proof.
  intros Hbots.
  cbn [FleetManager.create_bots fm_records]. unfold bind at 1. unfold emit at 1.
  unfold bind at 1.
  match goal with
  | |- context [try_except _ _ ?w0] => set (w0' := w0)
  end.
  destruct (register_on_clawcombat_cases E i w0')
    as (o & w1 & tl & Hreg & _ & Hpost & Hfile & Hnow & Hcases).
  unfold try_except, bind at 1. rewrite Hreg.
  change (n_post w0') with (n_post w) in *.
  change (n_now w0') with (n_now w) in *.
  change (manifest_file w0') with (manifest_file w) in *.
  clearbody w0'. clear Hreg.
  destruct (fm_credentials (register_response E (n_post w))) as [[agent_id key]|].
  - destruct Hcases as [-> _].
    unfold Scheduler.now, write_manifest_file, sleep, emit, bind, lift, ret.
    cbn. rewrite Hbots. cbn. rewrite Hnow.
    eexists. split; [reflexivity|]. cbn. rewrite ?Hpost, ?Hnow.
    split; [reflexivity|]. split; [lia|reflexivity].
  - destruct Hcases as (e & -> & He & _). rewrite He.
    unfold emit, bind, ret. cbn.
    rewrite app_nil_r, (dict_set_same_id _ _ _ Hbots).
    eexists. split; [reflexivity|]. cbn. rewrite ?Hpost, ?Hnow, ?Hfile.
    split; [reflexivity|]. split; [lia|reflexivity].
Qed.

Lemma fm_records_cons (p k i : nat) (rest : list nat) :
  fm_records E p k (i :: rest)
    = fm_records E p k [i]
      ++ fm_records E (S p) (k + List.length (fm_records E p k [i])) rest.
Proof.
  cbn [fm_records].
  destruct (fm_credentials (register_response E p)) as [[agent_id key]|]; cbn.
  - now rewrite Nat.add_1_r.
  - now rewrite Nat.add_0_r.
Qed.

Lemma create_bots_run (indices : list nat) :
  forall (d : list (string * value)) (bots : list value) (w : world),
    dict_get "bots" d = Some (VList bots) ->
    exists w',
      FleetManager.create_bots E indices (VDict d) w
        = (Return (VDict (dict_set "bots"
                            (VList (bots ++ fm_records E (n_post w) (n_now w) indices)) d)),
           w')
      /\ n_post w' = (n_post w + List.length indices)%nat
      /\ manifest_file w' =
           match fm_records E (n_post w) (n_now w) indices with
           | [] => manifest_file w
           | _ => Some (json_dumps
                          (VDict (dict_set "bots"
                                    (VList (bots ++ fm_records E (n_post w) (n_now w) indices))
                                    d)))
           end.
Proof.
  induction indices as [|i rest IH]; intros d bots w Hbots.
  - exists w. cbn. rewrite app_nil_r, (dict_set_same_id _ _ _ Hbots), Nat.add_0_r.
    repeat split.
  - destruct (create_bots_cons_wf i rest d bots w Hbots) as (w1 & Hstep & Hpost & Hnow & Hfile).
    rewrite Hstep, (fm_records_cons (n_post w) (n_now w) i rest).
    set (new1 := fm_records E (n_post w) (n_now w) [i]) in *.
    destruct (IH (dict_set "bots" (VList (bots ++ new1)) d) (bots ++ new1) w1
                 (dict_get_set_same _ _ _)) as (w' & Hrun & Hpost' & Hfile').
    rewrite Hpost, Hnow in Hrun, Hfile'.
    set (new2 := fm_records E (S (n_post w)) (n_now w + List.length new1) rest) in *.
    rewrite dict_set_set, <- app_assoc in Hrun, Hfile'.
    exists w'. split; [exact Hrun|]. split; [cbn; lia|].
    rewrite Hfile'. destruct new2 as [|b new2].
    + rewrite app_nil_r. rewrite Hfile. destruct new1; reflexivity.
    + destruct new1; reflexivity.
Qed.

Lemma create_bots_requests (indices : list nat) (manifest : value) (w : world) :
  exists manifest' w' tl,
    FleetManager.create_bots E indices manifest w = (Return manifest', w')
    /\ trace w' = trace w ++ tl
    /\ requested_names tl = map (fun i => VStr (FleetManager.generate_bot_name i)) indices
    /\ n_post w' = (n_post w + List.length indices)%nat.
Proof.
  revert manifest w. induction indices as [|i rest IH]; intros manifest w.
  - exists manifest, w, []. rewrite app_nil_r, Nat.add_0_r. repeat split.
  - destruct (create_bots_cons i rest manifest w) as (manifest1 & w1 & tl1 & Hstep & Htr1 & Hn1 & Hp1).
    destruct (IH manifest1 w1) as (manifest' & w' & tl & Hrun & Htr & Hn & Hp).
    exists manifest', w', (tl1 ++ tl). rewrite Hstep.
    split; [exact Hrun|].
    rewrite Htr, Htr1, <- app_assoc, requested_names_app, Hn1, Hn.
    repeat split. cbn. lia.
Qed.

(** X20. The set-up loop tries every slot of its range once, in order,
    whatever fails on the way, and always comes back: it asks for the name
    of each slot, one request per slot, and raises nothing. *)
Theorem create_bots_tries_every_slot (indices : list nat) (manifest : value) (w : world) :
  exists manifest' w' tl,
    FleetManager.create_bots E indices manifest w = (Return manifest', w')
    /\ trace w' = trace w ++ tl
    /\ requested_names tl = map (fun i => VStr (FleetManager.generate_bot_name i)) indices
    /\ n_post w' = (n_post w + List.length indices)%nat.
Proof. exact (create_bots_requests indices manifest w). Qed.

(** X21. On a manifest with a list of bots, the set-up loop appends the
    record of every slot whose answer carries an id and a key, in the
    order of the slots, and of no other; once a record is appended the
    manifest file holds the manifest the loop returns. *)
Theorem create_bots_appends_granted (indices : list nat) (d : list (string * value))
    (bots : list value) (w : world) :
  dict_get "bots" d = Some (VList bots) ->
  exists manifest' w',
    FleetManager.create_bots E indices (VDict d) w = (Return manifest', w')
    /\ fleet manifest' = bots ++ fm_records E (n_post w) (n_now w) indices
    /\ same_header (VDict d) manifest'
    /\ (fm_records E (n_post w) (n_now w) indices <> [] ->
        manifest_file w' = Some (json_dumps manifest'))
    /\ (fm_records E (n_post w) (n_now w) indices = [] ->
        manifest' = VDict d /\ manifest_file w' = manifest_file w).
Proof.
  intros Hbots.
  destruct (create_bots_run indices d bots w Hbots) as (w' & Hrun & _ & Hfile).
  eexists _, w'. split; [exact Hrun|].
  unfold fleet. rewrite dict_get_set_same. split; [reflexivity|].
  split; [intros k Hk; now apply field_set_other|].
  destruct (fm_records E (n_post w) (n_now w) indices) as [|b new].
  - split; [congruence|]. intros _.
    rewrite app_nil_r, (dict_set_same_id _ _ _ Hbots). auto.
  - split; [intros _; exact Hfile|discriminate].
Qed.

End CreationLoop.

(** ** The fleet manager as a whole, and its records in the scheduler *)

Section Setup.

Context {L : PyStdlib}.
Variable E : environ.

(** X22. The fleet manager takes up at the number of records it finds,
    not at the slots that are missing: with [n] records in the manifest it
    asks for the names of the slots [n], [n+1], ..., 99 in this order, one
    request each, whatever ids the records carry, and appends the records
    of the slots that were granted; with 100 records or more it registers
    nobody. It always finishes. *)
Theorem fleet_setup_resumes_at_count (w w0 : world) (d : list (string * value))
    (bots : list value) :
  FleetManager.load_or_create E w = (Return (VDict d), w0) ->
  dict_get "bots" d = Some (VList bots) ->
  exists manifest' w' tl,
    FleetManager.main E w = (Return manifest', w')
    /\ trace w' = trace w0 ++ tl
    /\ requested_names tl
       = map (fun i => VStr (FleetManager.generate_bot_name i))
             (seq (List.length bots) (100 - List.length bots))
    /\ n_post w' = (n_post w0 + (100 - List.length bots))%nat
    /\ fleet manifest'
       = bots ++ fm_records E (n_post w0) (n_now w0)
                   (seq (List.length bots) (100 - List.length bots)).
Proof.
  intros Hload Hbots.
  unfold FleetManager.main. rewrite (bind_return _ _ _ _ _ Hload).
  unfold bind at 1. unfold lift at 1. cbn [getitem]. rewrite Hbots.
  unfold bind at 1. unfold lift at 1. cbn [len].
  unfold bind at 1. unfold emit at 1.
  change FleetManager.FLEET_SIZE with 100%nat.
  set (indices := seq (List.length bots) (100 - List.length bots)).
  match goal with
  | |- context [bind (FleetManager.create_bots E indices (VDict d)) _ ?w1] =>
      set (w1' := w1)
  end.
  destruct (create_bots_requests E indices (VDict d) w1')
    as (manifest1 & w2 & tl & Hrun & Htr & Hnames & Hpost).
  destruct (create_bots_run E indices d bots w1' Hbots) as (w2' & Hrun' & _).
  rewrite Hrun in Hrun'. injection Hrun' as -> <-.
  unfold bind at 1. rewrite Hrun.
  unfold bind, lift, emit, ret. cbn. rewrite dict_get_set_same. cbn.
  eexists _, _, (PrintLine (MsgPlan 100 (List.length bots)) :: tl ++ [_; _]).
  split; [reflexivity|]. cbn.
  rewrite Htr. subst w1'. cbn. rewrite <- !app_assoc. cbn.
  split; [reflexivity|].
  rewrite requested_names_app, Hnames, app_nil_r.
  split; [reflexivity|].
  rewrite Hpost. cbn. subst indices. rewrite length_seq.
  split; [reflexivity|].
  unfold fleet. now rewrite dict_get_set_same.
Qed.

(** X23. A record as the fleet manager writes it has no API key, so the
    scheduler never battles with it: the gate fails on the missing key
    before any request is sent, logs the warning and says no, and the turn
    skips the record as rate limited, without a query and without a run. *)
Theorem fleet_manager_record_is_never_battled (cfg : Scheduler.llm_config)
    (manifest : value) (before after : list value) (i : nat) (agent_id : value)
    (t : Z) (w : world) :
  Scheduler.check_rate_limit E (fm_record i agent_id t) w =
    (Return false,
     {| manifest_file := manifest_file w;
        trace := trace w ++ [Log WARNING
                               (MsgRateCheckFailed
                                  (VStr (FleetManager.generate_bot_name i))
                                  (KeyError "api_key"))];
        n_post := n_post w; n_get := n_get w;
        n_run := n_run w; n_now := n_now w |})
  /\ Scheduler.visit_bot E cfg manifest before (fm_record i agent_id t) after w =
       (Return (fm_record i agent_id t, false),
        {| manifest_file := manifest_file w;
           trace := trace w ++ [Log WARNING
                                  (MsgRateCheckFailed
                                     (VStr (FleetManager.generate_bot_name i))
                                     (KeyError "api_key"));
                                Log INFO (MsgRateLimited
                                            (VStr (FleetManager.generate_bot_name i)))];
           n_post := n_post w; n_get := n_get w;
           n_run := n_run w; n_now := n_now w |}).
Proof.
  assert (Hgate : Scheduler.check_rate_limit E (fm_record i agent_id t) w =
    (Return false,
     {| manifest_file := manifest_file w;
        trace := trace w ++ [Log WARNING
                               (MsgRateCheckFailed
                                  (VStr (FleetManager.generate_bot_name i))
                                  (KeyError "api_key"))];
        n_post := n_post w; n_get := n_get w;
        n_run := n_run w; n_now := n_now w |})) by reflexivity.
  split; [exact Hgate|].
  unfold Scheduler.visit_bot. rewrite (bind_return _ _ _ _ _ Hgate). cbn [negb].
  unfold bind, lift, log, emit, ret. cbn. rewrite <- app_assoc. reflexivity.
Qed.

End Setup.

(** A second run over a manifest whose only record is that of slot 1, the
    registration of slot 0 having failed in the first run: the name of
    slot 1 is asked for again. *)
Lemma fleet_setup_resumes_at_count_witness :
  let record := @fm_record Lib.python 1 (VStr "agent-0") Fixtures.t0 in
  let w := Fixtures.world_with_file (Lib.dumps (Fixtures.fleet_of [record])) in
  exists manifest' w' tl,
    @FleetManager.main Lib.python Fixtures.friendly w = (Return manifest', w')
    /\ trace w' = PrintLine (MsgLoaded 1) :: tl
    /\ nth 0 (requested_names tl) VNone = VStr (FleetManager.generate_bot_name 1)
    /\ field "name" record = Some (VStr (FleetManager.generate_bot_name 1))
    /\ n_post w' = 99%nat.
Proof.
  intros record w.
  destruct (@fleet_setup_resumes_at_count Lib.python Fixtures.friendly w
              {| manifest_file := manifest_file w;
                 trace := [PrintLine (MsgLoaded 1)];
                 n_post := 0; n_get := 0; n_run := 0; n_now := 0 |}
              [("bots", VList [record]); ("created", VStr "2026-11-03T12:00:00")]
              [record])
    as (manifest' & w' & tl & Hrun & Htr & Hnames & Hpost & _).
  - vm_compute. reflexivity.
  - reflexivity.
  - exists manifest', w', tl. split; [exact Hrun|]. split; [exact Htr|].
    rewrite Hnames. split; [reflexivity|]. split; [reflexivity|exact Hpost].
Defined.

(** Three slots on an empty manifest, every answer good. *)
Lemma create_bots_appends_granted_witness :
  exists manifest' w',
    @FleetManager.create_bots Lib.python Fixtures.friendly [0; 1; 2]%nat
       (Fixtures.fleet_of []) Fixtures.fresh_world = (Return manifest', w')
    /\ List.length (fleet manifest') = 3%nat
    /\ manifest_file w' = Some (Lib.dumps manifest').
Proof.
  destruct (@create_bots_appends_granted Lib.python Fixtures.friendly [0; 1; 2]%nat
              [("bots", VList []); ("created", VStr "2026-11-03T12:00:00")] []
              Fixtures.fresh_world eq_refl)
    as (manifest' & w' & Hrun & Hfleet & _ & Hfile & _).
  exists manifest', w'. split; [exact Hrun|]. split.
  - rewrite Hfleet. reflexivity.
  - apply Hfile. discriminate.
Defined.
